(** * PharmaChain backend: verification and integrity engine

    A shallow embedding of the Python backend under [backend/app]
    (utils/hashing.py, utils/validation.py, utils/blockchain.py,
    routes/drugs.py, routes/verification.py, routes/audit.py,
    routes/auth.py) and the properties of it that the specification states,
    followed by further properties of the same code.

    Conventions of the embedding.
    - A Python [str] is a Rocq [string], one character per code point; the
      model is exact for code points below 256 (wallet addresses, hashes,
      role names and the canonical JSON text are ASCII).
    - A Python [dict] whose keys are not fixed by the code is an association
      list in insertion order with pairwise distinct keys; a document with a
      fixed shape is a record.
    - A Python [set] of strings is a [gset string].
    - A Python [float] is a binary64 [float]; [int] is [Z] or [nat].
    - A raised exception is the left injection of a sum; code that runs
      against the database threads a [World] and keeps the mutations made
      before the exception was raised. *)

From Stdlib Require Import ZArith String Ascii List Bool Floats Uint63.
From Stdlib Require Import Permutation Sorted.
From stdpp Require Import gmap strings list pretty.

Set Warnings "-register-all".

Open Scope string_scope.
Open Scope Z_scope.
Open Scope list_scope.

(** ** Python values *)

Module Py.

(** [str.lower] on code points below 256: the ASCII capitals and the
    Latin-1 capitals U+00C0..U+00DE (U+00D7, the multiplication sign,
    excepted) move up by 32; everything else is left as it is. *)
Definition lower_char (c : ascii) : ascii :=
  let n := N_of_ascii c in
  if ((65 <=? n) && (n <=? 90)
      || (192 <=? n) && (n <=? 222) && negb (n =? 215))%N
  then ascii_of_N (n + 32) else c.

Fixpoint lower (s : string) : string :=
  match s with
  | EmptyString => EmptyString
  | String c r => String (lower_char c) (lower r)
  end.

(** Text built by an f-string: the pieces in order.  A float formatted with
    [:.1f] and the [str(e)] of an exception stay symbolic pieces. *)
Inductive exn : Type :=
| HTTPException (status_code : Z) (detail : list frag)
| PyError (cls : string) (about : string)
with frag : Type :=
| Lit (s : string)
| Fixed1 (f : float)
| StrOf (e : exn).

Definition text := list frag.

Definition is_HTTPException (e : exn) : bool :=
  match e with HTTPException _ _ => true | PyError _ _ => false end.

(** JSON-shaped Python data: [None], [bool], a number (kept as the literal
    that [repr] gives and [json.dumps] writes), [str], [list], [dict]. *)
Inductive json : Type :=
| JNull
| JBool (b : bool)
| JNum (literal : string)
| JStr (s : string)
| JArr (items : list json)
| JObj (fields : list (string * json)).

(** [d.get(key)] / [key in d] on the association list of a dict. *)
Fixpoint dict_get {A} (fields : list (string * A)) (key : string) : option A :=
  match fields with
  | [] => None
  | (k, v) :: rest => if String.eqb k key then Some v else dict_get rest key
  end.

(** [d[key] = v] for a key that may or may not be present: an existing key
    keeps its position, a new key goes last. *)
Fixpoint dict_set {A} (fields : list (string * A)) (key : string) (v : A)
  : list (string * A) :=
  match fields with
  | [] => [(key, v)]
  | (k, w) :: rest =>
      if String.eqb k key then (k, v) :: rest else (k, w) :: dict_set rest key v
  end.

(** [obj.get(key, default)]: only a dict has [get]. *)
Definition get_default (obj : json) (key : string) (default : json) : exn + json :=
  match obj with
  | JObj fields => inr (from_option id default (dict_get fields key))
  | _ => inl (PyError "AttributeError" "get")
  end.

(** [obj[key]] with a string key. *)
Definition subscript (obj : json) (key : string) : exn + json :=
  match obj with
  | JObj fields =>
      match dict_get fields key with
      | Some v => inr v
      | None => inl (PyError "KeyError" key)
      end
  | _ => inl (PyError "TypeError" key)
  end.

(** [for x in obj]: a list yields its items, a dict its keys, a string its
    characters; the other values are not iterable. *)
Definition iterate (obj : json) : exn + list json :=
  match obj with
  | JArr items => inr items
  | JObj fields => inr (map (λ kv, JStr (fst kv)) fields)
  | JStr s => inr (map (λ c, JStr (String c EmptyString)) (list_ascii_of_string s))
  | _ => inl (PyError "TypeError" "not iterable")
  end.

(** [obj.lower()]: only a string has [lower]. *)
Definition lower_of (obj : json) : exn + string :=
  match obj with
  | JStr s => inr (lower s)
  | _ => inl (PyError "AttributeError" "lower")
  end.

(** A Python value with named entries is either a dict, whose entries are
    reached by subscription, or an object (a pydantic model), whose fields
    are attributes.  [obj.attr] on a dict raises [AttributeError]. *)
Inductive pyobj (A : Type) : Type :=
| DictOf (entries : A)
| ModelOf (fields : A).
Arguments DictOf {A} entries.
Arguments ModelOf {A} fields.

Definition getattr {A B} (obj : pyobj A) (attr : string) (proj : A → B)
  : exn + B :=
  match obj with
  | ModelOf fields => inr (proj fields)
  | DictOf _ => inl (PyError "AttributeError" attr)
  end.

End Py.
Import Py.

(** Sequencing of computations that may raise. *)
Definition bind_exn {A B} (m : exn + A) (k : A → exn + B) : exn + B :=
  match m with
  | inl e => inl e
  | inr a => k a
  end.

Notation "'let?' x ':=' m 'in' k" := (bind_exn m (λ x, k))
  (at level 10, x name, m at level 100, k at level 200).

Fixpoint map_exn {A B} (f : A → exn + B) (l : list A) : exn + list B :=
  match l with
  | [] => inr []
  | x :: r =>
      let? y := f x in
      let? ys := map_exn f r in
      inr (y :: ys)
  end.

(** [len(xs) / len(ys)]: both lengths are far below 2^53, where the quotient
    of the two converted integers is Python's correctly rounded quotient. *)
Definition float_of_nat (n : nat) : float :=
  PrimFloat.of_uint63 (Uint63.of_Z (Z.of_nat n)).

(** ** utils/validation.py *)

Module Validation.

Record Details := {
  matchPercentage : float;
  missingIngredients : list string;
  extraIngredients : list string;
  totalProvidedIngredients : nat;
  totalExpectedIngredients : nat
}.

(** The keys of [{ing['name'].lower(): ing for ing in
    composition.get('ingredients', [])}] as a set. *)
Definition ingredient_names (composition : json) : exn + gset string :=
  let? ingredients := get_default composition "ingredients" (JArr []) in
  let? items := iterate ingredients in
  let? keys := map_exn (λ ing, let? n := subscript ing "name" in lower_of n) items in
  inr (list_to_set keys).

(** The body of the [try] block once both name sets are built.  The order in
    which [list(a_set)] enumerates is that of [elements]; Python leaves it
    unspecified.  In the branch for an empty reference the source assigns the
    integer 0, which compares and formats as the float 0. *)
Definition score (provided_names dataset_names : gset string)
  : bool * text * Details :=
  let missing_ingredients := elements (dataset_names ∖ provided_names) in
  let extra_ingredients := elements (provided_names ∖ dataset_names) in
  let common_ingredients := provided_names ∩ dataset_names in
  let match_percentage :=
    if (0 <? size dataset_names)%nat
    then (float_of_nat (size common_ingredients)
          / float_of_nat (size dataset_names) * 100)%float
    else 0%float in
  let is_valid :=
    PrimFloat.leb 90 match_percentage
    && (length missing_ingredients =? 0)%nat in
  let message :=
    if is_valid
    then [Lit "Composition validated successfully ("; Fixed1 match_percentage;
          Lit "% match)"]
    else [Lit "Composition validation failed ("; Fixed1 match_percentage;
          Lit "% match)"] in
  (is_valid, message,
   {| matchPercentage := match_percentage;
      missingIngredients := missing_ingredients;
      extraIngredients := extra_ingredients;
      totalProvidedIngredients := size provided_names;
      totalExpectedIngredients := size dataset_names |}).

(** [validate_composition]: every exception of the body is caught and turned
    into a failed validation with empty details. *)
Definition validate_composition (drug_name : string)
    (provided_composition dataset_composition : json)
  : bool * text * option Details :=
  match
    (let? provided_names := ingredient_names provided_composition in
     let? dataset_names := ingredient_names dataset_composition in
     inr (score provided_names dataset_names))
  with
  | inr (is_valid, message, validation_details) =>
      (is_valid, message, Some validation_details)
  | inl e => (false, [Lit "Validation error: "; StrOf e], None)
  end.

End Validation.

(** ** What the code takes from Python's standard library *)

(** [sorted]: a stable sort on string keys compared by code point.  The
    result of a stable sort is determined by the input, so insertion from
    the right (an element goes before the first element whose key is not
    smaller) describes what Python's merge sort returns. *)
Module Sorting.

Fixpoint insert_by_key {A} (k : string) (x : A) (l : list (string * A))
  : list (string * A) :=
  match l with
  | [] => [(k, x)]
  | (k', y) :: r =>
      if String.leb k k' then (k, x) :: (k', y) :: r
      else (k', y) :: insert_by_key k x r
  end.

Fixpoint sort_by_key {A} (l : list (string * A)) : list (string * A) :=
  match l with
  | [] => []
  | (k, x) :: r => insert_by_key k x (sort_by_key r)
  end.

End Sorting.
Import Sorting.

(** [json.dumps(obj, sort_keys=True, separators=(',', ':'))] with the
    default [ensure_ascii=True]. *)
Module Json.

Definition dquote : ascii := ascii_of_N 34.
Definition backslash : ascii := ascii_of_N 92.

Definition hex_digit (n : N) : ascii :=
  match n with
  | 0 => "0" | 1 => "1" | 2 => "2" | 3 => "3" | 4 => "4" | 5 => "5"
  | 6 => "6" | 7 => "7" | 8 => "8" | 9 => "9" | 10 => "a" | 11 => "b"
  | 12 => "c" | 13 => "d" | 14 => "e" | _ => "f"
  end%N%char.

(** One character of a string literal: backslash and the double quote are
    escaped, printable ASCII is copied, the five short escapes are used for
    the control characters that have one, everything else becomes a
    four-digit [\u] escape. *)
Definition escape_char (c : ascii) : string :=
  let n := N_of_ascii c in
  if (n =? 92)%N then String backslash (String backslash EmptyString)
  else if (n =? 34)%N then String backslash (String dquote EmptyString)
  else if ((32 <=? n) && (n <=? 126))%N then String c EmptyString
  else if (n =? 8)%N then String backslash "b"
  else if (n =? 12)%N then String backslash "f"
  else if (n =? 10)%N then String backslash "n"
  else if (n =? 13)%N then String backslash "r"
  else if (n =? 9)%N then String backslash "t"
  else String backslash
         ("u00" +:+ String (hex_digit (n / 16)) (String (hex_digit (n mod 16)) EmptyString)).

Fixpoint escape (s : string) : string :=
  match s with
  | EmptyString => EmptyString
  | String c r => escape_char c +:+ escape r
  end.

Definition encode_str (s : string) : string :=
  String dquote (escape s +:+ String dquote EmptyString).

(** The values of a dict are rendered first and the rendered members are
    then put in key order; the key order does not look at the values. *)
Fixpoint dumps (obj : json) : string :=
  match obj with
  | JNull => "null"
  | JBool true => "true"
  | JBool false => "false"
  | JNum literal => literal
  | JStr s => encode_str s
  | JArr items => "[" +:+ String.concat "," (map dumps items) +:+ "]"
  | JObj fields =>
      let rendered := map (λ kv, match kv with (k, v) => (k, dumps v) end) fields in
      "{" +:+ String.concat ","
                (map (λ kv, encode_str (fst kv) +:+ ":" +:+ snd kv)
                     (sort_by_key rendered))
          +:+ "}"
  end.

End Json.

(** [s.encode('utf-8')] for code points below 256, as byte values. *)
Definition utf8_encode (s : string) : list N :=
  flat_map (λ c, let n := N_of_ascii c in
                 if (n <? 128)%N then [n]
                 else [N.lor 192 (N.shiftr n 6); N.lor 128 (N.land n 63)])
           (list_ascii_of_string s).

(** [hashlib.sha256(data).hexdigest()] (FIPS 180-4), on 32-bit words held
    in [N]. *)
Module Sha256.
Local Open Scope N_scope.

Definition mask32 : N := 0xffffffff.
Definition add32 (a b : N) : N := N.land (a + b) mask32.
Definition rotr (n x : N) : N :=
  N.lor (N.shiftr x n) (N.land (N.shiftl x (32 - n)) mask32).
Definition not32 (x : N) : N := N.lxor x mask32.

Definition Ch (x y z : N) : N := N.lxor (N.land x y) (N.land (not32 x) z).
Definition Maj (x y z : N) : N :=
  N.lxor (N.lxor (N.land x y) (N.land x z)) (N.land y z).
Definition Sigma0 (x : N) : N := N.lxor (N.lxor (rotr 2 x) (rotr 13 x)) (rotr 22 x).
Definition Sigma1 (x : N) : N := N.lxor (N.lxor (rotr 6 x) (rotr 11 x)) (rotr 25 x).
Definition sigma0 (x : N) : N := N.lxor (N.lxor (rotr 7 x) (rotr 18 x)) (N.shiftr x 3).
Definition sigma1 (x : N) : N := N.lxor (N.lxor (rotr 17 x) (rotr 19 x)) (N.shiftr x 10).

(** The first primes, by trial division. *)
Definition is_prime (n : nat) : bool :=
  forallb (λ d, negb (n mod d =? 0)%nat) (seq 2 (n - 2)).

Definition primes (count : nat) : list N :=
  map N.of_nat (firstn count (List.filter is_prime (seq 2 310))).

(** The integer cube root, bit by bit from the top. *)
Fixpoint cube_root_from (bit : nat) (n r : N) : N :=
  match bit with
  | O => r
  | S b =>
      let c := r + N.shiftl 1 (N.of_nat b) in
      cube_root_from b n (if c * c * c <=? n then c else r)
  end.

(** The round constants: the first 32 bits of the fractional parts of the
    cube roots of the first 64 primes. *)
Definition K : list N :=
  map (λ p, N.land (cube_root_from 40 (N.shiftl p 96) 0) mask32) (primes 64).

(** The initial hash value: the first 32 bits of the fractional parts of the
    square roots of the first 8 primes. *)
Definition H0 : list N :=
  map (λ p, N.land (N.sqrt (N.shiftl p 64)) mask32) (primes 8).

(** Padding: a 1 bit, zero bits up to 56 modulo 64 bytes, then the length in
    bits as 8 big-endian bytes. *)
Definition be_bytes (count : nat) (x : N) : list N :=
  map (λ i, N.land (N.shiftr x (8 * N.of_nat i)) 255) (rev (seq 0 count)).

Definition pad (msg : list N) : list N :=
  let len := N.of_nat (length msg) in
  let zeros := N.to_nat ((119 - len mod 64) mod 64) in
  msg ++ [128] ++ repeat 0 zeros ++ be_bytes 8 (8 * len).

Fixpoint words (fuel : nat) (bytes : list N) : list N :=
  match fuel, bytes with
  | S fuel', b0 :: b1 :: b2 :: b3 :: rest =>
      (N.shiftl b0 24 + N.shiftl b1 16 + N.shiftl b2 8 + b3) :: words fuel' rest
  | _, _ => []
  end.

(** The message schedule, newest word first: [w] holds W(t-1), W(t-2), ... *)
Fixpoint schedule (rounds : nat) (w : list N) : list N :=
  match rounds with
  | O => w
  | S r =>
      let W i := nth i w 0 in
      schedule r
        (add32 (add32 (sigma1 (W 1%nat)) (W 6%nat))
               (add32 (sigma0 (W 14%nat)) (W 15%nat)) :: w)
  end.

Definition round (st : list N) (kw : N * N) : list N :=
  match st with
  | [a; b; c; d; e; f; g; h] =>
      let T1 := add32 (add32 (add32 h (Sigma1 e)) (add32 (Ch e f g) (fst kw))) (snd kw) in
      let T2 := add32 (Sigma0 a) (Maj a b c) in
      [add32 T1 T2; a; b; c; add32 d T1; e; f; g]
  | _ => st
  end.

Definition compress (h : list N) (block : list N) : list N :=
  let w := rev (schedule 48 (rev block)) in
  map (λ p, add32 (fst p) (snd p))
      (combine h (fold_left round (combine K w) h)).

Fixpoint blocks (fuel : nat) (ws : list N) : list (list N) :=
  match fuel with
  | O => []
  | S fuel' =>
      match ws with
      | [] => []
      | _ => firstn 16 ws :: blocks fuel' (skipn 16 ws)
      end
  end.

Definition digest (msg : list N) : list N :=
  let ws := words (length msg + 72) (pad msg) in
  fold_left compress (blocks (length ws) ws) H0.

Definition hex32 (x : N) : string :=
  string_of_list_ascii
    (map (λ i, Json.hex_digit (N.land (N.shiftr x (4 * N.of_nat i)) 15))
         (rev (seq 0 8))).

Definition hexdigest (msg : list N) : string :=
  String.concat "" (map hex32 (digest msg)).

End Sha256.

(** ** utils/hashing.py *)

Module Hashing.

(** The sort key [lambda x: x.get('name', '').lower()]. *)
Definition name_key (x : json) : exn + string :=
  let? n := get_default x "name" (JStr "") in
  lower_of n.

(** [sorted(ingredients, key=...)]: the keys of all items are computed, in
    order, before anything is moved. *)
Definition sorted_by_name (ingredients : json) : exn + list json :=
  let? items := iterate ingredients in
  let? keys := map_exn name_key items in
  inr (map snd (sort_by_key (combine keys items))).

(** [normalize_composition] returns the canonical text; it also assigns the
    sorted list back into the caller's dict, so the dict as it is after the
    call is returned with the text. *)
Definition normalize_composition (composition : list (string * json))
  : exn + (string * list (string * json)) :=
  let? composition :=
    match dict_get composition "ingredients" with
    | Some ingredients =>
        let? sorted := sorted_by_name ingredients in
        inr (dict_set composition "ingredients" (JArr sorted))
    | None => inr composition
    end in
  inr (Json.dumps (JObj composition), composition).

Definition generate_composition_hash (composition : list (string * json))
  : exn + (string * list (string * json)) :=
  let? r := normalize_composition composition in
  inr (Sha256.hexdigest (utf8_encode (fst r)), snd r).

Definition verify_composition_hash (composition : list (string * json))
    (expected_hash : string) : exn + (bool * list (string * json)) :=
  let? r := generate_composition_hash composition in
  inr (String.eqb (lower (fst r)) (lower expected_hash), snd r).

Definition hash_string (data : string) : string :=
  Sha256.hexdigest (utf8_encode data).

End Hashing.

(** ** schemas.py and the documents of the database *)

Module DrugIngredient.
Record t := { name : string; quantity : string; percentage : option string }.

(** [.dict()] of one ingredient, keys in field order; the percentage is a
    float literal or [None]. *)
Definition dict (i : t) : json :=
  JObj [("name", JStr (name i)); ("quantity", JStr (quantity i));
        ("percentage", match percentage i with
                       | Some literal => JNum literal
                       | None => JNull
                       end)].
End DrugIngredient.

Module DrugComposition.
Record t := { ingredients : list DrugIngredient.t }.

Definition dict (c : t) : list (string * json) :=
  [("ingredients", JArr (map DrugIngredient.dict (ingredients c)))].
End DrugComposition.

Module DrugRegistrationRequest.
Record t := {
  batchId : string;
  drugName : string;
  composition : DrugComposition.t;
  manufactureDate : Z;
  expiryDate : Z;
  manufacturerAddress : string
}.
End DrugRegistrationRequest.

Module OwnershipTransferRequest.
Record t := {
  batchId : string;
  fromAddress : string;
  toAddress : string;
  location : string
}.
End OwnershipTransferRequest.

Module CompositionValidationRequest.
Record t := { drugName : string; composition : DrugComposition.t }.
End CompositionValidationRequest.

(** A document of [db.users], as [auth.register_user] writes it. *)
Module UserDoc.
Record t := { walletAddress : string; role : string; name : string }.
End UserDoc.

(** A document of [db.drug_composition_dataset]; the standard composition
    is read with [.get("standardComposition", {})]. *)
Module DatasetDoc.
Record t := { drugName : string; standardComposition : option json }.
End DatasetDoc.

(** A document of [db.drug_composition_storage], as [register_drug] writes
    it. *)
Module StorageDoc.
Record t := {
  batchId : string;
  drugName : string;
  fullComposition : json;
  compositionHash : string;
  manufacturer : string;
  manufactureDate : Z;
  expiryDate : Z;
  registrationTimestamp : Z
}.
End StorageDoc.

(** A document of [db.drug_batches], as [register_drug] writes it. *)
Module BatchDoc.
Record t := {
  batchId : string;
  drugName : string;
  manufacturer : string;
  currentOwner : string;
  status : string;
  manufactureDate : Z;
  expiryDate : Z;
  createdAt : Z;
  updatedAt : Z
}.

Definition set_owner (owner : string) (now : Z) (b : t) : t :=
  {| batchId := batchId b; drugName := drugName b;
     manufacturer := manufacturer b; currentOwner := owner;
     status := status b; manufactureDate := manufactureDate b;
     expiryDate := expiryDate b; createdAt := createdAt b;
     updatedAt := now |}.
End BatchDoc.

(** ** The collaborators: the smart contract and the database *)

(** What [verifyDrug(batch_id).call()] returns. *)
Module ChainDrug.
Record t := {
  isGenuine : bool;
  drugName : string;
  manufacturer : string;
  compositionHash : string;
  manufactureDate : Z;
  expiryDate : Z;
  currentOwner : string;
  transferCount : Z
}.
End ChainDrug.

(** One record of [getDrugHistory(batch_id).call()]; the roles are enum
    numbers. *)
Module ChainTransfer.
Record t := {
  from : string;
  to : string;
  timestamp : Z;
  location : string;
  fromRole : Z;
  toRole : Z
}.
End ChainTransfer.

(** The contract behind Web3: a call either raises or answers.  A built
    transaction is kept opaque. *)
Module Contract.
Record t := {
  verifyDrug : string → exn + ChainDrug.t;
  getDrugHistory : string → exn + list ChainTransfer.t;
  registerDrug : string → string → string → Z → Z → string → exn + string;
  transferOwnership : string → string → string → string → exn + string
}.
End Contract.

(** The calls that reach a collaborator, in the order they are made. *)
Inductive Event : Type :=
| LedgerVerify (batch_id : string)
| LedgerHistory (batch_id : string)
| LedgerRegister (batch_id drug_name composition_hash : string)
    (manufacture_date expiry_date : Z) (manufacturer_address : string)
| LedgerTransfer (batch_id new_owner location current_owner : string)
| DbFind (collection key : string)
| DbScan (collection : string)
| DbCount (collection : string)
| DbInsert (collection key : string)
| DbUpdate (collection key : string).

Definition is_ledger_call (ev : Event) : bool :=
  match ev with
  | LedgerVerify _ | LedgerHistory _ | LedgerRegister _ _ _ _ _ _
  | LedgerTransfer _ _ _ _ => true
  | _ => false
  end.

(** Everything outside the process: the four collections, whether the
    database is reachable ([Some e]: every database call raises [e]), the
    contract, the clock in epoch seconds, and the calls made so far. *)
Module World.
Record t := {
  users : list UserDoc.t;
  drug_composition_dataset : list DatasetDoc.t;
  drug_composition_storage : list StorageDoc.t;
  drug_batches : list BatchDoc.t;
  db_fault : option exn;
  contract : Contract.t;
  clock : Z;
  trace : list Event
}.

Definition log (ev : Event) (w : t) : t :=
  {| users := users w;
     drug_composition_dataset := drug_composition_dataset w;
     drug_composition_storage := drug_composition_storage w;
     drug_batches := drug_batches w; db_fault := db_fault w;
     contract := contract w; clock := clock w;
     trace := trace w ++ [ev] |}.

Definition set_storage (l : list StorageDoc.t) (w : t) : t :=
  {| users := users w;
     drug_composition_dataset := drug_composition_dataset w;
     drug_composition_storage := l;
     drug_batches := drug_batches w; db_fault := db_fault w;
     contract := contract w; clock := clock w; trace := trace w |}.

Definition set_batches (l : list BatchDoc.t) (w : t) : t :=
  {| users := users w;
     drug_composition_dataset := drug_composition_dataset w;
     drug_composition_storage := drug_composition_storage w;
     drug_batches := l; db_fault := db_fault w;
     contract := contract w; clock := clock w; trace := trace w |}.
End World.

(** Code that talks to the collaborators: it reads and changes the world
    and either raises or returns.  A raise keeps the changes made so far. *)
Definition M (A : Type) : Type := World.t → (exn + A) * World.t.

Definition ret {A} (a : A) : M A := λ w, (inr a, w).
Definition raise {A} (e : exn) : M A := λ w, (inl e, w).
Definition bind {A B} (m : M A) (k : A → M B) : M B :=
  λ w, match m w with
       | (inr a, w') => k a w'
       | (inl e, w') => (inl e, w')
       end.
Definition lift {A} (r : exn + A) : M A := λ w, (r, w).

Notation "'let!' x ':=' m 'in' k" := (bind m (λ x, k))
  (at level 10, x name, m at level 100, k at level 200).
Notation "m ';;' k" := (bind m (λ _, k))
  (at level 100, k at level 200, right associativity).

(** [try: m except Exception as e: handler e]. *)
Definition try_except {A} (m : M A) (handler : exn → M A) : M A :=
  λ w, match m w with
       | (inl e, w') => handler e w'
       | r => r
       end.

(** The closing handlers of most routes: an [HTTPException] is re-raised,
    any other exception becomes a 500 whose detail quotes it. *)
Definition reraise_or_500 {A} (prefix : string) (m : M A) : M A :=
  try_except m (λ e,
    if is_HTTPException e then raise e
    else raise (HTTPException 500 [Lit prefix; StrOf e])).

(** [for x in xs: body x], the loop carrying an accumulator. *)
Fixpoint for_each {A S} (xs : list A) (body : A → S → M S) (acc : S) : M S :=
  match xs with
  | [] => ret acc
  | x :: r => let! acc' := body x acc in for_each r body acc'
  end.

(** The Motor calls the routes use. *)
Module Db.

Definition call {A} (ev : Event) (f : World.t → A * World.t) : M A :=
  λ w, let w := World.log ev w in
       match World.db_fault w with
       | Some e => (inl e, w)
       | None => let (a, w') := f w in (inr a, w')
       end.

Definition read {A} (ev : Event) (f : World.t → A) : M A :=
  call ev (λ w, (f w, w)).

Definition find_user (wallet : string) : M (option UserDoc.t) :=
  read (DbFind "users" wallet)
    (λ w, List.find (λ u, String.eqb (UserDoc.walletAddress u) wallet)
                    (World.users w)).

Definition find_dataset (drug_name : string) : M (option DatasetDoc.t) :=
  read (DbFind "drug_composition_dataset" drug_name)
    (λ w, List.find (λ d, String.eqb (DatasetDoc.drugName d) drug_name)
                    (World.drug_composition_dataset w)).

Definition find_storage (batch_id : string) : M (option StorageDoc.t) :=
  read (DbFind "drug_composition_storage" batch_id)
    (λ w, List.find (λ d, String.eqb (StorageDoc.batchId d) batch_id)
                    (World.drug_composition_storage w)).

Definition find_batch (batch_id : string) : M (option BatchDoc.t) :=
  read (DbFind "drug_batches" batch_id)
    (λ w, List.find (λ d, String.eqb (BatchDoc.batchId d) batch_id)
                    (World.drug_batches w)).

(** [update_one(filter, {"$set": ...})]: the first matching document is
    changed; without a match nothing is. *)
Fixpoint update_first {A} (p : A → bool) (f : A → A) (l : list A) : list A :=
  match l with
  | [] => []
  | x :: r => if p x then f x :: r else x :: update_first p f r
  end.

Definition update_batch_owner (batch_id owner : string) : M unit :=
  call (DbUpdate "drug_batches" batch_id)
    (λ w, (tt, World.set_batches
                 (update_first (λ d, String.eqb (BatchDoc.batchId d) batch_id)
                    (BatchDoc.set_owner owner (World.clock w))
                    (World.drug_batches w)) w)).

Definition insert_storage (doc : StorageDoc.t) : M unit :=
  call (DbInsert "drug_composition_storage" (StorageDoc.batchId doc))
    (λ w, (tt, World.set_storage (World.drug_composition_storage w ++ [doc]) w)).

Definition insert_batch (doc : BatchDoc.t) : M unit :=
  call (DbInsert "drug_batches" (BatchDoc.batchId doc))
    (λ w, (tt, World.set_batches (World.drug_batches w ++ [doc]) w)).

Definition count_storage : M nat :=
  read (DbCount "drug_composition_storage")
    (λ w, length (World.drug_composition_storage w)).

Definition count_users : M nat :=
  read (DbCount "users") (λ w, length (World.users w)).

(** [find({}).to_list(length=n)]. *)
Definition scan_storage (n : nat) : M (list StorageDoc.t) :=
  read (DbScan "drug_composition_storage")
    (λ w, firstn n (World.drug_composition_storage w)).

End Db.

Definition utcnow : M Z := λ w, (inr (World.clock w), w).
Definition time_time : M Z := λ w, (inr (World.clock w), w).

(** ** utils/blockchain.py *)

Module BlockchainService.

(** The dict every method returns: ['success': True] with the payload, or
    ['success': False] with the error. *)
Inductive reply (A : Type) : Type :=
| Success (payload : A)
| Failure (error : exn).
Arguments Success {A} payload.
Arguments Failure {A} error.

Definition success {A} (r : reply A) : bool :=
  match r with Success _ => true | Failure _ => false end.

(** Every method wraps its contract call in [try]/[except Exception] and
    returns a failure dict instead of raising. *)
Definition guarded {A} (ev : Event) (call : Contract.t → exn + A) : M (reply A) :=
  λ w, let w := World.log ev w in
       match call (World.contract w) with
       | inr a => (inr (Success a), w)
       | inl e => (inr (Failure e), w)
       end.

Definition _role_enum_to_string (role_num : Z) : string :=
  match role_num with
  | 0 => "NONE"
  | 1 => "MANUFACTURER"
  | 2 => "DISTRIBUTOR"
  | 3 => "PHARMACY"
  | 4 => "CONSUMER"
  | 5 => "REGULATOR"
  | _ => "UNKNOWN"
  end.

(** A history record after formatting: the roles are names. *)
Module OwnershipRecord.
Record t := {
  from : string;
  to : string;
  timestamp : Z;
  location : string;
  fromRole : string;
  toRole : string
}.
End OwnershipRecord.

Definition format_record (r : ChainTransfer.t) : OwnershipRecord.t :=
  {| OwnershipRecord.from := ChainTransfer.from r;
     OwnershipRecord.to := ChainTransfer.to r;
     OwnershipRecord.timestamp := ChainTransfer.timestamp r;
     OwnershipRecord.location := ChainTransfer.location r;
     OwnershipRecord.fromRole := _role_enum_to_string (ChainTransfer.fromRole r);
     OwnershipRecord.toRole := _role_enum_to_string (ChainTransfer.toRole r) |}.

Definition register_drug (batch_id drug_name composition_hash : string)
    (manufacture_date expiry_date : Z) (manufacturer_address : string)
  : M (reply string) :=
  guarded (LedgerRegister batch_id drug_name composition_hash
             manufacture_date expiry_date manufacturer_address)
    (λ c, Contract.registerDrug c batch_id drug_name composition_hash
            manufacture_date expiry_date manufacturer_address).

Definition transfer_ownership (batch_id new_owner location current_owner : string)
  : M (reply string) :=
  guarded (LedgerTransfer batch_id new_owner location current_owner)
    (λ c, Contract.transferOwnership c batch_id new_owner location current_owner).

Definition verify_drug (batch_id : string) : M (reply ChainDrug.t) :=
  guarded (LedgerVerify batch_id) (λ c, Contract.verifyDrug c batch_id).

Definition get_drug_history (batch_id : string)
  : M (reply (list OwnershipRecord.t)) :=
  guarded (LedgerHistory batch_id)
    (λ c, let? history := Contract.getDrugHistory c batch_id in
          inr (map format_record history)).

End BlockchainService.

(** ** routes/drugs.py *)

Module Drugs.

Module CompositionValidationResponse.
Record t := {
  isValid : bool;
  message : text;
  matchPercentage : option float;
  missingIngredients : list string;
  extraIngredients : list string
}.
End CompositionValidationResponse.

Module DrugRegistrationResponse.
Record t := {
  success : bool;
  message : string;
  batchId : string;
  compositionHash : string;
  transactionHash : option string
}.
End DrugRegistrationResponse.

Module OwnershipTransferResponse.
Record t := {
  success : bool;
  message : string;
  batchId : string;
  transactionHash : option string
}.
End OwnershipTransferResponse.

Definition validate_drug_composition (request : CompositionValidationRequest.t)
  : M CompositionValidationResponse.t :=
  reraise_or_500 "Composition validation failed: "
    (let! dataset_entry :=
       Db.find_dataset (CompositionValidationRequest.drugName request) in
     match dataset_entry with
     | None =>
         raise (HTTPException 404
                  [Lit "No standard composition found for drug: ";
                   Lit (CompositionValidationRequest.drugName request)])
     | Some entry =>
         let '(is_valid, message, details) :=
           Validation.validate_composition
             (CompositionValidationRequest.drugName request)
             (JObj (DrugComposition.dict
                      (CompositionValidationRequest.composition request)))
             (from_option id (JObj []) (DatasetDoc.standardComposition entry)) in
         ret {| CompositionValidationResponse.isValid := is_valid;
                CompositionValidationResponse.message := message;
                CompositionValidationResponse.matchPercentage :=
                  option_map Validation.matchPercentage details;
                CompositionValidationResponse.missingIngredients :=
                  from_option Validation.missingIngredients [] details;
                CompositionValidationResponse.extraIngredients :=
                  from_option Validation.extraIngredients [] details |}
     end).

Definition register_drug (drug_data : DrugRegistrationRequest.t)
  : M DrugRegistrationResponse.t :=
  let batchId := DrugRegistrationRequest.batchId drug_data in
  let drugName := DrugRegistrationRequest.drugName drug_data in
  let composition := DrugRegistrationRequest.composition drug_data in
  let manufactureDate := DrugRegistrationRequest.manufactureDate drug_data in
  let expiryDate := DrugRegistrationRequest.expiryDate drug_data in
  let manufacturerAddress := DrugRegistrationRequest.manufacturerAddress drug_data in
  reraise_or_500 "Drug registration failed: "
    (let! existing_batch := Db.find_storage batchId in
     (if existing_batch is Some _
      then raise (HTTPException 400 [Lit "Batch ID already exists"])
      else ret tt) ;;
     let! manufacturer := Db.find_user manufacturerAddress in
     (match manufacturer with
      | Some m =>
          if negb (String.eqb (UserDoc.role m) "MANUFACTURER")
          then raise (HTTPException 403
                        [Lit "Only registered manufacturers can register drugs"])
          else ret tt
      | None =>
          raise (HTTPException 403
                   [Lit "Only registered manufacturers can register drugs"])
      end) ;;
     let! dataset_entry := Db.find_dataset drugName in
     (match dataset_entry with
      | Some entry =>
          let '(is_valid, message, _) :=
            Validation.validate_composition drugName
              (JObj (DrugComposition.dict composition))
              (from_option id (JObj []) (DatasetDoc.standardComposition entry)) in
          if negb is_valid
          then raise (HTTPException 400
                        (Lit "Composition validation failed: " :: message))
          else ret tt
      | None => ret tt
      end) ;;
     let! hashed :=
       lift (Hashing.generate_composition_hash (DrugComposition.dict composition)) in
     let composition_hash := fst hashed in
     let! blockchain_result :=
       BlockchainService.register_drug batchId drugName composition_hash
         manufactureDate expiryDate manufacturerAddress in
     (match blockchain_result with
      | BlockchainService.Failure error =>
          raise (HTTPException 500
                   [Lit "Blockchain registration failed: "; StrOf error])
      | BlockchainService.Success _ => ret tt
      end) ;;
     let! now := utcnow in
     Db.insert_storage
       {| StorageDoc.batchId := batchId;
          StorageDoc.drugName := drugName;
          StorageDoc.fullComposition := JObj (DrugComposition.dict composition);
          StorageDoc.compositionHash := composition_hash;
          StorageDoc.manufacturer := manufacturerAddress;
          StorageDoc.manufactureDate := manufactureDate;
          StorageDoc.expiryDate := expiryDate;
          StorageDoc.registrationTimestamp := now |} ;;
     Db.insert_batch
       {| BatchDoc.batchId := batchId;
          BatchDoc.drugName := drugName;
          BatchDoc.manufacturer := lower manufacturerAddress;
          BatchDoc.currentOwner := lower manufacturerAddress;
          BatchDoc.status := "ACTIVE";
          BatchDoc.manufactureDate := manufactureDate;
          BatchDoc.expiryDate := expiryDate;
          BatchDoc.createdAt := now;
          BatchDoc.updatedAt := now |} ;;
     ret {| DrugRegistrationResponse.success := true;
            DrugRegistrationResponse.message :=
              "Drug registered successfully. Sign the transaction in MetaMask.";
            DrugRegistrationResponse.batchId := batchId;
            DrugRegistrationResponse.compositionHash := composition_hash;
            DrugRegistrationResponse.transactionHash := None |}).

Definition valid_transfers : list (string * string) :=
  [("MANUFACTURER", "DISTRIBUTOR");
   ("DISTRIBUTOR", "PHARMACY");
   ("DISTRIBUTOR", "DISTRIBUTOR")].

(** [(from_role, to_role) in valid_transfers]. *)
Definition in_valid_transfers (from_role to_role : string) : bool :=
  existsb (λ p, String.eqb from_role (fst p) && String.eqb to_role (snd p))
          valid_transfers.

Definition transfer_ownership (transfer_data : OwnershipTransferRequest.t)
  : M OwnershipTransferResponse.t :=
  let batchId := OwnershipTransferRequest.batchId transfer_data in
  let fromAddress := OwnershipTransferRequest.fromAddress transfer_data in
  let toAddress := OwnershipTransferRequest.toAddress transfer_data in
  let location := OwnershipTransferRequest.location transfer_data in
  reraise_or_500 "Ownership transfer failed: "
    (let! batch := Db.find_batch batchId in
     Db.update_batch_owner batchId (lower toAddress) ;;
     (if batch is None
      then raise (HTTPException 404 [Lit "Batch ID not found"])
      else ret tt) ;;
     let from_address := lower fromAddress in
     let to_address := lower toAddress in
     let! from_user := Db.find_user from_address in
     let! to_user := Db.find_user to_address in
     match from_user, to_user with
     | Some from_user, Some to_user =>
         let from_role := UserDoc.role from_user in
         let to_role := UserDoc.role to_user in
         (if negb (in_valid_transfers from_role to_role)
          then raise (HTTPException 403
                        [Lit "Invalid transfer: "; Lit from_role;
                         Lit " cannot transfer to "; Lit to_role])
          else ret tt) ;;
         let! blockchain_result :=
           BlockchainService.transfer_ownership batchId toAddress location
             fromAddress in
         (match blockchain_result with
          | BlockchainService.Failure error =>
              raise (HTTPException 500
                       [Lit "Blockchain transfer failed: "; StrOf error])
          | BlockchainService.Success _ => ret tt
          end) ;;
         ret {| OwnershipTransferResponse.success := true;
                OwnershipTransferResponse.message :=
                  "Ownership transfer initiated. Sign the transaction in MetaMask.";
                OwnershipTransferResponse.batchId := batchId;
                OwnershipTransferResponse.transactionHash := None |}
     | _, _ => raise (HTTPException 404 [Lit "One or both users not found"])
     end).

End Drugs.

(** ** routes/verification.py *)

Module Verification.
Import BlockchainService.

(** The dict that [verify_drug] returns. *)
Module Verdict.
Record t := {
  isGenuine : bool;
  status : string;
  batchId : string;
  drugName : string;
  manufacturer : string;
  compositionHash : string;
  currentOwner : string;
  manufactureDate : Z;
  expiryDate : Z;
  transferCount : Z;
  ownershipHistory : list OwnershipRecord.t;
  composition : option json;
  anomalies : list string
}.
End Verdict.

(** The two variables the analysis updates. *)
Record Analysis := { anomalies : list string; status_text : string }.

Definition INCOMPLETE_CHAIN_MESSAGE : string :=
  "Incomplete ownership chain (expected: Manufacturer → Distributor → Pharmacy)".

Definition ZERO_ADDRESS : string := "0x0000000000000000000000000000000000000000".

Definition append_anomaly (msg : string) (a : Analysis) : Analysis :=
  {| anomalies := anomalies a ++ [msg]; status_text := status_text a |}.

Definition set_status (s : string) (a : Analysis) : Analysis :=
  {| anomalies := anomalies a; status_text := s |}.

(** Check if expired. *)
Definition check_expired (blockchain_result : ChainDrug.t)
    (current_timestamp : Z) (a : Analysis) : Analysis :=
  if ChainDrug.expiryDate blockchain_result <? current_timestamp
  then set_status "EXPIRED" (append_anomaly "Drug has expired" a)
  else a.

(** Check ownership chain completeness. *)
Definition check_chain_completeness (blockchain_result : ChainDrug.t)
    (a : Analysis) : Analysis :=
  if ChainDrug.transferCount blockchain_result <? 2
  then append_anomaly INCOMPLETE_CHAIN_MESSAGE a
  else a.

(** Verify composition hash if available. *)
Definition check_composition_hash (composition_data : option StorageDoc.t)
    (blockchain_result : ChainDrug.t) (a : Analysis) : Analysis :=
  match composition_data with
  | Some doc =>
      let stored_hash := StorageDoc.compositionHash doc in
      let blockchain_hash := ChainDrug.compositionHash blockchain_result in
      if negb (String.eqb (lower stored_hash) (lower blockchain_hash))
      then set_status "FAKE"
             (append_anomaly "Composition hash mismatch - possible tampering" a)
      else a
  | None => a
  end.

(** Check for role sequence anomalies: the loop over
    [range(1, len(ownership_history))], here from index [i] on. *)
Fixpoint role_sequence_from (i : nat) (records : list OwnershipRecord.t)
    (a : Analysis) : Analysis :=
  match records with
  | [] => a
  | r :: rest =>
      role_sequence_from (S i) rest
        (if String.eqb (OwnershipRecord.fromRole r) (OwnershipRecord.toRole r)
         then append_anomaly
                ("Suspicious transfer: same role transfer at index " +:+ pretty i) a
         else a)
  end.

Definition check_role_sequence (ownership_history : list OwnershipRecord.t)
    (a : Analysis) : Analysis :=
  role_sequence_from 1 (tail ownership_history) a.

(** Check for zero address transfers. *)
Fixpoint check_zero_address (ownership_history : list OwnershipRecord.t)
    (a : Analysis) : Analysis :=
  match ownership_history with
  | [] => a
  | record :: rest =>
      check_zero_address rest
        (if String.eqb (OwnershipRecord.to record) ZERO_ADDRESS
         then set_status "FAKE"
                (append_anomaly "Suspicious transfer to zero address detected" a)
         else a)
  end.

(** Determine final status. *)
Definition final_status (a : Analysis) : Analysis :=
  if (0 <? length (anomalies a))%nat && String.eqb (status_text a) "GENUINE"
  then set_status "INCOMPLETE_CHAIN" a
  else a.

(** The checks in the order the source runs them. *)
Definition rules (blockchain_result : ChainDrug.t)
    (ownership_history : list OwnershipRecord.t)
    (composition_data : option StorageDoc.t) (current_timestamp : Z)
  : list (Analysis → Analysis) :=
  [check_expired blockchain_result current_timestamp;
   check_chain_completeness blockchain_result;
   check_composition_hash composition_data blockchain_result;
   check_role_sequence ownership_history;
   check_zero_address ownership_history;
   final_status].

Definition run (rs : list (Analysis → Analysis)) (a : Analysis) : Analysis :=
  fold_left (λ acc rule, rule acc) rs a.

Definition initial : Analysis := {| anomalies := []; status_text := "GENUINE" |}.

Definition analyse (blockchain_result : ChainDrug.t)
    (ownership_history : list OwnershipRecord.t)
    (composition_data : option StorageDoc.t) (current_timestamp : Z)
  : Analysis :=
  final_status
    (check_zero_address ownership_history
       (check_role_sequence ownership_history
          (check_composition_hash composition_data blockchain_result
             (check_chain_completeness blockchain_result
                (check_expired blockchain_result current_timestamp initial))))).

Definition not_found (batch_id : string) : Verdict.t :=
  {| Verdict.isGenuine := false;
     Verdict.status := "FAKE";
     Verdict.batchId := batch_id;
     Verdict.drugName := "Unknown";
     Verdict.manufacturer := "Unknown";
     Verdict.compositionHash := "";
     Verdict.currentOwner := "";
     Verdict.manufactureDate := 0;
     Verdict.expiryDate := 0;
     Verdict.transferCount := 0;
     Verdict.ownershipHistory := [];
     Verdict.composition := None;
     Verdict.anomalies := ["Batch ID not found on blockchain"] |}.

Definition found (batch_id : string) (blockchain_result : ChainDrug.t)
    (ownership_history : list OwnershipRecord.t)
    (composition_data : option StorageDoc.t) (a : Analysis) : Verdict.t :=
  {| Verdict.isGenuine := String.eqb (status_text a) "GENUINE";
     Verdict.status := status_text a;
     Verdict.batchId := batch_id;
     Verdict.drugName := ChainDrug.drugName blockchain_result;
     Verdict.manufacturer := ChainDrug.manufacturer blockchain_result;
     Verdict.compositionHash := ChainDrug.compositionHash blockchain_result;
     Verdict.currentOwner := ChainDrug.currentOwner blockchain_result;
     Verdict.manufactureDate := ChainDrug.manufactureDate blockchain_result;
     Verdict.expiryDate := ChainDrug.expiryDate blockchain_result;
     Verdict.transferCount := ChainDrug.transferCount blockchain_result;
     Verdict.ownershipHistory := ownership_history;
     Verdict.composition := option_map StorageDoc.fullComposition composition_data;
     Verdict.anomalies := anomalies a |}.

(** [verify_drug] returns a dict literal in both branches. *)
Definition verify_drug (batch_id : string) : M (pyobj Verdict.t) :=
  try_except
    (let! blockchain_result := BlockchainService.verify_drug batch_id in
     match blockchain_result with
     | Failure _ => ret (DictOf (not_found batch_id))
     | Success blockchain_result =>
         let! history_result := BlockchainService.get_drug_history batch_id in
         let ownership_history :=
           match history_result with
           | Success history => history
           | Failure _ => []
           end in
         let! composition_data := Db.find_storage batch_id in
         let! current_timestamp := time_time in
         ret (DictOf (found batch_id blockchain_result ownership_history
                        composition_data
                        (analyse blockchain_result ownership_history
                           composition_data current_timestamp)))
     end)
    (λ e, raise (HTTPException 500 [Lit "Verification failed: "; StrOf e])).

(** One entry of the [results] list of [batch_verify_drugs]; [error] holds
    the exception whose [str] the source stores. *)
Module BatchItem.
Record t := {
  batchId : string;
  isGenuine : bool;
  status : string;
  error : option exn
}.
End BatchItem.

Module BatchVerifyResponse.
Record t := {
  success : bool;
  totalBatches : nat;
  results : list BatchItem.t
}.
End BatchVerifyResponse.

(** The body of the loop of [batch_verify_drugs]. *)
Definition batch_verify_one (batch_id : string) (results : list BatchItem.t)
  : M (list BatchItem.t) :=
  try_except
    (let! verification := verify_drug batch_id in
     let! is_genuine := lift (getattr verification "isGenuine" Verdict.isGenuine) in
     let! status := lift (getattr verification "status" Verdict.status) in
     ret (results ++ [ {| BatchItem.batchId := batch_id;
                          BatchItem.isGenuine := is_genuine;
                          BatchItem.status := status;
                          BatchItem.error := None |} ]))
    (λ e, ret (results ++ [ {| BatchItem.batchId := batch_id;
                               BatchItem.isGenuine := false;
                               BatchItem.status := "ERROR";
                               BatchItem.error := Some e |} ])).

Definition batch_verify_drugs (batch_ids : list string)
  : M BatchVerifyResponse.t :=
  try_except
    (let! results := for_each batch_ids batch_verify_one [] in
     ret {| BatchVerifyResponse.success := true;
            BatchVerifyResponse.totalBatches := length batch_ids;
            BatchVerifyResponse.results := results |})
    (λ e, raise (HTTPException 500 [Lit "Batch verification failed: "; StrOf e])).

End Verification.

(** ** routes/audit.py *)

Module Audit.

Module AuditStatistics.
Record t := {
  totalDrugs : nat;
  totalUsers : nat;
  totalTransfers : nat;
  drugsWithAnomalies : nat;
  expiredDrugs : nat
}.
End AuditStatistics.

(** The body of the loop of [get_audit_statistics]; the accumulator is the
    pair [(drugs_with_anomalies, expired_drugs)]. *)
Definition audit_one (current_timestamp : Z) (drug : StorageDoc.t)
    (counters : nat * nat) : M (nat * nat) :=
  let '(drugs_with_anomalies, expired_drugs) := counters in
  let batch_id := StorageDoc.batchId drug in
  let expired_drugs :=
    if StorageDoc.expiryDate drug <? current_timestamp
    then S expired_drugs else expired_drugs in
  let! drugs_with_anomalies :=
    try_except
      (let! verification := BlockchainService.verify_drug batch_id in
       match verification with
       | BlockchainService.Success v =>
           if ChainDrug.transferCount v <? 2
           then ret (S drugs_with_anomalies)
           else ret drugs_with_anomalies
       | BlockchainService.Failure _ => ret (S drugs_with_anomalies)
       end)
      (λ _, ret (S drugs_with_anomalies)) in
  ret (drugs_with_anomalies, expired_drugs).

Definition get_audit_statistics : M AuditStatistics.t :=
  try_except
    (let! total_drugs_db := Db.count_storage in
     let! total_users := Db.count_users in
     let! drugs := Db.scan_storage 1000 in
     let! current_timestamp := time_time in
     let! counters := for_each drugs (audit_one current_timestamp) (0%nat, 0%nat) in
     ret {| AuditStatistics.totalDrugs := total_drugs_db;
            AuditStatistics.totalUsers := total_users;
            AuditStatistics.totalTransfers := 0;
            AuditStatistics.drugsWithAnomalies := fst counters;
            AuditStatistics.expiredDrugs := snd counters |})
    (λ e, raise (HTTPException 500
                   [Lit "Failed to retrieve audit statistics: "; StrOf e])).

End Audit.

(** ** utils/validation.py, the name and quantity helpers *)

Module Normalize.

(** The characters [str.strip] removes, among the code points below 256. *)
Definition is_space (c : ascii) : bool :=
  let n := N_of_ascii c in
  ((9 <=? n) && (n <=? 13) || (28 <=? n) && (n <=? 32)
   || (n =? 133) || (n =? 160))%N.

Fixpoint lstrip (s : string) : string :=
  match s with
  | EmptyString => EmptyString
  | String c r => if is_space c then lstrip r else s
  end.

Fixpoint rstrip (s : string) : string :=
  match s with
  | EmptyString => EmptyString
  | String c r =>
      match rstrip r with
      | EmptyString => if is_space c then EmptyString else String c EmptyString
      | r' => String c r'
      end
  end.

Definition strip (s : string) : string := rstrip (lstrip s).

Definition normalize_ingredient_name (name : string) : string :=
  lower (strip name).

Definition compare_ingredient_quantities (provided_qty expected_qty : string)
  : bool :=
  String.eqb (lower (strip provided_qty)) (lower (strip expected_qty)).

End Normalize.

(** ** routes/auth.py *)

Module RoleEnum.
Inductive t : Type :=
| NONE | MANUFACTURER | DISTRIBUTOR | PHARMACY | CONSUMER | REGULATOR.

Definition value (r : t) : string :=
  match r with
  | NONE => "NONE"
  | MANUFACTURER => "MANUFACTURER"
  | DISTRIBUTOR => "DISTRIBUTOR"
  | PHARMACY => "PHARMACY"
  | CONSUMER => "CONSUMER"
  | REGULATOR => "REGULATOR"
  end.
End RoleEnum.

Module UserCreate.
Record t := { walletAddress : string; role : RoleEnum.t; name : string }.
End UserCreate.

Definition set_users (l : list UserDoc.t) (w : World.t) : World.t :=
  {| World.users := l;
     World.drug_composition_dataset := World.drug_composition_dataset w;
     World.drug_composition_storage := World.drug_composition_storage w;
     World.drug_batches := World.drug_batches w;
     World.db_fault := World.db_fault w;
     World.contract := World.contract w;
     World.clock := World.clock w;
     World.trace := World.trace w |}.

Module Auth.

(** The [data] of the answer of [register_user]. *)
Module Registered.
Record t := { userId : string; walletAddress : string; role : string }.
End Registered.

(** The dict [get_user] and [get_all_users] build from a document.  The
    documents of [db.users] are written with [isRegistered] true and without
    a registration time. *)
Module UserResponse.
Record t := {
  walletAddress : string;
  role : string;
  name : string;
  isRegistered : bool;
  registrationTimestamp : option Z
}.
End UserResponse.

Definition response_of (user : UserDoc.t) : UserResponse.t :=
  {| UserResponse.walletAddress := UserDoc.walletAddress user;
     UserResponse.role := UserDoc.role user;
     UserResponse.name := UserDoc.name user;
     UserResponse.isRegistered := true;
     UserResponse.registrationTimestamp := None |}.

Definition insert_user (doc : UserDoc.t) : M unit :=
  Db.call (DbInsert "users" (UserDoc.walletAddress doc))
    (λ w, (tt, set_users (World.users w ++ [doc]) w)).

(** [register_user]; [inserted_id] is the id the database gives the new
    document. *)
Definition register_user (inserted_id : string) (user : UserCreate.t)
  : M Registered.t :=
  reraise_or_500 "User registration failed: "
    (let! existing_user := Db.find_user (UserCreate.walletAddress user) in
     (if existing_user is Some _
      then raise (HTTPException 400
                    [Lit "User with this wallet address already registered"])
      else ret tt) ;;
     insert_user
       {| UserDoc.walletAddress := UserCreate.walletAddress user;
          UserDoc.role := RoleEnum.value (UserCreate.role user);
          UserDoc.name := UserCreate.name user |} ;;
     ret {| Registered.userId := inserted_id;
            Registered.walletAddress := UserCreate.walletAddress user;
            Registered.role := RoleEnum.value (UserCreate.role user) |}).

Definition get_user (wallet_address : string) : M UserResponse.t :=
  reraise_or_500 "Failed to retrieve user: "
    (let! user := Db.find_user wallet_address in
     match user with
     | None => raise (HTTPException 404 [Lit "User not found"])
     | Some user => ret (response_of user)
     end).

Definition get_all_users : M (list UserResponse.t) :=
  try_except
    (let! users := Db.read (DbScan "users") (λ w, firstn 100 (World.users w)) in
     ret (map response_of users))
    (λ e, raise (HTTPException 500 [Lit "Failed to retrieve users: "; StrOf e])).

End Auth.

(** ** routes/drugs.py, the lookup *)

Module DrugInfo.

(** [get_drug_info]: the document found, which the route returns as the
    [data] of its answer. *)
Definition get_drug_info (batch_id : string) : M StorageDoc.t :=
  reraise_or_500 "Failed to retrieve drug info: "
    (let! drug := Db.find_storage batch_id in
     match drug with
     | None => raise (HTTPException 404 [Lit "Batch ID not found"])
     | Some drug => ret drug
     end).

End DrugInfo.

(** ** routes/verification.py, the history *)

Module History.

Module Response.
Record t := {
  success : bool;
  batchId : string;
  history : list BlockchainService.OwnershipRecord.t
}.
End Response.

Definition get_ownership_history (batch_id : string) : M Response.t :=
  reraise_or_500 "Failed to retrieve ownership history: "
    (let! history_result := BlockchainService.get_drug_history batch_id in
     match history_result with
     | BlockchainService.Failure _ =>
         raise (HTTPException 404 [Lit "Batch ID not found or history unavailable"])
     | BlockchainService.Success history =>
         ret {| Response.success := true;
                Response.batchId := batch_id;
                Response.history := history |}
     end).

End History.

(** ** routes/audit.py, the reports *)

Module AuditReports.

Module AuditResult.
Record t := {
  batchId : string;
  hasAnomalies : bool;
  anomalyType : string;
  ownershipCount : Z;
  drugName : string;
  manufacturer : string;
  currentOwner : string
}.
End AuditResult.

(** The body of the loop of [get_drugs_with_anomalies]. *)
Definition report_one (current_timestamp : Z) (drug : StorageDoc.t)
    (anomalous_drugs : list AuditResult.t) : M (list AuditResult.t) :=
  let batch_id := StorageDoc.batchId drug in
  let expired := StorageDoc.expiryDate drug <? current_timestamp in
  let has_anomaly := expired in
  let anomaly_type := if expired then "Expired" else "None" in
  try_except
    (let! verification := BlockchainService.verify_drug batch_id in
     match verification with
     | BlockchainService.Success v =>
         let transfer_count := ChainDrug.transferCount v in
         let incomplete := (transfer_count <? 2) && negb has_anomaly in
         let has_anomaly := if incomplete then true else has_anomaly in
         let anomaly_type :=
           if incomplete then "Incomplete ownership chain" else anomaly_type in
         if has_anomaly
         then ret (anomalous_drugs ++
                   [ {| AuditResult.batchId := batch_id;
                        AuditResult.hasAnomalies := true;
                        AuditResult.anomalyType := anomaly_type;
                        AuditResult.ownershipCount := transfer_count;
                        AuditResult.drugName := StorageDoc.drugName drug;
                        AuditResult.manufacturer := StorageDoc.manufacturer drug;
                        AuditResult.currentOwner := ChainDrug.currentOwner v |} ])
         else ret anomalous_drugs
     | BlockchainService.Failure _ =>
         ret (anomalous_drugs ++
              [ {| AuditResult.batchId := batch_id;
                   AuditResult.hasAnomalies := true;
                   AuditResult.anomalyType := "Blockchain verification failed";
                   AuditResult.ownershipCount := 0;
                   AuditResult.drugName := StorageDoc.drugName drug;
                   AuditResult.manufacturer := StorageDoc.manufacturer drug;
                   AuditResult.currentOwner := "Unknown" |} ])
     end)
    (λ _, ret anomalous_drugs).

Definition get_drugs_with_anomalies : M (list AuditResult.t) :=
  try_except
    (let! drugs := Db.scan_storage 1000 in
     let! current_timestamp := time_time in
     for_each drugs (report_one current_timestamp) [])
    (λ e, raise (HTTPException 500 [Lit "Failed to retrieve anomalies: "; StrOf e])).

Module ExpiredDrug.
Record t := {
  batchId : string;
  drugName : string;
  manufacturer : string;
  expiryDate : Z;
  daysExpired : Z
}.
End ExpiredDrug.

Module ExpiredResponse.
Record t := {
  success : bool;
  count : nat;
  expiredDrugs : list ExpiredDrug.t
}.
End ExpiredResponse.

(** [find({"expiryDate": {"$lt": now}}).to_list(length=1000)]. *)
Definition scan_expired (current_timestamp : Z) : M (list StorageDoc.t) :=
  Db.read (DbScan "drug_composition_storage")
    (λ w, firstn 1000
            (List.filter (λ d, StorageDoc.expiryDate d <? current_timestamp)
               (World.drug_composition_storage w))).

Definition get_expired_drugs : M ExpiredResponse.t :=
  try_except
    (let! current_timestamp := time_time in
     let! expired_drugs := scan_expired current_timestamp in
     let result :=
       map (λ drug,
              {| ExpiredDrug.batchId := StorageDoc.batchId drug;
                 ExpiredDrug.drugName := StorageDoc.drugName drug;
                 ExpiredDrug.manufacturer := StorageDoc.manufacturer drug;
                 ExpiredDrug.expiryDate := StorageDoc.expiryDate drug;
                 ExpiredDrug.daysExpired :=
                   (current_timestamp - StorageDoc.expiryDate drug) / 86400 |})
           expired_drugs in
     ret {| ExpiredResponse.success := true;
            ExpiredResponse.count := length result;
            ExpiredResponse.expiredDrugs := result |})
    (λ e, raise (HTTPException 500
                   [Lit "Failed to retrieve expired drugs: "; StrOf e])).

Module RegisteredDrug.
Record t := { batchId : string; drugName : string; registrationTimestamp : Z }.
End RegisteredDrug.

(** The two shapes of the answer of [get_user_activity]. *)
Inductive Activity : Type :=
| ManufacturerActivity (walletAddress role : string)
    (totalDrugsRegistered : nat) (drugs : list RegisteredDrug.t)
| OtherActivity (walletAddress role : string) (message : string).

(** [find({"manufacturer": wallet_address}).to_list(length=1000)]. *)
Definition scan_by_manufacturer (wallet_address : string) : M (list StorageDoc.t) :=
  Db.read (DbScan "drug_composition_storage")
    (λ w, firstn 1000
            (List.filter (λ d, String.eqb (StorageDoc.manufacturer d) wallet_address)
               (World.drug_composition_storage w))).

Definition get_user_activity (wallet_address : string) : M Activity :=
  reraise_or_500 "Failed to retrieve user activity: "
    (let! user := Db.find_user wallet_address in
     match user with
     | None => raise (HTTPException 404 [Lit "User not found"])
     | Some user =>
         if String.eqb (UserDoc.role user) "MANUFACTURER"
         then
           let! drugs := scan_by_manufacturer wallet_address in
           ret (ManufacturerActivity wallet_address (UserDoc.role user)
                  (length drugs)
                  (map (λ d,
                          {| RegisteredDrug.batchId := StorageDoc.batchId d;
                             RegisteredDrug.drugName := StorageDoc.drugName d;
                             RegisteredDrug.registrationTimestamp :=
                               StorageDoc.registrationTimestamp d |})
                       drugs))
         else
           ret (OtherActivity wallet_address (UserDoc.role user)
                  "Activity tracking for this role not yet implemented")
     end).

End AuditReports.

(** * Vocabulary of the properties *)

(** ** What a request finds in the world *)

Definition ledger_history (w : World.t) (batch_id : string)
  : list BlockchainService.OwnershipRecord.t :=
  match Contract.getDrugHistory (World.contract w) batch_id with
  | inr history => map BlockchainService.format_record history
  | inl _ => []
  end.

Definition stored (w : World.t) (batch_id : string) : option StorageDoc.t :=
  List.find (λ d, String.eqb (StorageDoc.batchId d) batch_id)
            (World.drug_composition_storage w).

Definition batch_of (w : World.t) (batch_id : string) : option BatchDoc.t :=
  List.find (λ d, String.eqb (BatchDoc.batchId d) batch_id) (World.drug_batches w).

Definition user_of (w : World.t) (wallet : string) : option UserDoc.t :=
  List.find (λ u, String.eqb (UserDoc.walletAddress u) wallet) (World.users w).

Definition dataset_of (w : World.t) (drug_name : string) : option DatasetDoc.t :=
  List.find (λ d, String.eqb (DatasetDoc.drugName d) drug_name)
            (World.drug_composition_dataset w).

(** The ledger calls among the calls made so far. *)
Definition ledger_calls (w : World.t) : list Event :=
  List.filter is_ledger_call (World.trace w).

Definition count_if {A} (p : A → bool) (l : list A) : nat :=
  length (List.filter p l).

(** ** The world after the calls of a request *)

Definition after_verify (batch_id : string) (w : World.t) : World.t :=
  World.log (DbFind "drug_composition_storage" batch_id)
    (World.log (LedgerHistory batch_id) (World.log (LedgerVerify batch_id) w)).

Definition owner_updated (t : OwnershipTransferRequest.t) (w : World.t) : World.t :=
  let batch_id := OwnershipTransferRequest.batchId t in
  World.set_batches
    (Db.update_first (λ d, String.eqb (BatchDoc.batchId d) batch_id)
       (BatchDoc.set_owner (lower (OwnershipTransferRequest.toAddress t))
          (World.clock w))
       (World.drug_batches w))
    (World.log (DbUpdate "drug_batches" batch_id)
       (World.log (DbFind "drug_batches" batch_id) w)).

Definition users_looked_up (t : OwnershipTransferRequest.t) (w : World.t) : World.t :=
  World.log (DbFind "users" (lower (OwnershipTransferRequest.toAddress t)))
    (World.log (DbFind "users" (lower (OwnershipTransferRequest.fromAddress t)))
       (owner_updated t w)).

Definition transfer_requested (t : OwnershipTransferRequest.t) (w : World.t)
  : World.t :=
  World.log (LedgerTransfer (OwnershipTransferRequest.batchId t)
               (OwnershipTransferRequest.toAddress t)
               (OwnershipTransferRequest.location t)
               (OwnershipTransferRequest.fromAddress t))
    (users_looked_up t w).

(** ** Verdicts *)

Definition keeps_fake (rule : Verification.Analysis → Verification.Analysis) : Prop :=
  ∀ a, Verification.status_text a = "FAKE" →
       Verification.status_text (rule a) = "FAKE".

Definition error_item (batch_id : string) (e : exn) : Verification.BatchItem.t :=
  {| Verification.BatchItem.batchId := batch_id;
     Verification.BatchItem.isGenuine := false;
     Verification.BatchItem.status := "ERROR";
     Verification.BatchItem.error := Some e |}.

(** What the audit looks at: the ledger call failed, or it reports fewer
    than two transfers. *)
Definition anomalous_on_ledger (c : Contract.t) (batch_id : string) : bool :=
  match Contract.verifyDrug c batch_id with
  | inr v => ChainDrug.transferCount v <? 2
  | inl _ => true
  end.

(** ** Custody *)

Definition legal_transfer (from_role to_role : string) : Prop :=
  (from_role = "MANUFACTURER" ∧ to_role = "DISTRIBUTOR")
  ∨ (from_role = "DISTRIBUTOR" ∧ to_role = "PHARMACY")
  ∨ (from_role = "DISTRIBUTOR" ∧ to_role = "DISTRIBUTOR").

(** ** Registration *)

(** The hash [register_drug] computes for a request's composition. *)
Definition hash_of (c : DrugComposition.t) : string :=
  match Hashing.generate_composition_hash (DrugComposition.dict c) with
  | inr r => fst r
  | inl _ => ""
  end.

Definition registered_storage_doc (d : DrugRegistrationRequest.t) (now : Z)
  : StorageDoc.t :=
  {| StorageDoc.batchId := DrugRegistrationRequest.batchId d;
     StorageDoc.drugName := DrugRegistrationRequest.drugName d;
     StorageDoc.fullComposition :=
       JObj (DrugComposition.dict (DrugRegistrationRequest.composition d));
     StorageDoc.compositionHash := hash_of (DrugRegistrationRequest.composition d);
     StorageDoc.manufacturer := DrugRegistrationRequest.manufacturerAddress d;
     StorageDoc.manufactureDate := DrugRegistrationRequest.manufactureDate d;
     StorageDoc.expiryDate := DrugRegistrationRequest.expiryDate d;
     StorageDoc.registrationTimestamp := now |}.

Definition registered_batch_doc (d : DrugRegistrationRequest.t) (now : Z)
  : BatchDoc.t :=
  {| BatchDoc.batchId := DrugRegistrationRequest.batchId d;
     BatchDoc.drugName := DrugRegistrationRequest.drugName d;
     BatchDoc.manufacturer := lower (DrugRegistrationRequest.manufacturerAddress d);
     BatchDoc.currentOwner := lower (DrugRegistrationRequest.manufacturerAddress d);
     BatchDoc.status := "ACTIVE";
     BatchDoc.manufactureDate := DrugRegistrationRequest.manufactureDate d;
     BatchDoc.expiryDate := DrugRegistrationRequest.expiryDate d;
     BatchDoc.createdAt := now;
     BatchDoc.updatedAt := now |}.

Definition registration_response (d : DrugRegistrationRequest.t)
  : Drugs.DrugRegistrationResponse.t :=
  {| Drugs.DrugRegistrationResponse.success := true;
     Drugs.DrugRegistrationResponse.message :=
       "Drug registered successfully. Sign the transaction in MetaMask.";
     Drugs.DrugRegistrationResponse.batchId := DrugRegistrationRequest.batchId d;
     Drugs.DrugRegistrationResponse.compositionHash :=
       hash_of (DrugRegistrationRequest.composition d);
     Drugs.DrugRegistrationResponse.transactionHash := None |}.

Definition registration_call (d : DrugRegistrationRequest.t) : Event :=
  LedgerRegister (DrugRegistrationRequest.batchId d)
    (DrugRegistrationRequest.drugName d)
    (hash_of (DrugRegistrationRequest.composition d))
    (DrugRegistrationRequest.manufactureDate d)
    (DrugRegistrationRequest.expiryDate d)
    (DrugRegistrationRequest.manufacturerAddress d).

Definition validation_request (d : DrugRegistrationRequest.t)
  : CompositionValidationRequest.t :=
  {| CompositionValidationRequest.drugName := DrugRegistrationRequest.drugName d;
     CompositionValidationRequest.composition :=
       DrugRegistrationRequest.composition d |}.

(** ** Canonical form *)

(** Sortedness of a decorated list by key. *)
Definition key_le {A} (p q : string * A) : Prop :=
  String.leb (fst p) (fst q) = true.

(** Two decorated items with the same key and related values. *)
Definition same_key {A B} (R : A → B → Prop) (p : string * A) (q : string * B)
  : Prop :=
  fst p = fst q ∧ R (snd p) (snd q).

(** An item paired with the key that [f] computes for it. *)
Definition decorated {A} (f : A → exn + string) (p : string * A) : Prop :=
  f (snd p) = inr (fst p).

(** Two dicts with the same entries, listed in a different order. *)
Definition same_object (i i' : json) : Prop :=
  ∃ f f', i = JObj f ∧ i' = JObj f' ∧ NoDup (map fst f) ∧ Permutation f f'.

(** A member of a dict with its value rendered. *)
Definition render (kv : string * json) : string * string :=
  (fst kv, Json.dumps (snd kv)).

(** The number whose digits in base 2^32, lowest first, are the given
    words. *)
Fixpoint word_value (ws : list N) : N :=
  match ws with
  | [] => 0
  | w :: r => w + 2 ^ 32 * word_value r
  end%N.

(** A composition without ingredients whose canonical text has [n + 11]
    characters. *)
Definition filler (n : nat) : list (string * json) :=
  [("note", JStr (string_of_list_ascii (repeat "a"%char n)))].

(** * Worked inputs *)

Module Fixture.

Definition ingredient (n : string) : json :=
  JObj [("name", JStr n); ("quantity", JStr "10mg"); ("percentage", JNull)].

Definition composition_of (names : list string) : json :=
  JObj [("ingredients", JArr (map ingredient names))].

Definition reference_A_to_J : json :=
  composition_of ["A"; "B"; "C"; "D"; "E"; "F"; "G"; "H"; "I"; "J"].

Definition submitted_A_to_I : json :=
  composition_of ["A"; "B"; "C"; "D"; "E"; "F"; "G"; "H"; "I"].

Definition manufacturer : UserDoc.t :=
  {| UserDoc.walletAddress := "0xaa"; UserDoc.role := "MANUFACTURER";
     UserDoc.name := "Acme Pharma" |}.
Definition distributor : UserDoc.t :=
  {| UserDoc.walletAddress := "0xbb"; UserDoc.role := "DISTRIBUTOR";
     UserDoc.name := "Medline Logistics" |}.
Definition pharmacy : UserDoc.t :=
  {| UserDoc.walletAddress := "0xcc"; UserDoc.role := "PHARMACY";
     UserDoc.name := "Corner Pharmacy" |}.

Definition paracetamol : DrugComposition.t :=
  {| DrugComposition.ingredients :=
       [ {| DrugIngredient.name := "Paracetamol";
            DrugIngredient.quantity := "500mg";
            DrugIngredient.percentage := Some "50.0" |};
         {| DrugIngredient.name := "Caffeine";
            DrugIngredient.quantity := "65mg";
            DrugIngredient.percentage := Some "6.5" |} ] |}.

Definition paracetamol_hash : string :=
  "828579bef7464e4f092c5fc60d62081bf89e2690bade2bdbe69ee3184df805c5".

Definition tampered_hash : string :=
  "0000000000000000000000000000000000000000000000000000000000000000".

(** Batch B1 as the contract reports it: expiry at 2000. *)
Definition on_chain (transfers : Z) (hash : string) : ChainDrug.t :=
  {| ChainDrug.isGenuine := true;
     ChainDrug.drugName := "Paracetamol";
     ChainDrug.manufacturer := "0xaa";
     ChainDrug.compositionHash := hash;
     ChainDrug.manufactureDate := 1000;
     ChainDrug.expiryDate := 2000;
     ChainDrug.currentOwner := "0xcc";
     ChainDrug.transferCount := transfers |}.

Definition to_distributor : ChainTransfer.t :=
  {| ChainTransfer.from := "0xaa"; ChainTransfer.to := "0xbb";
     ChainTransfer.timestamp := 1100; ChainTransfer.location := "Pune";
     ChainTransfer.fromRole := 1; ChainTransfer.toRole := 2 |}.

Definition to_pharmacy : ChainTransfer.t :=
  {| ChainTransfer.from := "0xbb"; ChainTransfer.to := "0xcc";
     ChainTransfer.timestamp := 1200; ChainTransfer.location := "Mumbai";
     ChainTransfer.fromRole := 2; ChainTransfer.toRole := 3 |}.

(** A contract that knows batch B1 only and builds any transaction. *)
Definition contract (drug : ChainDrug.t) (history : list ChainTransfer.t)
  : Contract.t :=
  {| Contract.verifyDrug := λ batch_id,
       if String.eqb batch_id "B1" then inr drug
       else inl (PyError "ContractLogicError" "execution reverted");
     Contract.getDrugHistory := λ batch_id,
       if String.eqb batch_id "B1" then inr history
       else inl (PyError "ContractLogicError" "execution reverted");
     Contract.registerDrug := λ _ _ _ _ _ _, inr "registerDrug transaction";
     Contract.transferOwnership := λ _ _ _ _, inr "transferOwnership transaction" |}.

Definition world (drug : ChainDrug.t) (history : list ChainTransfer.t) (now : Z)
  : World.t :=
  {| World.users := [manufacturer; distributor; pharmacy];
     World.drug_composition_dataset :=
       [ {| DatasetDoc.drugName := "Paracetamol";
            DatasetDoc.standardComposition :=
              Some (JObj (DrugComposition.dict paracetamol)) |} ];
     World.drug_composition_storage :=
       [ {| StorageDoc.batchId := "B1";
            StorageDoc.drugName := "Paracetamol";
            StorageDoc.fullComposition := JObj (DrugComposition.dict paracetamol);
            StorageDoc.compositionHash := paracetamol_hash;
            StorageDoc.manufacturer := "0xaa";
            StorageDoc.manufactureDate := 1000;
            StorageDoc.expiryDate := 2000;
            StorageDoc.registrationTimestamp := 1000 |} ];
     World.drug_batches :=
       [ {| BatchDoc.batchId := "B1";
            BatchDoc.drugName := "Paracetamol";
            BatchDoc.manufacturer := "0xaa";
            BatchDoc.currentOwner := "0xcc";
            BatchDoc.status := "ACTIVE";
            BatchDoc.manufactureDate := 1000;
            BatchDoc.expiryDate := 2000;
            BatchDoc.createdAt := 1000;
            BatchDoc.updatedAt := 1200 |} ];
     World.db_fault := None;
     World.contract := contract drug history;
     World.clock := now;
     World.trace := [] |}.

(** B1 delivered to the pharmacy, hashes agreeing, before expiry. *)
Definition genuine : World.t :=
  world (on_chain 2 paracetamol_hash) [to_distributor; to_pharmacy] 1500.

(** The same with a different hash on the ledger. *)
Definition tampered : World.t :=
  world (on_chain 2 tampered_hash) [to_distributor; to_pharmacy] 1500.

(** B1 still at the distributor. *)
Definition in_transit : World.t :=
  world (on_chain 1 paracetamol_hash) [to_distributor] 1500.

(** The genuine batch looked at after its expiry date. *)
Definition expired : World.t :=
  world (on_chain 2 paracetamol_hash) [to_distributor; to_pharmacy] 3000.

(** The pharmacy tries to send B1 back to the distributor. *)
Definition return_to_distributor : OwnershipTransferRequest.t :=
  {| OwnershipTransferRequest.batchId := "B1";
     OwnershipTransferRequest.fromAddress := "0xCC";
     OwnershipTransferRequest.toAddress := "0xBB";
     OwnershipTransferRequest.location := "Mumbai" |}.

(** The manufacturer ships B1 to the distributor. *)
Definition ship_to_distributor : OwnershipTransferRequest.t :=
  {| OwnershipTransferRequest.batchId := "B1";
     OwnershipTransferRequest.fromAddress := "0xAA";
     OwnershipTransferRequest.toAddress := "0xBB";
     OwnershipTransferRequest.location := "Pune" |}.

(** A drug without a reference standard. *)
Definition ibuprofen_batch : DrugRegistrationRequest.t :=
  {| DrugRegistrationRequest.batchId := "B2";
     DrugRegistrationRequest.drugName := "Ibuprofen";
     DrugRegistrationRequest.composition :=
       {| DrugComposition.ingredients :=
            [ {| DrugIngredient.name := "Ibuprofen";
                 DrugIngredient.quantity := "200mg";
                 DrugIngredient.percentage := None |} ] |};
     DrugRegistrationRequest.manufactureDate := 1400;
     DrugRegistrationRequest.expiryDate := 5000;
     DrugRegistrationRequest.manufacturerAddress := "0xaa" |}.

(** Two ingredients whose names differ in case only. *)
Definition ingredient_a : DrugIngredient.t :=
  {| DrugIngredient.name := "a"; DrugIngredient.quantity := "1mg";
     DrugIngredient.percentage := None |}.
Definition ingredient_A : DrugIngredient.t :=
  {| DrugIngredient.name := "A"; DrugIngredient.quantity := "2mg";
     DrugIngredient.percentage := None |}.
Definition tied_names : DrugComposition.t :=
  {| DrugComposition.ingredients := [ingredient_a; ingredient_A] |}.
Definition tied_names_swapped : DrugComposition.t :=
  {| DrugComposition.ingredients := [ingredient_A; ingredient_a] |}.

(** The paracetamol composition with the list reversed and the keys of the
    objects in another order. *)
Definition paracetamol_ingredients : list json :=
  map DrugIngredient.dict (DrugComposition.ingredients paracetamol).

Definition paracetamol_reversed : list json :=
  rev paracetamol_ingredients.

Definition paracetamol_rekeyed : list json :=
  [ JObj [("percentage", JNum "6.5"); ("quantity", JStr "65mg");
          ("name", JStr "Caffeine")];
    JObj [("quantity", JStr "500mg"); ("name", JStr "Paracetamol");
          ("percentage", JNum "50.0")] ].

End Fixture.

(** * Further vocabulary *)

(** ** Scores *)

(** Whether [n / n * 100] evaluates to the float 100. *)
Definition full_score (n : nat) : bool :=
  PrimFloat.Leibniz.eqb (float_of_nat n / float_of_nat n * 100)%float 100%float.

(** ** Digests and what can be hashed *)

(** The characters of [hexdigest]: a digit or a letter a..f. *)
Definition is_lower_hex (c : ascii) : bool :=
  let n := N_of_ascii c in
  ((48 <=? n) && (n <=? 57) || (97 <=? n) && (n <=? 102))%N.

Fixpoint all_chars (p : ascii → bool) (s : string) : bool :=
  match s with
  | EmptyString => true
  | String c r => p c && all_chars p r
  end.

(** An ingredient whose sort key can be computed: a dict whose name, when
    it has one, is a string. *)
Definition has_text_name (x : json) : bool :=
  match x with
  | JObj fields =>
      match dict_get fields "name" with
      | None | Some (JStr _) => true
      | Some _ => false
      end
  | _ => false
  end.

Definition leb_true (a b : string) : Prop := String.leb a b = true.

(** ** The world during a registration *)

(** [manufacturer and manufacturer.get("role") == "MANUFACTURER"]. *)
Definition is_manufacturer (w : World.t) (wallet : string) : bool :=
  match user_of w wallet with
  | Some m => String.eqb (UserDoc.role m) "MANUFACTURER"
  | None => false
  end.

(** The outcome of validating a request's composition against a dataset
    entry, as [register_drug] and [validate_drug_composition] call it. *)
Definition validated (d : DrugRegistrationRequest.t) (entry : DatasetDoc.t)
  : bool * text * option Validation.Details :=
  Validation.validate_composition (DrugRegistrationRequest.drugName d)
    (JObj (DrugComposition.dict (DrugRegistrationRequest.composition d)))
    (from_option id (JObj []) (DatasetDoc.standardComposition entry)).

(** The message of a failed validation, when the drug has a dataset entry
    and the composition is not valid against it. *)
Definition rejection (d : DrugRegistrationRequest.t) (w : World.t) : option text :=
  match dataset_of w (DrugRegistrationRequest.drugName d) with
  | Some entry =>
      if fst (fst (validated d entry)) then None
      else Some (snd (fst (validated d entry)))
  | None => None
  end.

Definition batch_looked_up (d : DrugRegistrationRequest.t) (w : World.t) : World.t :=
  World.log (DbFind "drug_composition_storage" (DrugRegistrationRequest.batchId d)) w.

Definition manufacturer_looked_up (d : DrugRegistrationRequest.t) (w : World.t)
  : World.t :=
  World.log (DbFind "users" (DrugRegistrationRequest.manufacturerAddress d))
    (batch_looked_up d w).

Definition registration_checked (d : DrugRegistrationRequest.t) (w : World.t)
  : World.t :=
  World.log (DbFind "drug_composition_dataset" (DrugRegistrationRequest.drugName d))
    (manufacturer_looked_up d w).

Definition registration_sent (d : DrugRegistrationRequest.t) (w : World.t)
  : World.t :=
  World.log (registration_call d) (registration_checked d w).

Definition registration_stored (d : DrugRegistrationRequest.t) (w : World.t)
  : World.t :=
  let batch_id := DrugRegistrationRequest.batchId d in
  World.set_batches
    (World.drug_batches w ++ [registered_batch_doc d (World.clock w)])
    (World.log (DbInsert "drug_batches" batch_id)
       (World.set_storage
          (World.drug_composition_storage w
           ++ [registered_storage_doc d (World.clock w)])
          (World.log (DbInsert "drug_composition_storage" batch_id)
             (registration_sent d w)))).

(** ** Users *)

(** The document [register_user] writes for a request. *)
Definition user_doc_of (u : UserCreate.t) : UserDoc.t :=
  {| UserDoc.walletAddress := UserCreate.walletAddress u;
     UserDoc.role := RoleEnum.value (UserCreate.role u);
     UserDoc.name := UserCreate.name u |}.

Definition user_registered (u : UserCreate.t) (w : World.t) : World.t :=
  set_users (World.users w ++ [user_doc_of u])
    (World.log (DbInsert "users" (UserCreate.walletAddress u))
       (World.log (DbFind "users" (UserCreate.walletAddress u)) w)).

(** ** Keys of the collections *)

(** No wallet address and no batch id is stored twice, and the batch
    records list the batch ids of the stored compositions, in order. *)
Definition keys_in_order (w : World.t) : Prop :=
  NoDup (map UserDoc.walletAddress (World.users w))
  ∧ NoDup (map StorageDoc.batchId (World.drug_composition_storage w))
  ∧ map BatchDoc.batchId (World.drug_batches w)
    = map StorageDoc.batchId (World.drug_composition_storage w).

(** ** The verdict in closed form *)

Definition expired_on_ledger (bc : ChainDrug.t) (now : Z) : bool :=
  ChainDrug.expiryDate bc <? now.

Definition short_chain (bc : ChainDrug.t) : bool :=
  ChainDrug.transferCount bc <? 2.

Definition hash_mismatch (doc : option StorageDoc.t) (bc : ChainDrug.t) : bool :=
  match doc with
  | Some d =>
      negb (String.eqb (lower (StorageDoc.compositionHash d))
              (lower (ChainDrug.compositionHash bc)))
  | None => false
  end.

Definition same_role (r : BlockchainService.OwnershipRecord.t) : bool :=
  String.eqb (BlockchainService.OwnershipRecord.fromRole r)
    (BlockchainService.OwnershipRecord.toRole r).

Definition to_zero_address (r : BlockchainService.OwnershipRecord.t) : bool :=
  String.eqb (BlockchainService.OwnershipRecord.to r) Verification.ZERO_ADDRESS.

(** The same-role messages for the records from index [i] on. *)
Fixpoint role_anomalies (i : nat)
    (records : list BlockchainService.OwnershipRecord.t) : list string :=
  match records with
  | [] => []
  | r :: rest =>
      (if same_role r
       then ["Suspicious transfer: same role transfer at index " +:+ pretty i]
       else [])
      ++ role_anomalies (S i) rest
  end.

Definition zero_anomalies (history : list BlockchainService.OwnershipRecord.t)
  : list string :=
  flat_map (λ r, if to_zero_address r
                 then ["Suspicious transfer to zero address detected"]
                 else [])
           history.

(** The anomalies of a verdict, in the order the checks report them. *)
Definition expected_anomalies (bc : ChainDrug.t)
    (history : list BlockchainService.OwnershipRecord.t)
    (doc : option StorageDoc.t) (now : Z) : list string :=
  (if expired_on_ledger bc now then ["Drug has expired"] else [])
  ++ (if short_chain bc then [Verification.INCOMPLETE_CHAIN_MESSAGE] else [])
  ++ (if hash_mismatch doc bc
      then ["Composition hash mismatch - possible tampering"] else [])
  ++ role_anomalies 1 (tail history)
  ++ zero_anomalies history.

(** The status of a verdict: FAKE before EXPIRED before INCOMPLETE_CHAIN. *)
Definition expected_status (bc : ChainDrug.t)
    (history : list BlockchainService.OwnershipRecord.t)
    (doc : option StorageDoc.t) (now : Z) : string :=
  if hash_mismatch doc bc || existsb to_zero_address history then "FAKE"
  else if expired_on_ledger bc now then "EXPIRED"
  else if short_chain bc || existsb same_role (tail history)
  then "INCOMPLETE_CHAIN"
  else "GENUINE".

(** ** Requests that only read *)

(** The world after more calls have been logged, and nothing else. *)
Definition logged (evs : list Event) (w : World.t) : World.t :=
  fold_left (λ w ev, World.log ev w) evs w.

(** A computation whose only trace in the world is the log of its calls. *)
Definition reads_only {A} (m : M A) : Prop :=
  ∀ w, ∃ evs, snd (m w) = logged evs w.

(** ** The audit reports in closed form *)

Definition expired_in_store (now : Z) (drug : StorageDoc.t) : bool :=
  StorageDoc.expiryDate drug <? now.

(** What the anomaly report says about one stored batch: a failed ledger
    call comes before an expiry, an expiry before a short chain. *)
Definition report_entry (c : Contract.t) (now : Z) (drug : StorageDoc.t)
  : option AuditReports.AuditResult.t :=
  match Contract.verifyDrug c (StorageDoc.batchId drug) with
  | inl _ =>
      Some {| AuditReports.AuditResult.batchId := StorageDoc.batchId drug;
              AuditReports.AuditResult.hasAnomalies := true;
              AuditReports.AuditResult.anomalyType := "Blockchain verification failed";
              AuditReports.AuditResult.ownershipCount := 0;
              AuditReports.AuditResult.drugName := StorageDoc.drugName drug;
              AuditReports.AuditResult.manufacturer := StorageDoc.manufacturer drug;
              AuditReports.AuditResult.currentOwner := "Unknown" |}
  | inr v =>
      if expired_in_store now drug || (ChainDrug.transferCount v <? 2)
      then
        Some {| AuditReports.AuditResult.batchId := StorageDoc.batchId drug;
                AuditReports.AuditResult.hasAnomalies := true;
                AuditReports.AuditResult.anomalyType :=
                  if expired_in_store now drug then "Expired"
                  else "Incomplete ownership chain";
                AuditReports.AuditResult.ownershipCount := ChainDrug.transferCount v;
                AuditReports.AuditResult.drugName := StorageDoc.drugName drug;
                AuditReports.AuditResult.manufacturer := StorageDoc.manufacturer drug;
                AuditReports.AuditResult.currentOwner := ChainDrug.currentOwner v |}
      else None
  end.

(** The entry of the activity list for a stored batch. *)
Definition activity_entry (d : StorageDoc.t) : AuditReports.RegisteredDrug.t :=
  {| AuditReports.RegisteredDrug.batchId := StorageDoc.batchId d;
     AuditReports.RegisteredDrug.drugName := StorageDoc.drugName d;
     AuditReports.RegisteredDrug.registrationTimestamp :=
       StorageDoc.registrationTimestamp d |}.

(** The batches stored under a manufacturer address, spelled as given. *)
Definition registered_by (wallet : string) (w : World.t) : list StorageDoc.t :=
  List.filter (λ d, String.eqb (StorageDoc.manufacturer d) wallet)
    (World.drug_composition_storage w).

(** * Further worked inputs *)

Module Scenario.

(** The reference A..J with one ingredient more. *)
Definition with_extra : json :=
  Fixture.composition_of
    ["A"; "B"; "C"; "D"; "E"; "F"; "G"; "H"; "I"; "J"; "extra-ingredient"].

Definition names_a_to_j : gset string :=
  list_to_set ["a"; "b"; "c"; "d"; "e"; "f"; "g"; "h"; "i"; "j"].

(** A composition dict with a note beside the ingredient list. *)
Definition annotated : list (string * json) :=
  [("note", JStr "batch 7");
   ("ingredients", JArr Fixture.paracetamol_ingredients)].

(** An ingredient list that holds a bare name instead of an object. *)
Definition bare_names : list (string * json) :=
  [("ingredients", JArr [JStr "Paracetamol"])].

(** A new paracetamol batch of the registered manufacturer. *)
Definition paracetamol_batch : DrugRegistrationRequest.t :=
  {| DrugRegistrationRequest.batchId := "B3";
     DrugRegistrationRequest.drugName := "Paracetamol";
     DrugRegistrationRequest.composition := Fixture.paracetamol;
     DrugRegistrationRequest.manufactureDate := 1400;
     DrugRegistrationRequest.expiryDate := 5000;
     DrugRegistrationRequest.manufacturerAddress := "0xaa" |}.

(** A paracetamol batch without the caffeine of the reference. *)
Definition underdosed_batch : DrugRegistrationRequest.t :=
  {| DrugRegistrationRequest.batchId := "B4";
     DrugRegistrationRequest.drugName := "Paracetamol";
     DrugRegistrationRequest.composition :=
       {| DrugComposition.ingredients :=
            [ {| DrugIngredient.name := "Paracetamol";
                 DrugIngredient.quantity := "500mg";
                 DrugIngredient.percentage := Some "50.0" |} ] |};
     DrugRegistrationRequest.manufactureDate := 1400;
     DrugRegistrationRequest.expiryDate := 5000;
     DrugRegistrationRequest.manufacturerAddress := "0xaa" |}.

(** The world of [Fixture.genuine] with a dataset entry for ibuprofen that
    has no standard composition. *)
Definition entry_without_standard : World.t :=
  {| World.users := World.users Fixture.genuine;
     World.drug_composition_dataset :=
       [ {| DatasetDoc.drugName := "Ibuprofen";
            DatasetDoc.standardComposition := None |} ];
     World.drug_composition_storage := World.drug_composition_storage Fixture.genuine;
     World.drug_batches := World.drug_batches Fixture.genuine;
     World.db_fault := None;
     World.contract := World.contract Fixture.genuine;
     World.clock := World.clock Fixture.genuine;
     World.trace := [] |}.

(** A pharmacy that signs up under a checksummed, mixed-case address. *)
Definition checksummed_pharmacy : UserCreate.t :=
  {| UserCreate.walletAddress := "0xDd";
     UserCreate.role := RoleEnum.PHARMACY;
     UserCreate.name := "High Street Pharmacy" |}.

(** The distributor hands B1 to that pharmacy. *)
Definition to_checksummed_pharmacy : OwnershipTransferRequest.t :=
  {| OwnershipTransferRequest.batchId := "B1";
     OwnershipTransferRequest.fromAddress := "0xbb";
     OwnershipTransferRequest.toAddress := "0xDd";
     OwnershipTransferRequest.location := "Nagpur" |}.

(** B1 with a first history record between two distributors. *)
Definition relabelled_first_record : ChainTransfer.t :=
  {| ChainTransfer.from := "0xaa"; ChainTransfer.to := "0xbb";
     ChainTransfer.timestamp := 1100; ChainTransfer.location := "Pune";
     ChainTransfer.fromRole := 2; ChainTransfer.toRole := 2 |}.

Definition relabelled : World.t :=
  Fixture.world (Fixture.on_chain 2 Fixture.paracetamol_hash)
    [relabelled_first_record; Fixture.to_pharmacy] 1500.

(** B1 with a second record that sends it to the zero address: the hashes
    agree, there are two transfers and the batch is not expired. *)
Definition to_nobody : ChainTransfer.t :=
  {| ChainTransfer.from := "0xbb";
     ChainTransfer.to := Verification.ZERO_ADDRESS;
     ChainTransfer.timestamp := 1200; ChainTransfer.location := "Mumbai";
     ChainTransfer.fromRole := 2; ChainTransfer.toRole := 0 |}.

Definition burned : World.t :=
  Fixture.world (Fixture.on_chain 2 Fixture.paracetamol_hash)
    [Fixture.to_distributor; to_nobody] 1500.

(** The world of [Fixture.genuine] with the database out of reach. *)
Definition database_down : World.t :=
  {| World.users := World.users Fixture.genuine;
     World.drug_composition_dataset := World.drug_composition_dataset Fixture.genuine;
     World.drug_composition_storage := World.drug_composition_storage Fixture.genuine;
     World.drug_batches := World.drug_batches Fixture.genuine;
     World.db_fault := Some (PyError "ServerSelectionTimeoutError" "connection refused");
     World.contract := World.contract Fixture.genuine;
     World.clock := World.clock Fixture.genuine;
     World.trace := [] |}.

(** The world of [Fixture.genuine] with a ledger that also knows batch B3,
    registered and not yet transferred. *)
Definition ledger_with_B3 : World.t :=
  {| World.users := World.users Fixture.genuine;
     World.drug_composition_dataset := World.drug_composition_dataset Fixture.genuine;
     World.drug_composition_storage := World.drug_composition_storage Fixture.genuine;
     World.drug_batches := World.drug_batches Fixture.genuine;
     World.db_fault := None;
     World.contract :=
       {| Contract.verifyDrug := λ batch_id,
            if String.eqb batch_id "B3"
            then inr (Fixture.on_chain 0 Fixture.paracetamol_hash)
            else Contract.verifyDrug (World.contract Fixture.genuine) batch_id;
          Contract.getDrugHistory := λ batch_id,
            if String.eqb batch_id "B3" then inr []
            else Contract.getDrugHistory (World.contract Fixture.genuine) batch_id;
          Contract.registerDrug :=
            Contract.registerDrug (World.contract Fixture.genuine);
          Contract.transferOwnership :=
            Contract.transferOwnership (World.contract Fixture.genuine) |};
     World.clock := World.clock Fixture.genuine;
     World.trace := [] |}.

End Scenario.

(** * Properties *)

(** ** The world under logging and updates *)

Section WorldFacts.
Context (ev : Event) (w : World.t).

Lemma users_log : World.users (World.log ev w) = World.users w.
Proof. reflexivity. Qed.
Lemma dataset_log :
  World.drug_composition_dataset (World.log ev w) = World.drug_composition_dataset w.
Proof. reflexivity. Qed.
Lemma storage_log :
  World.drug_composition_storage (World.log ev w) = World.drug_composition_storage w.
Proof. reflexivity. Qed.
Lemma batches_log : World.drug_batches (World.log ev w) = World.drug_batches w.
Proof. reflexivity. Qed.
Lemma db_fault_log : World.db_fault (World.log ev w) = World.db_fault w.
Proof. reflexivity. Qed.
Lemma contract_log : World.contract (World.log ev w) = World.contract w.
Proof. reflexivity. Qed.
Lemma clock_log : World.clock (World.log ev w) = World.clock w.
Proof. reflexivity. Qed.
Lemma trace_log : World.trace (World.log ev w) = World.trace w ++ [ev].
Proof. reflexivity. Qed.

Lemma users_set_batches l : World.users (World.set_batches l w) = World.users w.
Proof. reflexivity. Qed.
Lemma dataset_set_batches l :
  World.drug_composition_dataset (World.set_batches l w)
  = World.drug_composition_dataset w.
Proof. reflexivity. Qed.
Lemma storage_set_batches l :
  World.drug_composition_storage (World.set_batches l w)
  = World.drug_composition_storage w.
Proof. reflexivity. Qed.
Lemma batches_set_batches l : World.drug_batches (World.set_batches l w) = l.
Proof. reflexivity. Qed.
Lemma db_fault_set_batches l :
  World.db_fault (World.set_batches l w) = World.db_fault w.
Proof. reflexivity. Qed.
Lemma contract_set_batches l :
  World.contract (World.set_batches l w) = World.contract w.
Proof. reflexivity. Qed.
Lemma clock_set_batches l : World.clock (World.set_batches l w) = World.clock w.
Proof. reflexivity. Qed.
Lemma trace_set_batches l : World.trace (World.set_batches l w) = World.trace w.
Proof. reflexivity. Qed.

Lemma storage_set_storage l :
  World.drug_composition_storage (World.set_storage l w) = l.
Proof. reflexivity. Qed.
Lemma batches_set_storage l :
  World.drug_batches (World.set_storage l w) = World.drug_batches w.
Proof. reflexivity. Qed.
Lemma db_fault_set_storage l :
  World.db_fault (World.set_storage l w) = World.db_fault w.
Proof. reflexivity. Qed.
Lemma contract_set_storage l :
  World.contract (World.set_storage l w) = World.contract w.
Proof. reflexivity. Qed.
Lemma clock_set_storage l : World.clock (World.set_storage l w) = World.clock w.
Proof. reflexivity. Qed.
Lemma trace_set_storage l : World.trace (World.set_storage l w) = World.trace w.
Proof. reflexivity. Qed.

End WorldFacts.

Ltac simpl_world :=
  repeat progress rewrite ?users_log, ?dataset_log, ?storage_log, ?batches_log,
    ?db_fault_log, ?contract_log, ?clock_log, ?trace_log, ?users_set_batches,
    ?dataset_set_batches, ?storage_set_batches, ?batches_set_batches,
    ?db_fault_set_batches, ?contract_set_batches, ?clock_set_batches,
    ?trace_set_batches, ?storage_set_storage, ?batches_set_storage,
    ?db_fault_set_storage, ?contract_set_storage, ?clock_set_storage,
    ?trace_set_storage.

(** ** Composition validation *)

Section ValidationFacts.
Import Validation.

Lemma size_common_subset (P D : gset string) : P ⊆ D → size (P ∩ D) = size P.
Proof. intros HPD. by rewrite (subseteq_intersection_1_L P D HPD). Qed.

Lemma missing_count (P D : gset string) :
  P ⊆ D → length (elements (D ∖ P)) = (size D - size P)%nat.
Proof. intros HPD. apply (size_difference D P HPD). Qed.

(** C2, as the code has it: against a reference of 10 distinct lower-cased
    names, a submission with exactly 9 of them and no others scores 90.0 and
    one with exactly 8 scores 80.0; both are invalid, because [is_valid] also
    demands that no reference ingredient is missing. *)
Theorem validate_nine_or_eight_of_ten (drug_name : string)
    (provided dataset : json) (P D : gset string) :
  ingredient_names provided = inr P →
  ingredient_names dataset = inr D →
  size D = 10%nat → P ⊆ D →
  (size P = 9%nat →
   ∃ message details,
     validate_composition drug_name provided dataset
       = (false, message, Some details)
     ∧ matchPercentage details = 90%float)
  ∧ (size P = 8%nat →
   ∃ message details,
     validate_composition drug_name provided dataset
       = (false, message, Some details)
     ∧ matchPercentage details = 80%float).
Proof.
  intros HP HD HsD HPD.
  unfold validate_composition. rewrite HP, HD. cbn [bind_exn].
  unfold score.
  rewrite (size_common_subset _ _ HPD), (missing_count _ _ HPD), HsD.
  split; intros HsP; rewrite HsP; do 2 eexists; split; reflexivity.
Qed.

Lemma validate_nine_or_eight_of_ten_witness :
  ∃ message details,
    validate_composition "Paracetamol" Fixture.submitted_A_to_I
      Fixture.reference_A_to_J
    = (false, message, Some details)
    ∧ matchPercentage details = 90%float.
Proof.
  refine (proj1 (validate_nine_or_eight_of_ten "Paracetamol"
            Fixture.submitted_A_to_I Fixture.reference_A_to_J
            (list_to_set ["a"; "b"; "c"; "d"; "e"; "f"; "g"; "h"; "i"])
            (list_to_set ["a"; "b"; "c"; "d"; "e"; "f"; "g"; "h"; "i"; "j"])
            _ _ _ _) _).
  - reflexivity.
  - reflexivity.
  - vm_compute. reflexivity.
  - apply (bool_decide_unpack _). vm_compute. reflexivity.
  - vm_compute. reflexivity.
Defined.

(** C2 as the specification words it fails on the reference A..J with the
    submission A..I: the score is 90.0 and the composition is not valid. *)
Lemma nine_of_ten_is_not_valid :
  ¬ (∃ message details,
       validate_composition "Paracetamol" Fixture.submitted_A_to_I
         Fixture.reference_A_to_J
       = (true, message, Some details)
       ∧ matchPercentage details = 90%float).
Proof.
  intros (message & details & Heq & _). vm_compute in Heq. discriminate Heq.
Qed.

(** Every reference name present and one extra ingredient: valid, the extra
    listed, nothing missing. *)
Example extra_ingredient_is_ignored :
  ∃ message details,
    validate_composition "Paracetamol"
      (Fixture.composition_of
         ["A"; "B"; "C"; "D"; "E"; "F"; "G"; "H"; "I"; "J"; "extra-ingredient"])
      Fixture.reference_A_to_J
    = (true, message, Some details)
    ∧ matchPercentage details = 100%float
    ∧ extraIngredients details = ["extra-ingredient"]
    ∧ missingIngredients details = [].
Proof. do 2 eexists. split; [vm_compute; reflexivity|]. by repeat split. Qed.

End ValidationFacts.

(** ** The verification verdict *)

Section VerdictFacts.
Import BlockchainService Verification.

Lemma verify_drug_found batch_id w bc :
  Contract.verifyDrug (World.contract w) batch_id = inr bc →
  World.db_fault w = None →
  Verification.verify_drug batch_id w
  = (inr (DictOf (found batch_id bc (ledger_history w batch_id)
                    (stored w batch_id)
                    (analyse bc (ledger_history w batch_id) (stored w batch_id)
                       (World.clock w)))),
     after_verify batch_id w).
Proof.
  intros Hbc Hdb.
  unfold Verification.verify_drug, try_except, bind, BlockchainService.verify_drug,
    BlockchainService.get_drug_history, guarded, ledger_history.
  cbn. rewrite Hbc. cbn.
  destruct (Contract.getDrugHistory (World.contract w) batch_id) as [e|h]; cbn;
    unfold Db.find_storage, Db.read, Db.call; cbn; rewrite Hdb; reflexivity.
Qed.

Lemma verify_drug_missing batch_id w e :
  Contract.verifyDrug (World.contract w) batch_id = inl e →
  Verification.verify_drug batch_id w
  = (inr (DictOf (not_found batch_id)), World.log (LedgerVerify batch_id) w).
Proof.
  intros Hbc.
  unfold Verification.verify_drug, try_except, bind, BlockchainService.verify_drug,
    guarded.
  cbn. rewrite Hbc. reflexivity.
Qed.

(** Whatever [verify_drug] returns is a dict. *)
Lemma verify_drug_returns_dict batch_id w v w' :
  Verification.verify_drug batch_id w = (inr v, w') → ∃ d, v = DictOf d.
Proof.
  unfold Verification.verify_drug, try_except, bind, BlockchainService.verify_drug,
    BlockchainService.get_drug_history, guarded, Db.find_storage, Db.read,
    Db.call, time_time, ret, raise.
  cbn.
  destruct (Contract.verifyDrug (World.contract w) batch_id) as [e|bc]; cbn.
  - intros [= <- _]. eauto.
  - destruct (Contract.getDrugHistory (World.contract w) batch_id) as [e|h]; cbn;
      destruct (World.db_fault w); cbn; intros [= <- _] || intros [=]; eauto.
Qed.

(** *** How each check treats the status *)

Lemma role_sequence_from_status i records a :
  status_text (role_sequence_from i records a) = status_text a.
Proof.
  revert i a. induction records as [|r rest IH]; intros i a; cbn; [done|].
  rewrite IH. by destruct (String.eqb _ _).
Qed.

Lemma check_role_sequence_status history a :
  status_text (check_role_sequence history a) = status_text a.
Proof. apply role_sequence_from_status. Qed.

Lemma check_chain_completeness_status bc a :
  status_text (check_chain_completeness bc a) = status_text a.
Proof. unfold check_chain_completeness. by destruct (_ <? _). Qed.

Lemma check_zero_address_keeps_fake history : keeps_fake (check_zero_address history).
Proof.
  induction history as [|r rest IH]; intros a Ha; cbn; [done|].
  apply IH. by destruct (String.eqb _ _).
Qed.

Lemma final_status_keeps_fake : keeps_fake final_status.
Proof.
  intros a Ha. unfold final_status. rewrite Ha. cbn.
  rewrite andb_false_r. exact Ha.
Qed.

Lemma check_composition_hash_keeps_fake doc bc :
  keeps_fake (check_composition_hash doc bc).
Proof.
  intros a Ha. unfold check_composition_hash.
  destruct doc as [d|]; [|done]. by destruct (negb _).
Qed.

Lemma run_keeps_fake rs a :
  Forall keeps_fake rs → status_text a = "FAKE" → status_text (run rs a) = "FAKE".
Proof.
  unfold run. revert a. induction rs as [|r rs IH]; intros a Hrs Ha; cbn; [done|].
  inversion Hrs as [|? ? Hr Hrest]; subst. apply IH; [done|]. by apply Hr.
Qed.

Lemma run_app rs1 rs2 a : run (rs1 ++ rs2) a = run rs2 (run rs1 a).
Proof. apply fold_left_app. Qed.

(** The sequential code is the fold of the rule list. *)
Lemma analyse_is_run bc history doc now :
  analyse bc history doc now = run (rules bc history doc now) initial.
Proof. reflexivity. Qed.

(** Every check after the expiry check keeps a FAKE status. *)
Lemma later_rules_keep_fake bc history doc now :
  Forall keeps_fake (tail (rules bc history doc now)).
Proof.
  cbn. repeat constructor.
  - intros a Ha. by rewrite check_chain_completeness_status.
  - apply check_composition_hash_keeps_fake.
  - intros a Ha. by rewrite check_role_sequence_status.
  - apply check_zero_address_keeps_fake.
  - apply final_status_keeps_fake.
Qed.

Lemma fake_is_never_downgraded bc history doc now (k k' : nat) :
  (k ≤ k')%nat →
  status_text (run (take k (rules bc history doc now)) initial) = "FAKE" →
  status_text (run (take k' (rules bc history doc now)) initial) = "FAKE".
Proof.
  intros Hk Hfake.
  destruct k as [|k]; [discriminate Hfake|].
  destruct k' as [|k']; [lia|].
  set (rs := rules bc history doc now) in *.
  assert (Hsplit : take (S k') rs = take (S k) rs ++ take (k' - k) (drop (S k) rs)).
  { replace (S k') with (S k + (k' - k))%nat at 1 by lia.
    generalize (S k) as n, (k' - k)%nat as m. intros n m.
    rewrite <- firstn_skipn with (n := n) (l := firstn (n + m) rs) at 1.
    f_equal.
    - rewrite firstn_firstn. f_equal. lia.
    - rewrite skipn_firstn_comm. f_equal. lia. }
  rewrite Hsplit, run_app. apply run_keeps_fake; [|exact Hfake].
  apply Forall_take.
  replace (S k) with (1 + k)%nat by lia. rewrite <- drop_drop.
  apply Forall_drop. change (drop 1 rs) with (tail rs).
  apply later_rules_keep_fake.
Qed.

Lemma analyse_mismatch bc history doc now :
  lower (StorageDoc.compositionHash doc) ≠ lower (ChainDrug.compositionHash bc) →
  status_text (analyse bc history (Some doc) now) = "FAKE".
Proof.
  intros Hne. unfold analyse.
  apply final_status_keeps_fake, check_zero_address_keeps_fake.
  rewrite check_role_sequence_status.
  unfold check_composition_hash.
  destruct (String.eqb_spec (lower (StorageDoc.compositionHash doc))
              (lower (ChainDrug.compositionHash bc))) as [Heq|_]; [done|].
  reflexivity.
Qed.

(** C1: a batch found on the ledger whose stored hash differs, case folded,
    from the ledger's hash gets the verdict FAKE with [isGenuine] false,
    whatever the transfer count, the expiry date and the history are.  And
    for every ledger record, history, stored document or none, and time: in
    the run of the checks, a status that is FAKE after some check, whichever
    check set it, is FAKE after every later check and in the verdict that
    [verify_drug] returns. *)
Theorem hash_mismatch_is_fake :
  (∀ batch_id w bc doc,
     Contract.verifyDrug (World.contract w) batch_id = inr bc →
     World.db_fault w = None →
     stored w batch_id = Some doc →
     lower (StorageDoc.compositionHash doc) ≠ lower (ChainDrug.compositionHash bc) →
     ∃ v w', Verification.verify_drug batch_id w = (inr (DictOf v), w')
             ∧ Verdict.status v = "FAKE"
             ∧ Verdict.isGenuine v = false)
  ∧ (∀ bc history doc now (k k' : nat), (k ≤ k')%nat →
       let rs := rules bc history doc now in
       status_text (run (take k rs) initial) = "FAKE" →
       status_text (run (take k' rs) initial) = "FAKE"
       ∧ status_text (analyse bc history doc now) = "FAKE")
  ∧ (∀ batch_id w bc (k : nat),
       Contract.verifyDrug (World.contract w) batch_id = inr bc →
       World.db_fault w = None →
       status_text
         (run (take k (rules bc (ledger_history w batch_id) (stored w batch_id)
                         (World.clock w))) initial) = "FAKE" →
       ∃ v w', Verification.verify_drug batch_id w = (inr (DictOf v), w')
               ∧ Verdict.status v = "FAKE"
               ∧ Verdict.isGenuine v = false).
Proof.
  assert (Hfinal : ∀ bc history doc now (k : nat),
            status_text (run (take k (rules bc history doc now)) initial) = "FAKE" →
            status_text (analyse bc history doc now) = "FAKE").
  { intros bc history doc now k Hfake. rewrite analyse_is_run.
    rewrite <- (firstn_all2 (n := Nat.max k 6) (rules bc history doc now))
      by (cbn [length rules]; lia).
    apply (fake_is_never_downgraded _ _ _ _ k); [lia|exact Hfake]. }
  split; [|split].
  - intros batch_id w bc doc Hbc Hdb Hdoc Hne.
    eexists _, _. split; [by apply verify_drug_found|].
    rewrite Hdoc. cbn. rewrite (analyse_mismatch _ _ _ _ Hne). by split.
  - intros bc history doc now k k' Hk rs Hfake. split.
    + by apply (fake_is_never_downgraded _ _ _ _ k).
    + by apply (Hfinal _ _ _ _ k).
  - intros batch_id w bc k Hbc Hdb Hfake.
    eexists _, _. split; [by apply verify_drug_found|].
    cbn. rewrite (Hfinal _ _ _ _ k Hfake). by split.
Qed.

Lemma hash_mismatch_is_fake_witness :
  (∃ v w', Verification.verify_drug "B1" Fixture.tampered = (inr (DictOf v), w')
           ∧ Verdict.status v = "FAKE"
           ∧ Verdict.isGenuine v = false)
  ∧ (let rs := rules (Fixture.on_chain 2 Fixture.paracetamol_hash)
                 (ledger_history Scenario.burned "B1")
                 (stored Scenario.burned "B1")
                 (World.clock Scenario.burned) in
     status_text (run (take 4 rs) initial) = "GENUINE"
     ∧ status_text (run (take 5 rs) initial) = "FAKE"
     ∧ status_text (run (take 6 rs) initial) = "FAKE"
     ∧ status_text (analyse (Fixture.on_chain 2 Fixture.paracetamol_hash)
                      (ledger_history Scenario.burned "B1")
                      (stored Scenario.burned "B1")
                      (World.clock Scenario.burned)) = "FAKE")
  ∧ ∃ v w', Verification.verify_drug "B1" Scenario.burned = (inr (DictOf v), w')
            ∧ Verdict.status v = "FAKE"
            ∧ Verdict.isGenuine v = false.
Proof.
  split; [|split].
  - refine (proj1 hash_mismatch_is_fake "B1" Fixture.tampered
              (Fixture.on_chain 2 Fixture.tampered_hash) _ _ _ _ _).
    + reflexivity.
    + reflexivity.
    + reflexivity.
    + vm_compute. discriminate.
  - split; [vm_compute; reflexivity|]. split; [vm_compute; reflexivity|].
    refine (proj1 (proj2 hash_mismatch_is_fake)
              (Fixture.on_chain 2 Fixture.paracetamol_hash)
              (ledger_history Scenario.burned "B1") (stored Scenario.burned "B1")
              (World.clock Scenario.burned) 5%nat 6%nat _ _).
    + repeat constructor.
    + vm_compute. reflexivity.
  - refine (proj2 (proj2 hash_mismatch_is_fake) "B1" Scenario.burned
              (Fixture.on_chain 2 Fixture.paracetamol_hash) 5%nat _ _ _).
    + reflexivity.
    + reflexivity.
    + vm_compute. reflexivity.
Defined.

(** C6: for a batch id the ledger does not know, [verify_drug] returns the
    FAKE verdict with the single anomaly and the placeholder fields, and the
    only collaborator call it has made is the ledger lookup. *)
Theorem unknown_batch_is_fake batch_id w e :
  Contract.verifyDrug (World.contract w) batch_id = inl e →
  Verification.verify_drug batch_id w
  = (inr (DictOf {| Verdict.isGenuine := false;
                    Verdict.status := "FAKE";
                    Verdict.batchId := batch_id;
                    Verdict.drugName := "Unknown";
                    Verdict.manufacturer := "Unknown";
                    Verdict.compositionHash := "";
                    Verdict.currentOwner := "";
                    Verdict.manufactureDate := 0;
                    Verdict.expiryDate := 0;
                    Verdict.transferCount := 0;
                    Verdict.ownershipHistory := [];
                    Verdict.composition := None;
                    Verdict.anomalies := ["Batch ID not found on blockchain"] |}),
     World.log (LedgerVerify batch_id) w).
Proof. apply verify_drug_missing. Qed.

Lemma unknown_batch_is_fake_witness :
  Verification.verify_drug "does-not-exist" Fixture.genuine
  = (inr (DictOf {| Verdict.isGenuine := false;
                    Verdict.status := "FAKE";
                    Verdict.batchId := "does-not-exist";
                    Verdict.drugName := "Unknown";
                    Verdict.manufacturer := "Unknown";
                    Verdict.compositionHash := "";
                    Verdict.currentOwner := "";
                    Verdict.manufactureDate := 0;
                    Verdict.expiryDate := 0;
                    Verdict.transferCount := 0;
                    Verdict.ownershipHistory := [];
                    Verdict.composition := None;
                    Verdict.anomalies := ["Batch ID not found on blockchain"] |}),
     World.log (LedgerVerify "does-not-exist") Fixture.genuine).
Proof.
  refine (unknown_batch_is_fake "does-not-exist" Fixture.genuine
            (PyError "ContractLogicError" "execution reverted") _).
  reflexivity.
Defined.

Lemma role_sequence_from_clean i records a :
  Forall (λ r, OwnershipRecord.fromRole r ≠ OwnershipRecord.toRole r) records →
  role_sequence_from i records a = a.
Proof.
  revert i a. induction records as [|r rest IH]; intros i a Hclean; cbn; [done|].
  inversion Hclean as [|? ? Hr Hrest]; subst.
  apply String.eqb_neq in Hr. rewrite Hr. by apply IH.
Qed.

Lemma check_zero_address_clean history a :
  Forall (λ r, OwnershipRecord.to r ≠ ZERO_ADDRESS) history →
  check_zero_address history a = a.
Proof.
  revert a. induction history as [|r rest IH]; intros a Hclean; cbn; [done|].
  inversion Hclean as [|? ? Hr Hrest]; subst.
  apply String.eqb_neq in Hr. rewrite Hr. by apply IH.
Qed.

Lemma check_composition_hash_match doc bc a :
  (∀ d, doc = Some d →
        lower (StorageDoc.compositionHash d) = lower (ChainDrug.compositionHash bc)) →
  check_composition_hash doc bc a = a.
Proof.
  intros Hmatch. unfold check_composition_hash.
  destruct doc as [d|]; [|done].
  rewrite (Hmatch d eq_refl), String.eqb_refl. reflexivity.
Qed.

(** C7: a batch found on the ledger with fewer than two transfers, not
    expired, without hash mismatch and with a history free of same-role and
    zero-address records gets the verdict INCOMPLETE_CHAIN, [isGenuine]
    false, and the incomplete-chain message as its one anomaly. *)
Theorem incomplete_chain_alone batch_id w bc :
  Contract.verifyDrug (World.contract w) batch_id = inr bc →
  World.db_fault w = None →
  ChainDrug.transferCount bc < 2 →
  World.clock w ≤ ChainDrug.expiryDate bc →
  (∀ doc, stored w batch_id = Some doc →
          lower (StorageDoc.compositionHash doc)
          = lower (ChainDrug.compositionHash bc)) →
  Forall (λ r, OwnershipRecord.fromRole r ≠ OwnershipRecord.toRole r)
         (tail (ledger_history w batch_id)) →
  Forall (λ r, OwnershipRecord.to r ≠ ZERO_ADDRESS) (ledger_history w batch_id) →
  ∃ v w', Verification.verify_drug batch_id w = (inr (DictOf v), w')
          ∧ Verdict.status v = "INCOMPLETE_CHAIN"
          ∧ Verdict.isGenuine v = false
          ∧ Verdict.anomalies v = [INCOMPLETE_CHAIN_MESSAGE].
Proof.
  intros Hbc Hdb Hcount Hfresh Hhash Hroles Hzero.
  eexists _, _. split; [by apply verify_drug_found|].
  unfold found, analyse; cbn [Verdict.status Verdict.isGenuine Verdict.anomalies].
  unfold check_expired, check_chain_completeness, check_role_sequence.
  replace (ChainDrug.expiryDate bc <? World.clock w) with false
    by (symmetry; apply Z.ltb_ge; lia).
  replace (ChainDrug.transferCount bc <? 2) with true
    by (symmetry; apply Z.ltb_lt; lia).
  rewrite (check_composition_hash_match _ _ _ Hhash).
  rewrite (role_sequence_from_clean _ _ _ Hroles).
  rewrite (check_zero_address_clean _ _ Hzero).
  by repeat split.
Qed.

Lemma incomplete_chain_alone_witness :
  ∃ v w', Verification.verify_drug "B1" Fixture.in_transit = (inr (DictOf v), w')
          ∧ Verdict.status v = "INCOMPLETE_CHAIN"
          ∧ Verdict.isGenuine v = false
          ∧ Verdict.anomalies v = [INCOMPLETE_CHAIN_MESSAGE].
Proof.
  refine (incomplete_chain_alone "B1" Fixture.in_transit
            (Fixture.on_chain 1 Fixture.paracetamol_hash) _ _ _ _ _ _ _).
  - reflexivity.
  - reflexivity.
  - vm_compute. reflexivity.
  - vm_compute. discriminate.
  - intros doc [= <-]. reflexivity.
  - vm_compute. constructor.
  - vm_compute. repeat constructor. discriminate.
Defined.

(** *** Batch verification *)

Lemma batch_verify_one_error batch_id results w :
  ∃ e w', batch_verify_one batch_id results w
          = (inr (results ++ [error_item batch_id e]), w').
Proof.
  unfold batch_verify_one, try_except, bind.
  destruct (Verification.verify_drug batch_id w) as [[e|v] w'] eqn:Hv.
  - by eexists _, _.
  - destruct (verify_drug_returns_dict _ _ _ _ Hv) as [d ->]. cbn.
    by eexists _, _.
Qed.

Lemma for_each_batch_verify batch_ids acc w :
  ∃ items w', for_each batch_ids batch_verify_one acc w = (inr (acc ++ items), w')
    ∧ Forall2 (λ id item, BatchItem.batchId item = id
                          ∧ BatchItem.isGenuine item = false
                          ∧ BatchItem.status item = "ERROR") batch_ids items.
Proof.
  revert acc w. induction batch_ids as [|id ids IH]; intros acc w; cbn.
  - exists [], w. rewrite app_nil_r. by split.
  - unfold bind. destruct (batch_verify_one_error id acc w) as (e & w1 & ->).
    destruct (IH (acc ++ [error_item id e]) w1) as (items & w2 & -> & Hitems).
    exists (error_item id e :: items), w2. rewrite <- app_assoc. split; [done|].
    by constructor.
Qed.

(** X24: batch verification returns one item per id, in order, and never
    aborts; but every item is an ERROR item, also for an id whose
    verification returned a verdict: the verdict is a dict and is read by
    attribute. *)
Lemma batch_verify_every_item_is_error batch_ids w :
  ∃ results w',
    batch_verify_drugs batch_ids w
    = (inr {| BatchVerifyResponse.success := true;
              BatchVerifyResponse.totalBatches := length batch_ids;
              BatchVerifyResponse.results := results |}, w')
    ∧ Forall2 (λ id item, BatchItem.batchId item = id
                          ∧ BatchItem.isGenuine item = false
                          ∧ BatchItem.status item = "ERROR") batch_ids results.
Proof.
  unfold batch_verify_drugs, try_except, bind.
  destruct (for_each_batch_verify batch_ids [] w) as (items & w' & -> & Hitems).
  by exists items, w'.
Qed.

(** C8, at its failing input: B1 verifies as GENUINE, and batch verification
    of the list holding B1 alone reports it as ERROR with [isGenuine]
    false. *)
Theorem batch_verify_reports_genuine_batch_as_error :
  (∃ v w', Verification.verify_drug "B1" Fixture.genuine = (inr (DictOf v), w')
           ∧ Verdict.status v = "GENUINE" ∧ Verdict.isGenuine v = true)
  ∧ ∃ w', batch_verify_drugs ["B1"] Fixture.genuine
          = (inr {| BatchVerifyResponse.success := true;
                    BatchVerifyResponse.totalBatches := 1;
                    BatchVerifyResponse.results :=
                      [ {| BatchItem.batchId := "B1";
                           BatchItem.isGenuine := false;
                           BatchItem.status := "ERROR";
                           BatchItem.error :=
                             Some (PyError "AttributeError" "isGenuine") |} ] |},
             w').
Proof.
  split.
  - eexists _, _. split; [vm_compute; reflexivity|]. by split.
  - eexists. vm_compute. reflexivity.
Qed.

End VerdictFacts.

(** ** Audit statistics *)

Section AuditFacts.
Import BlockchainService Verification Audit.

Lemma audit_one_spec now drug n m w :
  audit_one now drug (n, m) w
  = (inr ((if anomalous_on_ledger (World.contract w) (StorageDoc.batchId drug)
           then S n else n),
          (if StorageDoc.expiryDate drug <? now then S m else m)),
     World.log (LedgerVerify (StorageDoc.batchId drug)) w).
Proof.
  unfold audit_one, try_except, bind, BlockchainService.verify_drug, guarded,
    anomalous_on_ledger. cbn.
  destruct (Contract.verifyDrug (World.contract w) (StorageDoc.batchId drug))
    as [e|v]; cbn; [done|].
  by destruct (ChainDrug.transferCount v <? 2).
Qed.

Lemma for_each_audit now drugs n m w :
  ∃ w', for_each drugs (audit_one now) (n, m) w
        = (inr (Nat.add n (count_if (λ d, anomalous_on_ledger (World.contract w)
                                            (StorageDoc.batchId d)) drugs),
                Nat.add m (count_if (λ d, StorageDoc.expiryDate d <? now) drugs)),
           w').
Proof.
  unfold count_if.
  revert n m w. induction drugs as [|d drugs IH]; intros n m w; cbn [for_each].
  - exists w. cbn. by rewrite !Nat.add_0_r.
  - unfold bind. rewrite audit_one_spec.
    edestruct IH as (w' & ->). exists w'. cbn [World.contract World.log].
    cbn [List.filter].
    destruct (anomalous_on_ledger _ _), (StorageDoc.expiryDate d <? now);
      cbn [length]; rewrite ?Nat.add_succ_r; reflexivity.
Qed.

(** *** A recorded anomaly rules out GENUINE *)

Lemma has_anomaly_role_sequence i records a :
  anomalies a ≠ [] → anomalies (role_sequence_from i records a) ≠ [].
Proof.
  revert i a. induction records as [|r rest IH]; intros i a Ha; cbn; [done|].
  apply IH. destruct (String.eqb _ _); [|done]. cbn. by destruct (anomalies a).
Qed.

Lemma has_anomaly_zero_address history a :
  anomalies a ≠ [] → anomalies (check_zero_address history a) ≠ [].
Proof.
  revert a. induction history as [|r rest IH]; intros a Ha; cbn; [done|].
  apply IH. destruct (String.eqb _ _); [|done]. cbn. by destruct (anomalies a).
Qed.

Lemma has_anomaly_composition_hash doc bc a :
  anomalies a ≠ [] → anomalies (check_composition_hash doc bc a) ≠ [].
Proof.
  intros Ha. unfold check_composition_hash. destruct doc as [d|]; [|done].
  destruct (negb _); [|done]. cbn. by destruct (anomalies a).
Qed.

Lemma final_status_with_anomaly a :
  anomalies a ≠ [] → status_text (final_status a) ≠ "GENUINE".
Proof.
  intros Ha. unfold final_status.
  destruct (anomalies a) as [|x l] eqn:Hl; [done|]. cbn.
  destruct (String.eqb_spec (status_text a) "GENUINE") as [Heq|Hne]; [done|].
  exact Hne.
Qed.

Lemma incomplete_chain_is_not_genuine bc history doc now :
  ChainDrug.transferCount bc < 2 →
  status_text (analyse bc history doc now) ≠ "GENUINE".
Proof.
  intros Hcount. unfold analyse.
  apply final_status_with_anomaly, has_anomaly_zero_address,
    has_anomaly_role_sequence, has_anomaly_composition_hash.
  unfold check_chain_completeness.
  replace (ChainDrug.transferCount bc <? 2) with true
    by (symmetry; apply Z.ltb_lt; lia).
  cbn. by destruct (anomalies _).
Qed.

Lemma counted_is_not_genuine w batch_id :
  World.db_fault w = None →
  anomalous_on_ledger (World.contract w) batch_id = true →
  ∃ v w', Verification.verify_drug batch_id w = (inr (DictOf v), w')
          ∧ Verdict.status v ≠ "GENUINE".
Proof.
  intros Hdb. unfold anomalous_on_ledger.
  destruct (Contract.verifyDrug (World.contract w) batch_id) as [e|bc] eqn:Hbc.
  - intros _. eexists _, _. split; [by eapply verify_drug_missing|]. done.
  - intros Hcount%Z.ltb_lt. eexists _, _. split; [by apply verify_drug_found|].
    cbn. by apply incomplete_chain_is_not_genuine.
Qed.

(** C9, as the code has it: [drugsWithAnomalies] is the number of batches,
    among the first 1000 stored, for which the ledger call failed or
    reported fewer than two transfers; [expiredDrugs] counts, apart from
    that, the batches past their expiry date.  Every batch counted as
    anomalous has a verification status other than GENUINE. *)
Theorem audit_counts_incomplete_or_failed w :
  World.db_fault w = None →
  ∃ stats w',
    Audit.get_audit_statistics w = (inr stats, w')
    ∧ AuditStatistics.drugsWithAnomalies stats
      = count_if (λ d, anomalous_on_ledger (World.contract w) (StorageDoc.batchId d))
          (take 1000 (World.drug_composition_storage w))
    ∧ AuditStatistics.expiredDrugs stats
      = count_if (λ d, StorageDoc.expiryDate d <? World.clock w)
          (take 1000 (World.drug_composition_storage w))
    ∧ ∀ batch_id, anomalous_on_ledger (World.contract w) batch_id = true →
        ∃ v w2, Verification.verify_drug batch_id w = (inr (DictOf v), w2)
                ∧ Verdict.status v ≠ "GENUINE".
Proof.
  intros Hdb.
  unfold get_audit_statistics, try_except, bind, Db.count_storage, Db.count_users,
    Db.scan_storage, Db.read, Db.call, time_time.
  repeat (cbn; simpl_world; rewrite ?Hdb).
  edestruct for_each_audit as (w' & ->).
  eexists _, w'. split; [reflexivity|]. cbn.
  repeat split. intros batch_id. by apply counted_is_not_genuine.
Qed.

Lemma audit_counts_incomplete_or_failed_witness :
  ∃ stats w',
    Audit.get_audit_statistics Fixture.in_transit = (inr stats, w')
    ∧ AuditStatistics.drugsWithAnomalies stats
      = count_if (λ d, anomalous_on_ledger (World.contract Fixture.in_transit)
                         (StorageDoc.batchId d))
          (take 1000 (World.drug_composition_storage Fixture.in_transit))
    ∧ AuditStatistics.expiredDrugs stats
      = count_if (λ d, StorageDoc.expiryDate d <? World.clock Fixture.in_transit)
          (take 1000 (World.drug_composition_storage Fixture.in_transit))
    ∧ ∀ batch_id,
        anomalous_on_ledger (World.contract Fixture.in_transit) batch_id = true →
        ∃ v w2, Verification.verify_drug batch_id Fixture.in_transit
                = (inr (DictOf v), w2)
                ∧ Verdict.status v ≠ "GENUINE".
Proof.
  refine (audit_counts_incomplete_or_failed Fixture.in_transit _).
  reflexivity.
Defined.

(** C9 as the specification words it fails on the expired batch B1: it has
    two transfers and the ledger call succeeds, its verification status is
    EXPIRED, and the audit counts no anomalous batch. *)
Lemma expired_batch_is_not_counted :
  ∃ v w1 stats w2,
    Verification.verify_drug "B1" Fixture.expired = (inr (DictOf v), w1)
    ∧ Verdict.status v = "EXPIRED"
    ∧ Verdict.transferCount v = 2
    ∧ Audit.get_audit_statistics Fixture.expired = (inr stats, w2)
    ∧ AuditStatistics.totalDrugs stats = 1%nat
    ∧ AuditStatistics.drugsWithAnomalies stats = 0%nat.
Proof.
  eexists _, _, _, _. split; [vm_compute; reflexivity|].
  split; [reflexivity|]. split; [reflexivity|].
  split; [vm_compute; reflexivity|]. by split.
Qed.

End AuditFacts.

(** ** Custody transfers and registration *)

Section DrugsFacts.
Import BlockchainService Drugs.

Lemma transfer_ownership_eval t w :
  World.db_fault w = None →
  Drugs.transfer_ownership t w
  = match batch_of w (OwnershipTransferRequest.batchId t) with
    | None => (inl (HTTPException 404 [Lit "Batch ID not found"]), owner_updated t w)
    | Some _ =>
        match user_of w (lower (OwnershipTransferRequest.fromAddress t)),
              user_of w (lower (OwnershipTransferRequest.toAddress t)) with
        | Some from_user, Some to_user =>
            if in_valid_transfers (UserDoc.role from_user) (UserDoc.role to_user)
            then
              match Contract.transferOwnership (World.contract w)
                      (OwnershipTransferRequest.batchId t)
                      (OwnershipTransferRequest.toAddress t)
                      (OwnershipTransferRequest.location t)
                      (OwnershipTransferRequest.fromAddress t) with
              | inr _ =>
                  (inr {| OwnershipTransferResponse.success := true;
                          OwnershipTransferResponse.message :=
                            "Ownership transfer initiated. Sign the transaction in MetaMask.";
                          OwnershipTransferResponse.batchId :=
                            OwnershipTransferRequest.batchId t;
                          OwnershipTransferResponse.transactionHash := None |},
                   transfer_requested t w)
              | inl e =>
                  (inl (HTTPException 500
                          [Lit "Blockchain transfer failed: "; StrOf e]),
                   transfer_requested t w)
              end
            else
              (inl (HTTPException 403
                      [Lit "Invalid transfer: "; Lit (UserDoc.role from_user);
                       Lit " cannot transfer to "; Lit (UserDoc.role to_user)]),
               users_looked_up t w)
        | _, _ =>
            (inl (HTTPException 404 [Lit "One or both users not found"]),
             users_looked_up t w)
        end
    end.
Proof.
  intros Hdb.
  unfold Drugs.transfer_ownership, reraise_or_500, try_except, bind, Db.find_batch,
    Db.update_batch_owner, Db.find_user, Db.read, Db.call,
    BlockchainService.transfer_ownership, guarded, batch_of, user_of,
    transfer_requested, users_looked_up, owner_updated.
  repeat (cbn -[in_valid_transfers]; simpl_world; rewrite ?Hdb).
  destruct (find _ (World.drug_batches w)) as [b|]; [|reflexivity].
  repeat (cbn -[in_valid_transfers]; simpl_world; rewrite ?Hdb).
  repeat match goal with
         | |- context [find ?p (World.users w)] =>
             destruct (find p (World.users w));
             repeat (cbn -[in_valid_transfers]; simpl_world; rewrite ?Hdb)
         end; try reflexivity.
  destruct (in_valid_transfers _ _); cbn; [|reflexivity].
  simpl_world.
  destruct (Contract.transferOwnership _ _ _ _ _); reflexivity.
Qed.

Lemma in_valid_transfers_iff from_role to_role :
  in_valid_transfers from_role to_role = true ↔ legal_transfer from_role to_role.
Proof.
  unfold in_valid_transfers, valid_transfers, legal_transfer. cbn [existsb fst snd].
  rewrite orb_false_r, !orb_true_iff, !andb_true_iff, !String.eqb_eq. tauto.
Qed.

Lemma pharmacy_cannot_send to_role : ¬ legal_transfer "PHARMACY" to_role.
Proof. intros [[? _]|[[? _]|[? _]]]; discriminate. Qed.

Lemma manufacturer_cannot_reach_pharmacy : ¬ legal_transfer "MANUFACTURER" "PHARMACY".
Proof. intros [[_ ?]|[[? _]|[? _]]]; discriminate. Qed.

(** C5: for a transfer of an existing batch between two registered users,
    the request gets past the role check (it is not answered 403) exactly
    when the pair of roles is MANUFACTURER to DISTRIBUTOR, DISTRIBUTOR to
    PHARMACY or DISTRIBUTOR to DISTRIBUTOR; every other pair, among them
    every pair from PHARMACY and MANUFACTURER to PHARMACY, is answered 403
    as an invalid transfer. *)
Theorem role_transition_check t w b from_user to_user :
  World.db_fault w = None →
  batch_of w (OwnershipTransferRequest.batchId t) = Some b →
  user_of w (lower (OwnershipTransferRequest.fromAddress t)) = Some from_user →
  user_of w (lower (OwnershipTransferRequest.toAddress t)) = Some to_user →
  let from_role := UserDoc.role from_user in
  let to_role := UserDoc.role to_user in
  (legal_transfer from_role to_role
   ↔ ∀ detail, fst (Drugs.transfer_ownership t w) ≠ inl (HTTPException 403 detail))
  ∧ (¬ legal_transfer from_role to_role →
     fst (Drugs.transfer_ownership t w)
     = inl (HTTPException 403 [Lit "Invalid transfer: "; Lit from_role;
                               Lit " cannot transfer to "; Lit to_role]))
  ∧ (from_role = "PHARMACY" → ¬ legal_transfer from_role to_role)
  ∧ (from_role = "MANUFACTURER" → to_role = "PHARMACY" →
     ¬ legal_transfer from_role to_role).
Proof.
  intros Hdb Hb Hfrom Hto from_role to_role.
  rewrite (transfer_ownership_eval t w Hdb), Hb, Hfrom, Hto.
  fold from_role to_role.
  pose proof (in_valid_transfers_iff from_role to_role) as Hiff.
  assert (Hph : from_role = "PHARMACY" → ¬ legal_transfer from_role to_role)
    by (intros ->; apply pharmacy_cannot_send).
  assert (Hmp : from_role = "MANUFACTURER" → to_role = "PHARMACY" →
                ¬ legal_transfer from_role to_role)
    by (intros -> ->; apply manufacturer_cannot_reach_pharmacy).
  destruct (in_valid_transfers from_role to_role) eqn:Hlegal.
  - assert (Hl : legal_transfer from_role to_role) by (by apply Hiff).
    repeat split; try done.
    intros _ detail. by destruct (Contract.transferOwnership _ _ _ _ _).
  - assert (Hl : ¬ legal_transfer from_role to_role)
      by (rewrite <- Hiff; discriminate).
    repeat split; try done.
    intros Hno. by destruct (Hno _ eq_refl).
Qed.

Lemma role_transition_check_witness :
  let from_role := UserDoc.role Fixture.manufacturer in
  let to_role := UserDoc.role Fixture.distributor in
  (legal_transfer from_role to_role
   ↔ ∀ detail, fst (Drugs.transfer_ownership Fixture.ship_to_distributor
                      Fixture.genuine)
               ≠ inl (HTTPException 403 detail))
  ∧ (¬ legal_transfer from_role to_role →
     fst (Drugs.transfer_ownership Fixture.ship_to_distributor Fixture.genuine)
     = inl (HTTPException 403 [Lit "Invalid transfer: "; Lit from_role;
                               Lit " cannot transfer to "; Lit to_role]))
  ∧ (from_role = "PHARMACY" → ¬ legal_transfer from_role to_role)
  ∧ (from_role = "MANUFACTURER" → to_role = "PHARMACY" →
     ¬ legal_transfer from_role to_role).
Proof.
  refine (role_transition_check Fixture.ship_to_distributor Fixture.genuine
            _ Fixture.manufacturer Fixture.distributor _ _ _ _);
    reflexivity.
Defined.

(** *** What a rejected transfer leaves behind *)

Lemma find_update_first {A} (p : A → bool) (f : A → A) (l : list A) :
  (∀ x, p (f x) = p x) →
  find p (Db.update_first p f l) = option_map f (find p l).
Proof.
  intros Hp. induction l as [|x l IH]; cbn; [done|].
  destruct (p x) eqn:Hx; cbn.
  - by rewrite Hp, Hx.
  - by rewrite Hx.
Qed.

Lemma update_first_without_match {A} (p : A → bool) (f : A → A) (l : list A) :
  find p l = None → Db.update_first p f l = l.
Proof.
  induction l as [|x l IH]; cbn; [done|].
  destruct (p x); [done|]. intros Hl. by rewrite IH.
Qed.

Lemma batches_after_transfer t w :
  World.db_fault w = None →
  World.drug_batches (snd (Drugs.transfer_ownership t w))
  = World.drug_batches (owner_updated t w).
Proof.
  intros Hdb. rewrite (transfer_ownership_eval t w Hdb).
  destruct (batch_of w _); [|reflexivity].
  destruct (user_of w (lower (OwnershipTransferRequest.fromAddress t)));
    destruct (user_of w (lower (OwnershipTransferRequest.toAddress t)));
    try reflexivity.
  destruct (in_valid_transfers _ _); [|reflexivity].
  by destruct (Contract.transferOwnership _ _ _ _ _).
Qed.

(** X18: the owner recorded off-chain is overwritten by every transfer
    request for an existing batch, accepted or not. *)
Lemma transfer_overwrites_owner t w b :
  World.db_fault w = None →
  batch_of w (OwnershipTransferRequest.batchId t) = Some b →
  batch_of (snd (Drugs.transfer_ownership t w)) (OwnershipTransferRequest.batchId t)
  = Some (BatchDoc.set_owner (lower (OwnershipTransferRequest.toAddress t))
            (World.clock w) b).
Proof.
  intros Hdb Hb. unfold batch_of in *.
  rewrite (batches_after_transfer t w Hdb). unfold owner_updated. simpl_world.
  rewrite find_update_first by done. by rewrite Hb.
Qed.

(** A request for a batch that does not exist is answered 404 before the
    users and their roles are looked at, and leaves the batches as they
    were. *)
Lemma transfer_of_unknown_batch t w :
  World.db_fault w = None →
  batch_of w (OwnershipTransferRequest.batchId t) = None →
  fst (Drugs.transfer_ownership t w) = inl (HTTPException 404 [Lit "Batch ID not found"])
  ∧ World.drug_batches (snd (Drugs.transfer_ownership t w)) = World.drug_batches w
  ∧ ledger_calls (snd (Drugs.transfer_ownership t w)) = ledger_calls w.
Proof.
  intros Hdb Hb. rewrite (transfer_ownership_eval t w Hdb), Hb. cbn [fst snd].
  split; [done|]. unfold owner_updated, ledger_calls. simpl_world. split.
  - by apply update_first_without_match.
  - rewrite !List.filter_app. cbn. by rewrite !app_nil_r.
Qed.

(** A request answered 404 or 403 has made no ledger call. *)
Lemma rejected_transfer_makes_no_ledger_call t w code detail :
  World.db_fault w = None →
  fst (Drugs.transfer_ownership t w) = inl (HTTPException code detail) →
  code ≠ 500 →
  ledger_calls (snd (Drugs.transfer_ownership t w)) = ledger_calls w.
Proof.
  intros Hdb. rewrite (transfer_ownership_eval t w Hdb).
  assert (Hlooked : ledger_calls (users_looked_up t w) = ledger_calls w).
  { unfold ledger_calls, users_looked_up, owner_updated. simpl_world.
    rewrite !List.filter_app. cbn. by rewrite !app_nil_r. }
  assert (Hupdated : ledger_calls (owner_updated t w) = ledger_calls w).
  { unfold ledger_calls, owner_updated. simpl_world.
    rewrite !List.filter_app. cbn. by rewrite !app_nil_r. }
  destruct (batch_of w _); [|done].
  destruct (user_of w (lower (OwnershipTransferRequest.fromAddress t)));
    destruct (user_of w (lower (OwnershipTransferRequest.toAddress t)));
    try done.
  destruct (in_valid_transfers _ _); [|done].
  destruct (Contract.transferOwnership _ _ _ _ _); cbn [fst snd]; [|done].
  by intros [= <- _] Hcode.
Qed.

(** C3, at its failing input: the pharmacy's request to send B1 back to the
    distributor is answered 403 and no ledger call is made, yet the owner of
    B1 in the off-chain store has changed from the pharmacy to the
    distributor. *)
Theorem rejected_transfer_changes_owner :
  fst (Drugs.transfer_ownership Fixture.return_to_distributor Fixture.genuine)
  = inl (HTTPException 403 [Lit "Invalid transfer: "; Lit "PHARMACY";
                            Lit " cannot transfer to "; Lit "DISTRIBUTOR"])
  ∧ BatchDoc.currentOwner <$> batch_of Fixture.genuine "B1" = Some "0xcc"
  ∧ BatchDoc.currentOwner
      <$> batch_of (snd (Drugs.transfer_ownership Fixture.return_to_distributor
                           Fixture.genuine)) "B1"
    = Some "0xbb"
  ∧ ledger_calls (snd (Drugs.transfer_ownership Fixture.return_to_distributor
                         Fixture.genuine)) = [].
Proof. repeat split; vm_compute; reflexivity. Qed.

(** *** Registration *)

Lemma name_keys_of_ingredients (l : list DrugIngredient.t) :
  map_exn Hashing.name_key (map DrugIngredient.dict l)
  = inr (map (λ i, lower (DrugIngredient.name i)) l).
Proof.
  induction l as [|i l IH]; cbn [map map_exn]; [done|].
  rewrite IH. reflexivity.
Qed.

(** Hashing the dict of a schema composition never raises. *)
Lemma generate_composition_hash_total (c : DrugComposition.t) :
  ∃ c', Hashing.generate_composition_hash (DrugComposition.dict c)
        = inr (hash_of c, c').
Proof.
  unfold hash_of, Hashing.generate_composition_hash, Hashing.normalize_composition,
    Hashing.sorted_by_name, DrugComposition.dict.
  cbn [dict_get String.eqb Ascii.eqb Bool.eqb bind_exn iterate].
  rewrite name_keys_of_ingredients. cbn [bind_exn fst snd]. eauto.
Qed.

(** C10: when the drug name has no reference standard, a registration by a
    registered manufacturer of a new batch id, whose transaction the ledger
    builds, succeeds: the composition is hashed, the ledger is called, and
    the storage document and the batch document are appended; the stand-alone
    validation of the same drug name and composition is answered 404. *)
Theorem register_without_reference_standard d w m tx :
  World.db_fault w = None →
  stored w (DrugRegistrationRequest.batchId d) = None →
  user_of w (DrugRegistrationRequest.manufacturerAddress d) = Some m →
  UserDoc.role m = "MANUFACTURER" →
  dataset_of w (DrugRegistrationRequest.drugName d) = None →
  Contract.registerDrug (World.contract w)
    (DrugRegistrationRequest.batchId d) (DrugRegistrationRequest.drugName d)
    (hash_of (DrugRegistrationRequest.composition d))
    (DrugRegistrationRequest.manufactureDate d)
    (DrugRegistrationRequest.expiryDate d)
    (DrugRegistrationRequest.manufacturerAddress d) = inr tx →
  (∃ w',
     Drugs.register_drug d w = (inr (registration_response d), w')
     ∧ World.drug_composition_storage w'
       = World.drug_composition_storage w
         ++ [registered_storage_doc d (World.clock w)]
     ∧ World.drug_batches w'
       = World.drug_batches w ++ [registered_batch_doc d (World.clock w)]
     ∧ ledger_calls w' = ledger_calls w ++ [registration_call d])
  ∧ fst (Drugs.validate_drug_composition (validation_request d) w)
    = inl (HTTPException 404
             [Lit "No standard composition found for drug: ";
              Lit (DrugRegistrationRequest.drugName d)]).
Proof.
  intros Hdb Hfree Hm Hrole Hnoref Htx.
  destruct (generate_composition_hash_total (DrugRegistrationRequest.composition d))
    as [c' Hhash].
  unfold stored in Hfree. unfold user_of in Hm. unfold dataset_of in Hnoref.
  unfold registration_call in *.
  split.
  - unfold Drugs.register_drug, reraise_or_500, try_except, bind, Db.find_storage,
      Db.find_user, Db.find_dataset, Db.insert_storage, Db.insert_batch, Db.read,
      Db.call, BlockchainService.register_drug, guarded, utcnow, lift.
    repeat (cbn -[Hashing.generate_composition_hash]; simpl_world;
            rewrite ?Hdb, ?Hfree, ?Hm, ?Hrole, ?Hnoref, ?Hhash, ?Htx).
    eexists. split; [reflexivity|].
    unfold ledger_calls. simpl_world. repeat split.
    rewrite !List.filter_app. cbn. by rewrite !app_nil_r.
  - unfold Drugs.validate_drug_composition, reraise_or_500, try_except, bind,
      Db.find_dataset, Db.read, Db.call.
    repeat (cbn; simpl_world; rewrite ?Hdb, ?Hnoref). reflexivity.
Qed.

Lemma register_without_reference_standard_witness :
  (∃ w',
     Drugs.register_drug Fixture.ibuprofen_batch Fixture.genuine
     = (inr (registration_response Fixture.ibuprofen_batch), w')
     ∧ World.drug_composition_storage w'
       = World.drug_composition_storage Fixture.genuine
         ++ [registered_storage_doc Fixture.ibuprofen_batch
               (World.clock Fixture.genuine)]
     ∧ World.drug_batches w'
       = World.drug_batches Fixture.genuine
         ++ [registered_batch_doc Fixture.ibuprofen_batch
               (World.clock Fixture.genuine)]
     ∧ ledger_calls w'
       = ledger_calls Fixture.genuine ++ [registration_call Fixture.ibuprofen_batch])
  ∧ fst (Drugs.validate_drug_composition
           (validation_request Fixture.ibuprofen_batch) Fixture.genuine)
    = inl (HTTPException 404
             [Lit "No standard composition found for drug: "; Lit "Ibuprofen"]).
Proof.
  refine (register_without_reference_standard Fixture.ibuprofen_batch
            Fixture.genuine Fixture.manufacturer "registerDrug transaction"
            _ _ _ _ _ _);
    reflexivity.
Defined.

End DrugsFacts.

(** ** Canonical hashing *)

(** *** The order on keys *)

Section StringOrder.

Lemma ascii_compare_refl c : Ascii.compare c c = Eq.
Proof. unfold Ascii.compare. apply N.compare_refl. Qed.

Lemma ascii_compare_trans c1 c2 c3 o :
  Ascii.compare c1 c2 = o → Ascii.compare c2 c3 = o → Ascii.compare c1 c3 = o.
Proof.
  unfold Ascii.compare. destruct o; intros H12 H23.
  - apply N.compare_eq_iff in H12, H23. apply N.compare_eq_iff. congruence.
  - rewrite N.compare_lt_iff in *. lia.
  - rewrite N.compare_gt_iff in *. lia.
Qed.

Lemma string_leb_trans s1 s2 s3 :
  String.leb s1 s2 = true → String.leb s2 s3 = true → String.leb s1 s3 = true.
Proof.
  unfold String.leb. revert s2 s3.
  induction s1 as [|c1 s1 IH]; intros [|c2 s2] [|c3 s3]; cbn; try done.
  destruct (Ascii.compare c1 c2) eqn:H12; try done;
    destruct (Ascii.compare c2 c3) eqn:H23; try done.
  - apply Ascii.compare_eq_iff in H12, H23. subst.
    rewrite ascii_compare_refl. apply IH.
  - apply Ascii.compare_eq_iff in H12. subst. by rewrite H23.
  - apply Ascii.compare_eq_iff in H23. subst. by rewrite H12.
  - by rewrite (ascii_compare_trans _ _ _ _ H12 H23).
Qed.

Lemma string_leb_false s1 s2 : String.leb s1 s2 = false → String.leb s2 s1 = true.
Proof. intros H. destruct (String.leb_total s1 s2) as [H'|H']; congruence. Qed.

End StringOrder.

(** *** The stable sort *)

Section SortingFacts.
Context {A : Type}.
Implicit Types (l : list (string * A)) (k : string) (x : A).

(** Insertions of two different keys commute. *)
Lemma insert_by_key_comm k1 x1 k2 x2 l :
  k1 ≠ k2 →
  insert_by_key k1 x1 (insert_by_key k2 x2 l)
  = insert_by_key k2 x2 (insert_by_key k1 x1 l).
Proof.
  intros Hne. induction l as [|[k y] l IH]; cbn.
  - destruct (String.leb k1 k2) eqn:H12, (String.leb k2 k1) eqn:H21; try done.
    + destruct Hne. by apply String.leb_antisym.
    + apply string_leb_false in H12. congruence.
  - destruct (String.leb k2 k) eqn:H2, (String.leb k1 k) eqn:H1; cbn;
      rewrite ?H1, ?H2.
    + destruct (String.leb k1 k2) eqn:H12, (String.leb k2 k1) eqn:H21; try done.
      * destruct Hne. by apply String.leb_antisym.
      * apply string_leb_false in H12. congruence.
    + destruct (String.leb k1 k2) eqn:H12; [|done].
      by rewrite (string_leb_trans _ _ _ H12 H2) in H1.
    + destruct (String.leb k2 k1) eqn:H21; [|done].
      by rewrite (string_leb_trans _ _ _ H21 H1) in H2.
    + by rewrite IH.
Qed.

(** With pairwise distinct keys the sorted list does not depend on the
    order of the input. *)
Lemma sort_by_key_perm l l' :
  Permutation l l' → NoDup (map fst l) → sort_by_key l = sort_by_key l'.
Proof.
  induction 1 as [|[k x] l l' Hperm IH|[k1 x1] [k2 x2] l|l l' l'' H1 IH1 H2 IH2];
    intros Hnodup.
  - done.
  - cbn. rewrite IH; [done|]. by inversion Hnodup.
  - cbn. apply insert_by_key_comm.
    cbn in Hnodup. inversion Hnodup as [|? ? Hnotin _]; subst.
    intros ->. apply Hnotin. by left.
  - rewrite IH1 by done. apply IH2.
    assert (Hkeys : Permutation (map fst l) (map fst l')) by (by apply Permutation_map).
    by rewrite <- Hkeys.
Qed.

Lemma insert_by_key_sorted k x l :
  Sorted key_le l → Sorted key_le (insert_by_key k x l).
Proof.
  induction 1 as [|[k' y] l Hsorted IH Hhd]; cbn.
  - repeat constructor.
  - destruct (String.leb k k') eqn:Hk.
    + constructor; [by constructor|]. by constructor.
    + constructor; [exact IH|].
      destruct l as [|[k'' z] l]; cbn.
      * constructor. by apply string_leb_false.
      * inversion Hhd; subst.
        destruct (String.leb k k''); constructor; [by apply string_leb_false|done].
Qed.

Lemma sort_by_key_sorted l : Sorted key_le (sort_by_key l).
Proof.
  induction l as [|[k x] l IH]; cbn; [constructor|].
  by apply insert_by_key_sorted.
Qed.

Lemma sort_by_key_of_sorted l : Sorted key_le l → sort_by_key l = l.
Proof.
  induction 1 as [|[k x] l Hsorted IH Hhd]; cbn; [done|].
  rewrite IH. destruct Hhd as [|[k' y] l Hle]; cbn; [done|].
  unfold key_le in Hle. cbn in Hle. by rewrite Hle.
Qed.

Lemma sort_by_key_idempotent l : sort_by_key (sort_by_key l) = sort_by_key l.
Proof. apply sort_by_key_of_sorted, sort_by_key_sorted. Qed.

Lemma insert_by_key_perm k x l : Permutation ((k, x) :: l) (insert_by_key k x l).
Proof.
  induction l as [|[k' y] l IH]; cbn; [done|].
  destruct (String.leb k k'); [done|].
  rewrite perm_swap. by constructor.
Qed.

Lemma sort_by_key_is_perm l : Permutation l (sort_by_key l).
Proof.
  induction l as [|[k x] l IH]; cbn; [done|].
  rewrite <- insert_by_key_perm. by constructor.
Qed.

End SortingFacts.

Section SortingRelated.
Context {A B : Type} (R : A → B → Prop).

Lemma insert_by_key_related k x y l l' :
  R x y → Forall2 (same_key R) l l' →
  Forall2 (same_key R) (insert_by_key k x l) (insert_by_key k y l').
Proof.
  intros Hxy. induction 1 as [|[k1 a] [k2 b] l l' [Hk Hab] Hrest IH]; cbn.
  - by repeat constructor.
  - cbn in Hk. subst k2. destruct (String.leb k k1).
    + repeat constructor; done.
    + constructor; done.
Qed.

Lemma sort_by_key_related l l' :
  Forall2 (same_key R) l l' →
  Forall2 (same_key R) (sort_by_key l) (sort_by_key l').
Proof.
  induction 1 as [|[k1 a] [k2 b] l l' [Hk Hab] Hrest IH]; cbn; [constructor|].
  cbn in Hk. subst k2. by apply insert_by_key_related.
Qed.

End SortingRelated.

(** *** Dicts as association lists *)

Section DictFacts.
Context {A : Type}.
Implicit Types (fields : list (string * A)) (k : string) (v : A).

Lemma dict_get_set fields k v : dict_get (dict_set fields k v) k = Some v.
Proof.
  induction fields as [|[k' w] fields IH]; cbn.
  - by rewrite String.eqb_refl.
  - destruct (String.eqb k' k) eqn:Hk; cbn; rewrite Hk; [done|exact IH].
Qed.

Lemma dict_set_set fields k v v' :
  dict_set (dict_set fields k v) k v' = dict_set fields k v'.
Proof.
  induction fields as [|[k' w] fields IH]; cbn.
  - by rewrite String.eqb_refl.
  - destruct (String.eqb k' k) eqn:Hk; cbn; rewrite Hk; [done|by rewrite IH].
Qed.

Lemma dict_get_perm fields fields' k :
  Permutation fields fields' → NoDup (map fst fields) →
  dict_get fields k = dict_get fields' k.
Proof.
  induction 1 as [|[k1 x] l l' Hperm IH|[k1 x1] [k2 x2] l|l l' l'' H1 IH1 H2 IH2];
    intros Hnodup; cbn.
  - done.
  - rewrite IH; [done|]. by inversion Hnodup.
  - destruct (String.eqb_spec k1 k) as [->|], (String.eqb_spec k2 k) as [->|];
      try done.
    cbn in Hnodup. inversion Hnodup as [|? ? Hnotin _]; subst.
    destruct Hnotin. by left.
  - rewrite IH1 by done. apply IH2.
    assert (Hkeys : Permutation (map fst l) (map fst l')) by (by apply Permutation_map).
    by rewrite <- Hkeys.
Qed.

End DictFacts.

(** *** Keys computed before sorting *)

Section DecoratedFacts.
Context {A : Type} (f : A → exn + string).

Lemma map_exn_decorated (D : list (string * A)) :
  Forall (decorated f) D → map_exn f (map snd D) = inr (map fst D).
Proof.
  induction 1 as [|[k x] D Hkx _ IH]; cbn; [done|].
  unfold decorated in Hkx. cbn in Hkx. by rewrite Hkx, IH.
Qed.

Lemma map_exn_inr (l : list A) (ks : list string) :
  map_exn f l = inr ks →
  Forall (decorated f) (combine ks l)
  ∧ map snd (combine ks l) = l ∧ map fst (combine ks l) = ks.
Proof.
  revert ks. induction l as [|x l IH]; intros ks; cbn.
  - intros [= <-]. by repeat split.
  - destruct (f x) as [e|k] eqn:Hk; cbn; [done|].
    destruct (map_exn f l) as [e|ks'] eqn:Hks; cbn; [done|].
    intros [= <-]. destruct (IH ks' eq_refl) as (HD & Hsnd & Hfst). cbn.
    repeat split; [by constructor|by rewrite Hsnd|by rewrite Hfst].
Qed.

Lemma combine_fst_snd (D : list (string * A)) : combine (map fst D) (map snd D) = D.
Proof. induction D as [|[k x] D IH]; cbn; [done|by rewrite IH]. Qed.

End DecoratedFacts.

(** *** The canonical text and its hash *)

Section HashingFacts.
Import Hashing Json.

Lemma dumps_arr items :
  dumps (JArr items) = "[" +:+ String.concat "," (map dumps items) +:+ "]".
Proof. reflexivity. Qed.

Lemma dumps_obj fields :
  dumps (JObj fields)
  = "{" +:+ String.concat ","
              (map (λ kv, encode_str (fst kv) +:+ ":" +:+ snd kv)
                   (sort_by_key (map render fields)))
        +:+ "}".
Proof.
  assert (Hr : map (λ kv : string * json, let (k, v) := kv in (k, dumps v)) fields
               = map render fields) by (apply map_ext; by intros [k v]).
  rewrite <- Hr. reflexivity.
Qed.

Lemma name_key_same i i' : same_object i i' → name_key i = name_key i'.
Proof.
  intros (f & f' & -> & -> & Hnodup & Hperm).
  unfold name_key, get_default. by rewrite (dict_get_perm f f' "name" Hperm Hnodup).
Qed.

(** The text of a dict does not depend on the order of its keys. *)
Lemma dumps_same i i' : same_object i i' → dumps i = dumps i'.
Proof.
  intros (f & f' & -> & -> & Hnodup & Hperm).
  rewrite !dumps_obj. f_equal. f_equal. f_equal. f_equal.
  apply sort_by_key_perm.
  - by apply Permutation_map.
  - rewrite map_map. cbn. exact Hnodup.
Qed.

Lemma sorted_by_name_list l ks :
  map_exn name_key l = inr ks →
  sorted_by_name (JArr l) = inr (map snd (sort_by_key (combine ks l))).
Proof. intros Hks. unfold sorted_by_name. cbn. by rewrite Hks. Qed.

Lemma sorted_by_name_perm l l1 ks :
  map_exn name_key l = inr ks → NoDup ks → Permutation l l1 →
  ∃ ks1, map_exn name_key l1 = inr ks1
         ∧ sort_by_key (combine ks1 l1) = sort_by_key (combine ks l).
Proof.
  intros Hks Hnodup Hperm.
  destruct (map_exn_inr _ _ _ Hks) as (HD & Hsnd & Hfst).
  set (D := combine ks l) in *.
  rewrite <- Hsnd in Hperm. symmetry in Hperm.
  destruct (Permutation_map_inv _ _ Hperm) as (D1 & -> & HD1).
  exists (map fst D1). split.
  - apply map_exn_decorated. by rewrite <- HD1.
  - rewrite combine_fst_snd. symmetry. apply sort_by_key_perm; [done|].
    by rewrite Hfst.
Qed.

Lemma name_keys_same l l' :
  Forall2 same_object l l' → map_exn name_key l = map_exn name_key l'.
Proof.
  induction 1 as [|i i' l l' Hi _ IH]; cbn; [done|].
  by rewrite (name_key_same _ _ Hi), IH.
Qed.

Lemma combine_same (ks : list string) l l' :
  Forall2 same_object l l' →
  Forall2 (same_key same_object) (combine ks l) (combine ks l').
Proof.
  intros H. revert ks. induction H as [|i i' l l' Hi _ IH]; intros [|k ks]; cbn;
    constructor; [by split|apply IH].
Qed.

Lemma dumps_all_same S S' : Forall2 same_object S S' → map dumps S = map dumps S'.
Proof.
  induction 1 as [|i i' l l' Hi _ IH]; cbn; [done|].
  by rewrite (dumps_same _ _ Hi), IH.
Qed.

Lemma render_with_ingredients fields v v' :
  dumps v = dumps v' →
  map render (dict_set fields "ingredients" v)
  = map render (dict_set fields "ingredients" v').
Proof.
  intros Hv. induction fields as [|[k w] fields IH]; cbn.
  - unfold render. cbn. by rewrite Hv.
  - destruct (String.eqb k "ingredients"); cbn; [|by rewrite IH].
    unfold render at 1 3. cbn. by rewrite Hv.
Qed.

Lemma normalize_composition_list fields l ks :
  dict_get fields "ingredients" = Some (JArr l) →
  map_exn name_key l = inr ks →
  normalize_composition fields
  = inr (dumps (JObj (dict_set fields "ingredients"
                        (JArr (map snd (sort_by_key (combine ks l)))))),
         dict_set fields "ingredients"
           (JArr (map snd (sort_by_key (combine ks l))))).
Proof.
  intros Hget Hks. unfold normalize_composition.
  by rewrite Hget, (sorted_by_name_list _ _ Hks).
Qed.

(** Reordering the ingredient list, when the lower-cased names are pairwise
    distinct, and reordering the keys inside the ingredient objects leave the
    canonical text as it is. *)
Lemma normalize_reordered fields l l1 l' ks :
  dict_get fields "ingredients" = Some (JArr l) →
  map_exn name_key l = inr ks → NoDup ks →
  Permutation l l1 → Forall2 same_object l1 l' →
  ∃ text c1 c2,
    normalize_composition fields = inr (text, c1)
    ∧ normalize_composition (dict_set fields "ingredients" (JArr l'))
      = inr (text, c2).
Proof.
  intros Hget Hks Hnodup Hperm Hsame.
  destruct (sorted_by_name_perm _ _ _ Hks Hnodup Hperm) as (ks1 & Hks1 & Hsort).
  assert (Hks' : map_exn name_key l' = inr ks1)
    by (by rewrite <- (name_keys_same _ _ Hsame)).
  eexists _, _, _. split; [by apply normalize_composition_list|].
  rewrite (normalize_composition_list _ l' ks1);
    [|by apply dict_get_set|exact Hks'].
  rewrite dict_set_set.
  assert (Hd : dumps (JArr (map snd (sort_by_key (combine ks1 l'))))
               = dumps (JArr (map snd (sort_by_key (combine ks l))))).
  { rewrite !dumps_arr, <- Hsort. f_equal. f_equal. f_equal.
    symmetry. apply dumps_all_same, Forall2_fmap.
    eapply Forall2_impl; [apply sort_by_key_related, combine_same, Hsame|].
    by intros p q [_ ?]. }
  by rewrite !dumps_obj, (render_with_ingredients _ _ _ Hd).
Qed.

(** Sorting what [sorted] returned changes nothing. *)
Lemma sorted_by_name_fixpoint ingredients S :
  sorted_by_name ingredients = inr S → sorted_by_name (JArr S) = inr S.
Proof.
  unfold sorted_by_name.
  destruct (iterate ingredients) as [e|items]; cbn; [done|].
  destruct (map_exn name_key items) as [e|ks] eqn:Hks; cbn; [done|].
  intros [= <-].
  destruct (map_exn_inr _ _ _ Hks) as (HD & _ & _).
  rewrite map_exn_decorated.
  - cbn. by rewrite combine_fst_snd, sort_by_key_idempotent.
  - by rewrite <- sort_by_key_is_perm.
Qed.

(** The dict that [normalize_composition] leaves behind normalizes to the
    same text and is left as it is. *)
Lemma normalize_composition_idempotent c text c' :
  normalize_composition c = inr (text, c') →
  normalize_composition c' = inr (text, c').
Proof.
  unfold normalize_composition.
  destruct (dict_get c "ingredients") as [ingredients|] eqn:Hget.
  - destruct (sorted_by_name ingredients) as [e|S] eqn:HS; cbn; [done|].
    intros [= <- <-].
    by rewrite dict_get_set, (sorted_by_name_fixpoint _ _ HS); cbn;
      rewrite dict_set_set.
  - cbn. intros [= <- <-]. by rewrite Hget.
Qed.

Lemma generate_composition_hash_idempotent c h c' :
  generate_composition_hash c = inr (h, c') →
  generate_composition_hash c' = inr (h, c').
Proof.
  unfold generate_composition_hash.
  destruct (normalize_composition c) as [e|[text m]] eqn:Hn; cbn; [done|].
  intros [= <- <-]. by rewrite (normalize_composition_idempotent _ _ _ Hn).
Qed.

Lemma verify_own_hash c h c' :
  generate_composition_hash c = inr (h, c') →
  verify_composition_hash c h = inr (true, c')
  ∧ verify_composition_hash c' h = inr (true, c').
Proof.
  intros Hgen. unfold verify_composition_hash.
  rewrite (generate_composition_hash_idempotent _ _ _ Hgen), Hgen. cbn.
  by rewrite String.eqb_refl.
Qed.

(** C4, as the code has it.  (1) The hash is the same after a permutation of
    the ingredient list whose lower-cased names are pairwise distinct and
    after a permutation of the keys inside ingredient objects.  (2) Verifying a
    composition against the hash computed for it answers true, both for the
    composition as passed and for the dict as the hashing left it.  (3) The
    dict of a schema composition always has a hash.  (4) Two compositions
    with the same canonical text have the same hash. *)
Theorem hash_determinism :
  (∀ fields l l1 l' ks,
     dict_get fields "ingredients" = Some (JArr l) →
     map_exn name_key l = inr ks → NoDup ks →
     Permutation l l1 → Forall2 same_object l1 l' →
     ∃ h c1 c2,
       generate_composition_hash fields = inr (h, c1)
       ∧ generate_composition_hash (dict_set fields "ingredients" (JArr l'))
         = inr (h, c2))
  ∧ (∀ c h c',
       generate_composition_hash c = inr (h, c') →
       verify_composition_hash c h = inr (true, c')
       ∧ verify_composition_hash c' h = inr (true, c'))
  ∧ (∀ c : DrugComposition.t,
       ∃ h c', generate_composition_hash (DrugComposition.dict c) = inr (h, c'))
  ∧ (∀ c1 c2 text m1 m2,
       normalize_composition c1 = inr (text, m1) →
       normalize_composition c2 = inr (text, m2) →
       ∃ h, generate_composition_hash c1 = inr (h, m1)
            ∧ generate_composition_hash c2 = inr (h, m2)).
Proof.
  split; [|split; [|split]].
  - intros fields l l1 l' ks Hget Hks Hnodup Hperm Hsame.
    destruct (normalize_reordered _ _ _ _ _ Hget Hks Hnodup Hperm Hsame)
      as (text & c1 & c2 & H1 & H2).
    unfold generate_composition_hash. rewrite H1, H2. cbn. by eexists _, _, _.
  - apply verify_own_hash.
  - intros c. destruct (generate_composition_hash_total c) as [c' Hc]. eauto.
  - intros c1 c2 text m1 m2 H1 H2.
    unfold generate_composition_hash. rewrite H1, H2. cbn. eauto.
Qed.

Lemma hash_determinism_witness :
  ∃ h c1 c2,
    generate_composition_hash (DrugComposition.dict Fixture.paracetamol)
    = inr (h, c1)
    ∧ generate_composition_hash
        (dict_set (DrugComposition.dict Fixture.paracetamol) "ingredients"
           (JArr Fixture.paracetamol_rekeyed))
      = inr (h, c2).
Proof.
  refine (proj1 hash_determinism (DrugComposition.dict Fixture.paracetamol)
            Fixture.paracetamol_ingredients Fixture.paracetamol_reversed
            Fixture.paracetamol_rekeyed ["paracetamol"; "caffeine"] _ _ _ _ _).
  - reflexivity.
  - reflexivity.
  - apply NoDup_cons. split; [|apply NoDup_singleton].
    intros Hin%list_elem_of_singleton. discriminate Hin.
  - apply perm_swap.
  - constructor; [|constructor; [|constructor]].
    + eexists _, _. split; [reflexivity|]. split; [reflexivity|]. split.
      * vm_compute. repeat (apply NoDup_cons; split;
                             [rewrite ?elem_of_cons, elem_of_nil;
                              intros Hin; repeat destruct Hin as [Hin|Hin];
                              discriminate || done|]).
        apply NoDup_nil_2.
      * apply (Permutation_rev [_; _; _]).
    + eexists _, _. split; [reflexivity|]. split; [reflexivity|]. split.
      * vm_compute. repeat (apply NoDup_cons; split;
                             [rewrite ?elem_of_cons, elem_of_nil;
                              intros Hin; repeat destruct Hin as [Hin|Hin];
                              discriminate || done|]).
        apply NoDup_nil_2.
      * apply perm_swap.
Defined.

(** C4 as the specification words it fails on two ingredients whose names
    differ in case only: the two orders of the list have different hashes. *)
Lemma tied_names_hash_depends_on_order :
  Permutation (DrugComposition.ingredients Fixture.tied_names)
              (DrugComposition.ingredients Fixture.tied_names_swapped)
  ∧ ∃ h1 c1 h2 c2,
      generate_composition_hash (DrugComposition.dict Fixture.tied_names)
      = inr (h1, c1)
      ∧ generate_composition_hash (DrugComposition.dict Fixture.tied_names_swapped)
        = inr (h2, c2)
      ∧ h1 ≠ h2.
Proof.
  split; [apply perm_swap|].
  eexists _, _, _, _. split; [vm_compute; reflexivity|].
  split; [vm_compute; reflexivity|]. discriminate.
Qed.

(** *** The model against known values *)

Example sha256_round_constants :
  (nth 0 Sha256.K 0 = 0x428a2f98 ∧ nth 63 Sha256.K 0 = 0xc67178f2
   ∧ length Sha256.K = 64%nat
   ∧ nth 0 Sha256.H0 0 = 0x6a09e667 ∧ nth 7 Sha256.H0 0 = 0x5be0cd19)%N.
Proof. vm_compute. by repeat split. Qed.

Example sha256_abc :
  Sha256.hexdigest (utf8_encode "abc")
  = "ba7816bf8f01cfea414140de5dae2223b00361a396177a9cb410ff61f20015ad".
Proof. vm_compute. reflexivity. Qed.

Example sha256_empty :
  Sha256.hexdigest (utf8_encode "")
  = "e3b0c44298fc1c149afbf4c8996fb92427ae41e4649b934ca495991b7852b855".
Proof. vm_compute. reflexivity. Qed.

Example sha256_two_blocks :
  Sha256.hexdigest
    (utf8_encode "abcdbcdecdefdefgefghfghighijhijkijkljklmklmnlmnomnopnopq")
  = "248d6a61d20638b8e5c026930c3e6039a33ce45964ff2167f6ecedd419db06c1".
Proof. vm_compute. reflexivity. Qed.

Example paracetamol_hash_computed :
  hash_of Fixture.paracetamol = Fixture.paracetamol_hash.
Proof. vm_compute. reflexivity. Qed.

Example paracetamol_canonical_text :
  fst <$> (match normalize_composition (DrugComposition.dict Fixture.paracetamol)
           with inr r => Some r | inl _ => None end)
  = Some (String.concat (String dquote EmptyString)
            ["{"; "ingredients"; ":[{"; "name"; ":"; "Caffeine"; ",";
             "percentage"; ":6.5,"; "quantity"; ":"; "65mg"; "},{"; "name"; ":";
             "Paracetamol"; ","; "percentage"; ":50.0,"; "quantity"; ":";
             "500mg"; "}]}"]).
Proof. vm_compute. reflexivity. Qed.

End HashingFacts.

(** *** Digests are few *)

Section Collisions.
Import Hashing Json Sha256.
Local Open Scope N_scope.

Lemma add32_bound a b : add32 a b < 2 ^ 32.
Proof.
  unfold add32. change mask32 with (N.ones 32). rewrite N.land_ones.
  apply N.mod_lt. discriminate.
Qed.

Lemma round_length st kw : length (round st kw) = length st.
Proof.
  destruct st as [|a [|b [|c [|d [|e [|f [|g [|h [|i st]]]]]]]]]; reflexivity.
Qed.

Lemma rounds_length kws st : length (fold_left round kws st) = length st.
Proof.
  revert st. induction kws as [|kw kws IH]; intros st; cbn [fold_left]; [done|].
  by rewrite IH, round_length.
Qed.

Lemma compress_shape h block :
  length (compress h block) = length h
  ∧ Forall (λ w, w < 2 ^ 32) (compress h block).
Proof.
  unfold compress. split.
  - rewrite length_map, length_combine, rounds_length. lia.
  - apply Forall_map, Forall_forall. intros p _. apply add32_bound.
Qed.

Lemma digest_shape msg :
  length (digest msg) = 8%nat ∧ Forall (λ w, w < 2 ^ 32) (digest msg).
Proof.
  unfold digest. generalize (blocks (length (words (length msg + 72) (pad msg)))
                               (words (length msg + 72) (pad msg))).
  intros bs.
  assert (H0ok : length H0 = 8%nat ∧ Forall (λ w, w < 2 ^ 32) H0).
  { split; [by vm_compute|].
    let h := eval vm_compute in H0 in change H0 with h.
    repeat constructor. }
  revert H0ok. generalize H0 as h.
  induction bs as [|b bs IH]; intros h Hh; cbn [fold_left]; [done|].
  apply IH. destruct (compress_shape h b) as [Hlen Hbound].
  split; [by rewrite Hlen; apply Hh|done].
Qed.

Lemma word_value_bound ws :
  Forall (λ w, w < 2 ^ 32) ws → word_value ws < 2 ^ (32 * N.of_nat (length ws)).
Proof.
  induction 1 as [|w ws Hw _ IH]; cbn [word_value length]; [reflexivity|].
  rewrite Nat2N.inj_succ, N.mul_succ_r, N.pow_add_r. nia.
Qed.

Lemma word_value_inj ws ws' :
  length ws = length ws' →
  Forall (λ w, w < 2 ^ 32) ws → Forall (λ w, w < 2 ^ 32) ws' →
  word_value ws = word_value ws' → ws = ws'.
Proof.
  intros Hlen Hws. revert ws' Hlen.
  induction Hws as [|w ws Hw _ IH]; intros [|w' ws'] Hlen Hws' Heq;
    try discriminate; [done|].
  inversion Hws' as [|? ? Hw' Hrest]; subst. cbn [word_value] in Heq.
  destruct (N.div_mod_unique (2 ^ 32) (word_value ws) (word_value ws') w w')
    as [Hq Hr]; [done|done|lia|].
  subst w'. f_equal. apply IH; [by injection Hlen|done|done].
Qed.

(** No function from the naturals into the numbers below [B] is
    injective. *)
Lemma pigeonhole (B : N) (f : nat → N) :
  (∀ n, f n < B) → ¬ (∀ i j, f i = f j → i = j).
Proof.
  intros Hbound Hinj.
  set (Bn := N.to_nat B).
  assert (Hnodup : NoDup (f <$> seq 0 (S Bn))).
  { apply NoDup_fmap_2_strong; [|apply NoDup_seq]. intros i j _ _. apply Hinj. }
  assert (Hsub : f <$> seq 0 (S Bn) ⊆+ N.of_nat <$> seq 0 Bn).
  { apply NoDup_submseteq; [done|].
    intros x (n & -> & _)%list_elem_of_fmap. apply list_elem_of_fmap.
    exists (N.to_nat (f n)). split; [by rewrite N2Nat.id|].
    apply elem_of_seq. specialize (Hbound n). unfold Bn. lia. }
  apply submseteq_length in Hsub. rewrite !length_fmap, !length_seq in Hsub. lia.
Qed.

Local Close Scope N_scope.

Lemma escape_filler n :
  escape (string_of_list_ascii (repeat "a"%char n))
  = string_of_list_ascii (repeat "a"%char n).
Proof. induction n as [|n IH]; cbn; [done|]. by rewrite IH. Qed.

Lemma length_filler n :
  String.length (string_of_list_ascii (repeat "a"%char n)) = n.
Proof. induction n as [|n IH]; cbn; [done|]. by rewrite IH. Qed.

Lemma length_append s1 s2 :
  String.length (s1 +:+ s2) = (String.length s1 + String.length s2)%nat.
Proof. induction s1 as [|c s1 IH]; simpl; [done|]. by rewrite IH. Qed.

Lemma normalize_filler n :
  normalize_composition (filler n) = inr (dumps (JObj (filler n)), filler n).
Proof. reflexivity. Qed.

Lemma length_text_filler n :
  String.length (dumps (JObj (filler n))) = (n + 11)%nat.
Proof.
  rewrite dumps_obj. cbn [map filler render fst snd sort_by_key insert_by_key
    String.concat dumps].
  unfold encode_str. rewrite escape_filler.
  rewrite ?length_append; cbn [String.length]; rewrite ?length_append.
  cbn [String.length]. rewrite length_filler.
  change (String.length (escape "note")) with 4%nat. lia.
Qed.

(** X9: equal hashes do not force equal canonical texts: there is no end
    of canonical texts and there are at most 2^256 digests. *)
Lemma equal_hash_does_not_force_equal_text :
  ¬ (∀ c1 c2 t1 t2 m1 m2 h,
       normalize_composition c1 = inr (t1, m1) →
       normalize_composition c2 = inr (t2, m2) →
       generate_composition_hash c1 = inr (h, m1) →
       generate_composition_hash c2 = inr (h, m2) →
       t1 = t2).
Proof.
  intros Hclaim.
  apply (pigeonhole (2 ^ 256)
           (λ n, word_value (digest (utf8_encode (dumps (JObj (filler n))))))).
  - intros n. destruct (digest_shape (utf8_encode (dumps (JObj (filler n)))))
      as [Hlen Hbound].
    apply word_value_bound in Hbound. by rewrite Hlen in Hbound.
  - intros i j Heq.
    destruct (digest_shape (utf8_encode (dumps (JObj (filler i))))) as [Hli Hbi].
    destruct (digest_shape (utf8_encode (dumps (JObj (filler j))))) as [Hlj Hbj].
    apply word_value_inj in Heq; [|congruence|done|done].
    assert (Htext : dumps (JObj (filler i)) = dumps (JObj (filler j))).
    { apply (Hclaim (filler i) (filler j) _ _ (filler i) (filler j)
               (hexdigest (utf8_encode (dumps (JObj (filler i))))));
        try apply normalize_filler.
      - reflexivity.
      - unfold generate_composition_hash. rewrite normalize_filler.
        cbn [bind_exn fst snd]. unfold hexdigest. by rewrite Heq. }
    apply (f_equal String.length) in Htext.
    rewrite !length_text_filler in Htext. lia.
Qed.

End Collisions.

(** * Further properties *)

(** ** Composition validation, in general *)

Section ValidationLaws.
Import Validation.

Lemma validate_composition_scores drug_name provided dataset P D :
  ingredient_names provided = inr P →
  ingredient_names dataset = inr D →
  validate_composition drug_name provided dataset
  = (fst (fst (score P D)), snd (fst (score P D)), Some (snd (score P D))).
Proof.
  intros HP HD. unfold validate_composition. rewrite HP, HD. cbn [bind_exn].
  by destruct (score P D) as [[? ?] ?].
Qed.

Lemma common_with_extras (P E D : gset string) : E ## D → (P ∪ E) ∩ D = P ∩ D.
Proof.
  intros Hdisj. apply set_eq. intros x.
  rewrite !elem_of_intersection, elem_of_union.
  rewrite elem_of_disjoint in Hdisj. specialize (Hdisj x). tauto.
Qed.

Lemma missing_with_extras (P E D : gset string) : E ## D → D ∖ (P ∪ E) = D ∖ P.
Proof.
  intros Hdisj. apply set_eq. intros x.
  rewrite !elem_of_difference, elem_of_union.
  rewrite elem_of_disjoint in Hdisj. specialize (Hdisj x). tauto.
Qed.

Lemma extras_split (P E D : gset string) :
  E ## D → (P ∪ E) ∖ D = (P ∖ D) ∪ (E ∖ P) ∧ (P ∖ D) ## (E ∖ P).
Proof.
  intros Hdisj. rewrite elem_of_disjoint in Hdisj. split.
  - apply set_eq. intros x.
    rewrite !elem_of_union, !elem_of_difference, elem_of_union.
    specialize (Hdisj x). destruct (decide (x ∈ P)); tauto.
  - apply elem_of_disjoint. intros x.
    rewrite !elem_of_difference. tauto.
Qed.

(** X1: ingredients the reference does not list never change the outcome:
    adding such names to a submission leaves [isValid], the message and the
    score as they were, leaves the same names missing, and only adds to the
    extra ingredients.  The two lists are compared up to order: they are
    enumerations of sets, whose order Python does not fix. *)
Theorem extra_ingredients_do_not_matter drug_name provided provided' dataset
    (P E D : gset string) :
  ingredient_names provided = inr P →
  ingredient_names provided' = inr (P ∪ E) →
  ingredient_names dataset = inr D →
  E ## D →
  ∃ is_valid message details details',
    validate_composition drug_name provided dataset
    = (is_valid, message, Some details)
    ∧ validate_composition drug_name provided' dataset
      = (is_valid, message, Some details')
    ∧ matchPercentage details' = matchPercentage details
    ∧ missingIngredients details' ≡ₚ missingIngredients details
    ∧ extraIngredients details' ≡ₚ extraIngredients details ++ elements (E ∖ P).
Proof.
  intros HP HP' HD Hdisj.
  rewrite (validate_composition_scores _ _ _ _ _ HP HD),
          (validate_composition_scores _ _ _ _ _ HP' HD).
  unfold score. cbn [fst snd].
  rewrite (common_with_extras _ _ _ Hdisj), (missing_with_extras _ _ _ Hdisj).
  destruct (extras_split P E D Hdisj) as [Hextra Hapart].
  eexists _, _, _, _. split; [reflexivity|]. split; [reflexivity|].
  split; [reflexivity|]. split; [reflexivity|].
  cbn [extraIngredients]. rewrite Hextra.
  by apply elements_disj_union.
Qed.

Lemma extra_ingredients_do_not_matter_witness :
  ∃ is_valid message details details',
    validate_composition "Paracetamol" Fixture.reference_A_to_J
      Fixture.reference_A_to_J
    = (is_valid, message, Some details)
    ∧ validate_composition "Paracetamol" Scenario.with_extra
        Fixture.reference_A_to_J
      = (is_valid, message, Some details')
    ∧ matchPercentage details' = matchPercentage details
    ∧ missingIngredients details' ≡ₚ missingIngredients details
    ∧ extraIngredients details'
      ≡ₚ extraIngredients details
         ++ elements ({["extra-ingredient"]} ∖ Scenario.names_a_to_j).
Proof.
  refine (extra_ingredients_do_not_matter "Paracetamol" Fixture.reference_A_to_J
            Scenario.with_extra Fixture.reference_A_to_J
            Scenario.names_a_to_j {["extra-ingredient"]} Scenario.names_a_to_j
            _ _ _ _).
  - reflexivity.
  - vm_compute. reflexivity.
  - reflexivity.
  - apply (bool_decide_unpack _). vm_compute. reflexivity.
Defined.

(** X2: a composition is valid only if both compositions could be read, the
    reference names at least one ingredient, and every reference name is
    among the submitted names; the details are then present and list nothing
    as missing. *)
Theorem valid_means_nothing_missing drug_name provided dataset :
  fst (fst (validate_composition drug_name provided dataset)) = true →
  ∃ P D details,
    ingredient_names provided = inr P
    ∧ ingredient_names dataset = inr D
    ∧ snd (validate_composition drug_name provided dataset) = Some details
    ∧ D ≠ ∅ ∧ D ⊆ P
    ∧ missingIngredients details = [].
Proof.
  unfold validate_composition.
  destruct (ingredient_names provided) as [e|P]; cbn [bind_exn]; [done|].
  destruct (ingredient_names dataset) as [e|D]; cbn [bind_exn]; [done|].
  destruct (score P D) as [[v m] d] eqn:Hscore. cbn [fst snd]. intros ->.
  exists P, D, d. unfold score in Hscore. injection Hscore as Hv _ Hd.
  apply andb_true_iff in Hv as [Hpct Hmiss%Nat.eqb_eq].
  apply length_zero_iff_nil in Hmiss.
  repeat split; try done.
  - intros ->. rewrite size_empty in Hpct. cbn in Hpct. discriminate Hpct.
  - apply elements_empty_inv in Hmiss. intros x Hx.
    destruct (decide (x ∈ P)) as [|Hnot]; [done|].
    destruct (not_elem_of_empty (C := gset string) x). rewrite <- Hmiss.
    by apply elem_of_difference.
  - by subst d.
Qed.

Lemma valid_means_nothing_missing_witness :
  ∃ P D details,
    ingredient_names Scenario.with_extra = inr P
    ∧ ingredient_names Fixture.reference_A_to_J = inr D
    ∧ snd (validate_composition "Paracetamol" Scenario.with_extra
             Fixture.reference_A_to_J) = Some details
    ∧ D ≠ ∅ ∧ D ⊆ P
    ∧ missingIngredients details = [].
Proof.
  refine (valid_means_nothing_missing "Paracetamol" Scenario.with_extra
            Fixture.reference_A_to_J _).
  vm_compute. reflexivity.
Defined.

Lemma full_score_up_to_bound : forallb full_score (seq 1 1000) = true.
Proof. vm_compute. reflexivity. Qed.

Lemma full_score_is_100 n :
  (1 ≤ n ≤ 1000)%nat →
  (float_of_nat n / float_of_nat n * 100)%float = 100%float.
Proof.
  intros Hn. apply FloatAxioms.Leibniz.eqb_spec.
  pose proof full_score_up_to_bound as Hall.
  rewrite forallb_forall in Hall. apply (Hall n). apply in_seq. lia.
Qed.

(** X3: a submission that names every ingredient of a reference of 1 to
    1000 names is valid with the score 100.0, whatever else it names:
    nothing is missing and the extra list is what the reference does not
    have. *)
Theorem complete_submission_is_valid drug_name provided dataset
    (P D : gset string) :
  ingredient_names provided = inr P →
  ingredient_names dataset = inr D →
  (1 ≤ size D ≤ 1000)%nat →
  D ⊆ P →
  ∃ message details,
    validate_composition drug_name provided dataset
    = (true, message, Some details)
    ∧ matchPercentage details = 100%float
    ∧ missingIngredients details = []
    ∧ extraIngredients details = elements (P ∖ D).
Proof.
  intros HP HD Hsize HDP.
  rewrite (validate_composition_scores _ _ _ _ _ HP HD).
  unfold score. cbn [fst snd].
  assert (Hcommon : P ∩ D = D).
  { rewrite (comm_L (∩)). by apply subseteq_intersection_1_L. }
  assert (Hmissing : D ∖ P = ∅).
  { apply set_eq. intros x. rewrite elem_of_difference, elem_of_empty.
    specialize (HDP x). tauto. }
  rewrite Hcommon, Hmissing, elements_empty.
  replace (0 <? size D)%nat with true by (symmetry; apply Nat.ltb_lt; lia).
  rewrite (full_score_is_100 _ Hsize).
  eexists _, _. repeat split.
Qed.

Lemma complete_submission_is_valid_witness :
  ∃ message details,
    validate_composition "Paracetamol" Scenario.with_extra
      Fixture.reference_A_to_J
    = (true, message, Some details)
    ∧ matchPercentage details = 100%float
    ∧ missingIngredients details = []
    ∧ extraIngredients details
      = elements (({["extra-ingredient"]} ∪ Scenario.names_a_to_j)
                  ∖ Scenario.names_a_to_j).
Proof.
  refine (complete_submission_is_valid "Paracetamol" Scenario.with_extra
            Fixture.reference_A_to_J
            ({["extra-ingredient"]} ∪ Scenario.names_a_to_j)
            Scenario.names_a_to_j _ _ _ _).
  - vm_compute. reflexivity.
  - reflexivity.
  - vm_compute. lia.
  - apply (bool_decide_unpack _). vm_compute. reflexivity.
Defined.

End ValidationLaws.

(** ** Names and quantities *)

Section NormalizeLaws.
Import Normalize.

Lemma lower_char_idempotent c : lower_char (lower_char c) = lower_char c.
Proof. by destruct c as [[] [] [] [] [] [] [] []]. Qed.

Lemma is_space_lower_char c : is_space (lower_char c) = is_space c.
Proof. by destruct c as [[] [] [] [] [] [] [] []]. Qed.

Lemma lower_idempotent s : lower (lower s) = lower s.
Proof.
  induction s as [|c s IH]; cbn [lower]; [done|].
  by rewrite lower_char_idempotent, IH.
Qed.

Lemma lstrip_lower s : lstrip (lower s) = lower (lstrip s).
Proof.
  induction s as [|c s IH]; cbn [lower lstrip]; [done|].
  rewrite is_space_lower_char. by destruct (is_space c).
Qed.

Lemma rstrip_lower s : rstrip (lower s) = lower (rstrip s).
Proof.
  induction s as [|c s IH]; cbn [lower rstrip]; [done|].
  rewrite IH, is_space_lower_char.
  destruct (rstrip s); cbn [lower]; [|done]. by destruct (is_space c).
Qed.

Lemma strip_lower s : strip (lower s) = lower (strip s).
Proof. unfold strip. by rewrite lstrip_lower, rstrip_lower. Qed.

Lemma rstrip_keeps_head c s :
  is_space c = false → rstrip (String c s) = String c (rstrip s).
Proof. intros Hc. cbn [rstrip]. rewrite Hc. by destruct (rstrip s). Qed.

Lemma rstrip_idempotent s : rstrip (rstrip s) = rstrip s.
Proof.
  induction s as [|c s IH]; cbn [rstrip]; [done|].
  destruct (rstrip s) as [|d r] eqn:Hr.
  - destruct (is_space c) eqn:Hc; [done|]. cbn [rstrip]. by rewrite Hc.
  - cbn [rstrip] in *. by rewrite IH.
Qed.

Lemma lstrip_head s :
  lstrip s = EmptyString
  ∨ ∃ c r, lstrip s = String c r ∧ is_space c = false.
Proof.
  induction s as [|c s IH]; cbn [lstrip]; [by left|].
  destruct (is_space c) eqn:Hc; [exact IH|]. right. by exists c, s.
Qed.

Lemma strip_idempotent s : strip (strip s) = strip s.
Proof.
  unfold strip. destruct (lstrip_head s) as [->|(c & r & -> & Hc)]; [done|].
  rewrite (rstrip_keeps_head _ _ Hc). cbn [lstrip]. rewrite Hc.
  by rewrite (rstrip_keeps_head _ _ Hc), rstrip_idempotent.
Qed.

Lemma rstrip_trailing c s :
  is_space c = true → rstrip (s +:+ String c EmptyString) = rstrip s.
Proof.
  intros Hc. induction s as [|d s IH]; simpl.
  - by rewrite Hc.
  - by rewrite IH.
Qed.

Lemma strip_trailing c s :
  is_space c = true → strip (s +:+ String c EmptyString) = strip s.
Proof.
  intros Hc. unfold strip. induction s as [|d s IH]; simpl.
  - by rewrite Hc.
  - destruct (is_space d); [exact IH|].
    change (String d (s +:+ String c EmptyString))
      with (String d s +:+ String c EmptyString).
    by apply rstrip_trailing.
Qed.

(** X4: [normalize_ingredient_name] is idempotent and does not see letter
    case; [compare_ingredient_quantities] answers true exactly when the two
    normalized strings are equal, so it is reflexive and symmetric and
    normalizing an argument first changes nothing. *)
Theorem normalize_ingredient_name_idempotent s t :
  normalize_ingredient_name (normalize_ingredient_name s)
  = normalize_ingredient_name s
  ∧ normalize_ingredient_name (lower s) = normalize_ingredient_name s
  ∧ (compare_ingredient_quantities s t = true
     ↔ normalize_ingredient_name s = normalize_ingredient_name t)
  ∧ compare_ingredient_quantities s s = true
  ∧ compare_ingredient_quantities s t = compare_ingredient_quantities t s
  ∧ compare_ingredient_quantities (normalize_ingredient_name s) t
    = compare_ingredient_quantities s t.
Proof.
  assert (Hidem : ∀ x, lower (strip (lower (strip x))) = lower (strip x)).
  { intros x. by rewrite strip_lower, strip_idempotent, lower_idempotent. }
  unfold normalize_ingredient_name, compare_ingredient_quantities.
  repeat split.
  - apply Hidem.
  - by rewrite strip_lower, lower_idempotent.
  - apply String.eqb_eq.
  - apply String.eqb_eq.
  - apply String.eqb_refl.
  - apply String.eqb_sym.
  - by rewrite Hidem.
Qed.

(** X5: a whitespace character in front of a name or behind it is not seen
    by [normalize_ingredient_name], nor by
    [compare_ingredient_quantities]. *)
Theorem surrounding_whitespace_is_ignored c s t :
  is_space c = true →
  normalize_ingredient_name (String c s) = normalize_ingredient_name s
  ∧ normalize_ingredient_name (s +:+ String c EmptyString)
    = normalize_ingredient_name s
  ∧ compare_ingredient_quantities (String c s +:+ String c EmptyString) t
    = compare_ingredient_quantities s t.
Proof.
  intros Hc. unfold normalize_ingredient_name, compare_ingredient_quantities.
  assert (Hfront : ∀ x, strip (String c x) = strip x).
  { intros x. unfold strip. cbn [lstrip]. by rewrite Hc. }
  rewrite (strip_trailing _ (String c s) Hc), (strip_trailing _ s Hc), !Hfront.
  done.
Qed.

Lemma surrounding_whitespace_is_ignored_witness :
  normalize_ingredient_name (String " " "Caffeine") = normalize_ingredient_name "Caffeine"
  ∧ normalize_ingredient_name ("Caffeine" +:+ String " " EmptyString)
    = normalize_ingredient_name "Caffeine"
  ∧ compare_ingredient_quantities
      (String " " "Caffeine" +:+ String " " EmptyString) "caffeine"
    = compare_ingredient_quantities "Caffeine" "caffeine".
Proof.
  refine (surrounding_whitespace_is_ignored " " _ _ _). reflexivity.
Defined.

End NormalizeLaws.

(** ** The shape of a hash and what hashing does to its argument *)

Section HashingLaws.
Import Hashing Json Sha256.

Lemma hex_digit_is_lower_hex n : is_lower_hex (hex_digit n) = true.
Proof.
  destruct n as [|p]; [done|].
  do 4 (destruct p as [p|p|]; try done).
Qed.

Lemma lower_hex_is_lower c : is_lower_hex c = true → lower_char c = c.
Proof. by destruct c as [[] [] [] [] [] [] [] []]. Qed.

Lemma all_lower_hex_is_lower s : all_chars is_lower_hex s = true → lower s = s.
Proof.
  induction s as [|c s IH]; cbn [all_chars lower]; [done|].
  intros [Hc Hs]%andb_true_iff. by rewrite (lower_hex_is_lower _ Hc), IH.
Qed.

Lemma all_chars_append p s1 s2 :
  all_chars p (s1 +:+ s2) = all_chars p s1 && all_chars p s2.
Proof.
  induction s1 as [|c s1 IH]; simpl; [done|]. by rewrite IH, andb_assoc.
Qed.

Lemma hex32_shape x :
  String.length (hex32 x) = 8%nat ∧ all_chars is_lower_hex (hex32 x) = true.
Proof.
  unfold hex32. change (rev (seq 0 8)) with [7; 6; 5; 4; 3; 2; 1; 0]%nat.
  cbn [map string_of_list_ascii String.length all_chars].
  by rewrite !hex_digit_is_lower_hex.
Qed.

Lemma concat_hex32 ws :
  String.length (String.concat "" (map hex32 ws)) = (8 * length ws)%nat
  ∧ all_chars is_lower_hex (String.concat "" (map hex32 ws)) = true.
Proof.
  induction ws as [|w ws [IHlen IHhex]]; [done|].
  destruct (hex32_shape w) as [Hlen Hhex].
  cbn [map String.concat]. destruct ws as [|w' ws].
  - cbn [map length]. by rewrite Hlen.
  - change (match map hex32 (w' :: ws) with
            | [] => hex32 w
            | _ :: _ => hex32 w +:+ "" +:+ String.concat "" (map hex32 (w' :: ws))
            end)
      with (hex32 w +:+ String.concat "" (map hex32 (w' :: ws))).
    rewrite length_append, all_chars_append, Hlen, Hhex, IHlen, IHhex.
    cbn [length]. split; [lia|done].
Qed.

Lemma hexdigest_shape msg :
  String.length (hexdigest msg) = 64%nat
  ∧ all_chars is_lower_hex (hexdigest msg) = true.
Proof.
  unfold hexdigest. destruct (digest_shape msg) as [Hlen _].
  destruct (concat_hex32 (digest msg)) as [Hl Hh]. by rewrite Hl, Hlen.
Qed.

(** X6: every hash the module produces is 64 characters, each a digit or a
    letter a..f, so lower-casing it changes nothing; hence
    [verify_composition_hash] answers true exactly for the expected hashes
    that lower-case to the hash of the composition. *)
Theorem hash_is_lowercase_hex :
  (∀ data,
     String.length (hash_string data) = 64%nat
     ∧ all_chars is_lower_hex (hash_string data) = true)
  ∧ (∀ c h c',
       generate_composition_hash c = inr (h, c') →
       String.length h = 64%nat
       ∧ all_chars is_lower_hex h = true
       ∧ lower h = h
       ∧ ∀ expected,
           verify_composition_hash c expected
           = inr (String.eqb h (lower expected), c')).
Proof.
  split; [intros data; apply hexdigest_shape|].
  intros c h c' Hgen.
  assert (Hshape : String.length h = 64%nat ∧ all_chars is_lower_hex h = true).
  { unfold generate_composition_hash in Hgen.
    destruct (normalize_composition c) as [e|r]; cbn in Hgen; [done|].
    injection Hgen as <- _. apply hexdigest_shape. }
  destruct Hshape as [Hlen Hhex].
  pose proof (all_lower_hex_is_lower _ Hhex) as Hlow.
  repeat split; try done.
  intros expected. unfold verify_composition_hash. rewrite Hgen. cbn.
  by rewrite Hlow.
Qed.

Lemma hash_is_lowercase_hex_witness :
  String.length Fixture.paracetamol_hash = 64%nat
  ∧ all_chars is_lower_hex Fixture.paracetamol_hash = true
  ∧ lower Fixture.paracetamol_hash = Fixture.paracetamol_hash
  ∧ ∀ expected,
      verify_composition_hash (DrugComposition.dict Fixture.paracetamol) expected
      = inr (String.eqb Fixture.paracetamol_hash (lower expected),
             [("ingredients", JArr (rev Fixture.paracetamol_ingredients))]).
Proof.
  refine (proj2 hash_is_lowercase_hex (DrugComposition.dict Fixture.paracetamol)
            Fixture.paracetamol_hash
            [("ingredients", JArr (rev Fixture.paracetamol_ingredients))] _).
  vm_compute. reflexivity.
Defined.

Lemma dict_get_set_other {A} (fields : list (string * A)) k k' v :
  k' ≠ k → dict_get (dict_set fields k v) k' = dict_get fields k'.
Proof.
  intros Hne. induction fields as [|[k0 w] fields IH]; cbn.
  - destruct (String.eqb_spec k k'); [congruence|done].
  - destruct (String.eqb_spec k0 k) as [->|Hk]; cbn.
    + destruct (String.eqb_spec k k'); [congruence|done].
    + by rewrite IH.
Qed.

Lemma dict_set_keys {A} (fields : list (string * A)) k v w :
  dict_get fields k = Some w → map fst (dict_set fields k v) = map fst fields.
Proof.
  induction fields as [|[k0 x] fields IH]; cbn; [done|].
  destruct (String.eqb k0 k); cbn; [done|]. intros Hget. by rewrite IH.
Qed.

Lemma sorted_keys {A} (l : list (string * A)) :
  Sorted key_le l → Sorted leb_true (map fst l).
Proof.
  induction 1 as [|p l _ IH Hhd]; cbn; constructor; [done|].
  destruct Hhd as [|q l Hpq]; cbn; by constructor.
Qed.

(** X7: hashing a dict whose ingredients are a list puts, in the caller's
    dict and under the same key, the list sorted by lower-cased name: a
    permutation of the list that was there, with keys in ascending order;
    the order of the dict's keys and every other entry are left as they
    were. *)
Theorem hashing_sorts_the_callers_list fields l h fields' :
  dict_get fields "ingredients" = Some (JArr l) →
  generate_composition_hash fields = inr (h, fields') →
  ∃ S ks,
    fields' = dict_set fields "ingredients" (JArr S)
    ∧ Permutation l S
    ∧ map_exn name_key S = inr ks
    ∧ Sorted leb_true ks
    ∧ map fst fields' = map fst fields
    ∧ ∀ k, k ≠ "ingredients" → dict_get fields' k = dict_get fields k.
Proof.
  intros Hget. unfold generate_composition_hash.
  destruct (map_exn name_key l) as [e|ks] eqn:Hks.
  - unfold normalize_composition, sorted_by_name. rewrite Hget. cbn.
    by rewrite Hks.
  - rewrite (normalize_composition_list _ _ _ Hget Hks). cbn [bind_exn fst snd].
    intros [= _ <-].
    destruct (map_exn_inr _ _ _ Hks) as (Hdec & Hsnd & Hfst).
    set (D := combine ks l) in *.
    exists (map snd (sort_by_key D)), (map fst (sort_by_key D)).
    repeat split.
    + rewrite <- Hsnd at 1. apply Permutation_map, sort_by_key_is_perm.
    + apply map_exn_decorated. by rewrite <- sort_by_key_is_perm.
    + apply sorted_keys, sort_by_key_sorted.
    + by apply (dict_set_keys _ _ _ (JArr l)).
    + intros k Hk. by apply dict_get_set_other.
Qed.

Lemma hashing_sorts_the_callers_list_witness :
  ∃ S ks,
    [("note", JStr "batch 7");
     ("ingredients", JArr (rev Fixture.paracetamol_ingredients))]
    = dict_set Scenario.annotated "ingredients" (JArr S)
    ∧ Permutation Fixture.paracetamol_ingredients S
    ∧ map_exn name_key S = inr ks
    ∧ Sorted leb_true ks
    ∧ map fst [("note", JStr "batch 7");
               ("ingredients", JArr (rev Fixture.paracetamol_ingredients))]
      = map fst Scenario.annotated
    ∧ ∀ k, k ≠ "ingredients" →
        dict_get [("note", JStr "batch 7");
                  ("ingredients", JArr (rev Fixture.paracetamol_ingredients))] k
        = dict_get Scenario.annotated k.
Proof.
  refine (hashing_sorts_the_callers_list Scenario.annotated
            Fixture.paracetamol_ingredients
            "7b6531cd458bd53ef20c5128d61a374660cfd4f6d448d709cea4ca868fb2baaa"
            _ _ _).
  - reflexivity.
  - vm_compute. reflexivity.
Defined.

Lemma name_key_iff x : (∃ k, name_key x = inr k) ↔ has_text_name x = true.
Proof.
  unfold name_key, has_text_name, get_default.
  destruct x as [| | | |items|f]; cbn;
    try (split; [by intros [? [=]]|by intros [=]]).
  destruct (dict_get f "name") as [[| | |s| |]|]; cbn;
    try (split; [by intros [? [=]]|by intros [=]]);
    split; eauto.
Qed.

Lemma name_keys_iff l :
  (∃ ks, map_exn name_key l = inr ks) ↔ forallb has_text_name l = true.
Proof.
  induction l as [|x l IH]; cbn [map_exn forallb]; [by split; eauto|].
  rewrite andb_true_iff, <- IH, <- name_key_iff. clear IH.
  destruct (name_key x) as [e|k]; cbn.
  - split; [by intros [? [=]]|by intros [[? [=]] _]].
  - destruct (map_exn name_key l) as [e|ks]; cbn.
    + split; [by intros [? [=]]|by intros [_ [? [=]]]].
    + split; eauto.
Qed.

Lemma name_keys_error l e :
  map_exn name_key l = inl e → ∃ about, e = PyError "AttributeError" about.
Proof.
  induction l as [|x l IH]; cbn [map_exn]; [done|].
  unfold name_key at 1, get_default.
  destruct x as [| | | |items|f]; cbn; try (intros [= <-]; eauto).
  destruct (from_option id (JStr "") (dict_get f "name")); cbn;
    try (intros [= <-]; eauto).
  destruct (map_exn name_key l) as [e'|ks]; cbn; [|done].
  intros [= <-]. by apply IH.
Qed.

(** X8: with a list under its ingredients key, a dict can be hashed exactly
    when every item of the list is a dict whose name, if it has one, is a
    string; otherwise hashing raises an [AttributeError]. *)
Theorem hashing_needs_named_objects fields l :
  dict_get fields "ingredients" = Some (JArr l) →
  ((∃ h fields', generate_composition_hash fields = inr (h, fields'))
   ↔ forallb has_text_name l = true)
  ∧ ∀ e, generate_composition_hash fields = inl e →
         ∃ about, e = PyError "AttributeError" about.
Proof.
  intros Hget. rewrite <- name_keys_iff.
  unfold generate_composition_hash, normalize_composition, sorted_by_name.
  rewrite Hget. cbn [iterate bind_exn].
  destruct (map_exn name_key l) as [e|ks] eqn:Hks; cbn.
  - split; [split; [intros (? & ? & [=])|intros (? & [=])]|].
    intros e' [= <-]. by eapply name_keys_error.
  - split; [split; eauto|done].
Qed.

Lemma hashing_needs_named_objects_witness :
  ((∃ h fields', generate_composition_hash Scenario.bare_names = inr (h, fields'))
   ↔ forallb has_text_name [JStr "Paracetamol"] = true)
  ∧ ∀ e, generate_composition_hash Scenario.bare_names = inl e →
         ∃ about, e = PyError "AttributeError" about.
Proof.
  refine (hashing_needs_named_objects Scenario.bare_names [JStr "Paracetamol"] _).
  reflexivity.
Defined.

End HashingLaws.

(** ** The world under the remaining updates *)

Section StoreFacts.
Context (w : World.t).

Lemma users_set_storage l : World.users (World.set_storage l w) = World.users w.
Proof. reflexivity. Qed.
Lemma dataset_set_storage l :
  World.drug_composition_dataset (World.set_storage l w)
  = World.drug_composition_dataset w.
Proof. reflexivity. Qed.
Lemma users_set_users l : World.users (set_users l w) = l.
Proof. reflexivity. Qed.
Lemma dataset_set_users l :
  World.drug_composition_dataset (set_users l w) = World.drug_composition_dataset w.
Proof. reflexivity. Qed.
Lemma storage_set_users l :
  World.drug_composition_storage (set_users l w) = World.drug_composition_storage w.
Proof. reflexivity. Qed.
Lemma batches_set_users l : World.drug_batches (set_users l w) = World.drug_batches w.
Proof. reflexivity. Qed.
Lemma db_fault_set_users l : World.db_fault (set_users l w) = World.db_fault w.
Proof. reflexivity. Qed.
Lemma contract_set_users l : World.contract (set_users l w) = World.contract w.
Proof. reflexivity. Qed.
Lemma clock_set_users l : World.clock (set_users l w) = World.clock w.
Proof. reflexivity. Qed.
Lemma trace_set_users l : World.trace (set_users l w) = World.trace w.
Proof. reflexivity. Qed.

Lemma ledger_calls_log ev :
  ledger_calls (World.log ev w)
  = ledger_calls w ++ (if is_ledger_call ev then [ev] else []).
Proof.
  unfold ledger_calls. rewrite trace_log, List.filter_app. cbn.
  by destruct (is_ledger_call ev).
Qed.

Lemma ledger_calls_set_storage l : ledger_calls (World.set_storage l w) = ledger_calls w.
Proof. reflexivity. Qed.
Lemma ledger_calls_set_batches l : ledger_calls (World.set_batches l w) = ledger_calls w.
Proof. reflexivity. Qed.
Lemma ledger_calls_set_users l : ledger_calls (set_users l w) = ledger_calls w.
Proof. reflexivity. Qed.

End StoreFacts.

Ltac simpl_store :=
  repeat progress
    (simpl_world;
     rewrite ?users_set_storage, ?dataset_set_storage, ?users_set_users,
       ?dataset_set_users, ?storage_set_users, ?batches_set_users,
       ?db_fault_set_users, ?contract_set_users, ?clock_set_users,
       ?trace_set_users).

Ltac simpl_ledger_calls :=
  repeat progress
    (rewrite ?ledger_calls_set_storage, ?ledger_calls_set_batches,
       ?ledger_calls_set_users, ?ledger_calls_log;
     cbn [is_ledger_call]; rewrite ?app_nil_r).

(** ** Registration, in general *)

Section RegistrationLaws.
Import BlockchainService Drugs.

Lemma register_drug_eval d w :
  World.db_fault w = None →
  Drugs.register_drug d w
  = if stored w (DrugRegistrationRequest.batchId d) is Some _
    then (inl (HTTPException 400 [Lit "Batch ID already exists"]),
          batch_looked_up d w)
    else if negb (is_manufacturer w (DrugRegistrationRequest.manufacturerAddress d))
    then (inl (HTTPException 403
                 [Lit "Only registered manufacturers can register drugs"]),
          manufacturer_looked_up d w)
    else match rejection d w with
         | Some message =>
             (inl (HTTPException 400
                     (Lit "Composition validation failed: " :: message)),
              registration_checked d w)
         | None =>
             match Contract.registerDrug (World.contract w)
                     (DrugRegistrationRequest.batchId d)
                     (DrugRegistrationRequest.drugName d)
                     (hash_of (DrugRegistrationRequest.composition d))
                     (DrugRegistrationRequest.manufactureDate d)
                     (DrugRegistrationRequest.expiryDate d)
                     (DrugRegistrationRequest.manufacturerAddress d) with
             | inl e =>
                 (inl (HTTPException 500
                         [Lit "Blockchain registration failed: "; StrOf e]),
                  registration_sent d w)
             | inr _ => (inr (registration_response d), registration_stored d w)
             end
         end.
Proof.
  intros Hdb.
  destruct (generate_composition_hash_total (DrugRegistrationRequest.composition d))
    as [c' Hhash].
  unfold Drugs.register_drug, reraise_or_500, try_except, bind, Db.find_storage,
    Db.find_user, Db.find_dataset, Db.insert_storage, Db.insert_batch, Db.read,
    Db.call, BlockchainService.register_drug, guarded, utcnow, lift,
    stored, is_manufacturer, user_of, rejection, dataset_of, validated,
    registration_stored, registration_sent, registration_checked,
    manufacturer_looked_up, batch_looked_up, registration_call.
  repeat (cbn -[Hashing.generate_composition_hash Validation.validate_composition];
          simpl_world; rewrite ?Hdb).
  destruct (find _ (World.drug_composition_storage w)) as [s|]; [reflexivity|].
  repeat (cbn -[Hashing.generate_composition_hash Validation.validate_composition];
          simpl_world; rewrite ?Hdb).
  destruct (find _ (World.users w)) as [m|];
    repeat (cbn -[Hashing.generate_composition_hash Validation.validate_composition];
            simpl_world; rewrite ?Hdb); [|reflexivity].
  destruct (String.eqb (UserDoc.role m) "MANUFACTURER");
    repeat (cbn -[Hashing.generate_composition_hash Validation.validate_composition];
            simpl_world; rewrite ?Hdb); [|reflexivity].
  destruct (find _ (World.drug_composition_dataset w)) as [entry|];
    repeat (cbn -[Hashing.generate_composition_hash Validation.validate_composition];
            simpl_world; rewrite ?Hdb, ?Hhash).
  - destruct (Validation.validate_composition _ _ _) as [[v msg] det];
      repeat (cbn -[Hashing.generate_composition_hash]; simpl_world;
              rewrite ?Hdb, ?Hhash).
    destruct v;
      repeat (cbn -[Hashing.generate_composition_hash]; simpl_world;
              rewrite ?Hdb, ?Hhash); [|reflexivity].
    destruct (Contract.registerDrug _ _ _ _ _ _ _);
      repeat (cbn -[Hashing.generate_composition_hash]; simpl_world;
              rewrite ?Hdb, ?Hhash); reflexivity.
  - destruct (Contract.registerDrug _ _ _ _ _ _ _);
      repeat (cbn -[Hashing.generate_composition_hash]; simpl_world;
              rewrite ?Hdb, ?Hhash); reflexivity.
Qed.

Lemma registration_stored_facts d w :
  World.drug_composition_storage (registration_stored d w)
  = World.drug_composition_storage w ++ [registered_storage_doc d (World.clock w)]
  ∧ World.drug_batches (registration_stored d w)
    = World.drug_batches w ++ [registered_batch_doc d (World.clock w)]
  ∧ World.users (registration_stored d w) = World.users w
  ∧ World.db_fault (registration_stored d w) = World.db_fault w
  ∧ ledger_calls (registration_stored d w) = ledger_calls w ++ [registration_call d].
Proof.
  unfold registration_stored, registration_sent, registration_checked,
    manufacturer_looked_up, batch_looked_up.
  repeat split; simpl_store; try reflexivity.
  simpl_ledger_calls. reflexivity.
Qed.

Lemma registration_rejected_facts d w w' :
  w' = batch_looked_up d w ∨ w' = manufacturer_looked_up d w
  ∨ w' = registration_checked d w →
  World.drug_composition_storage w' = World.drug_composition_storage w
  ∧ World.drug_batches w' = World.drug_batches w
  ∧ World.users w' = World.users w
  ∧ ledger_calls w' = ledger_calls w.
Proof.
  unfold registration_checked, manufacturer_looked_up, batch_looked_up.
  intros [-> | [-> | ->]]; repeat split; simpl_store; try reflexivity;
    simpl_ledger_calls; reflexivity.
Qed.

Lemma registration_sent_facts d w :
  World.drug_composition_storage (registration_sent d w)
  = World.drug_composition_storage w
  ∧ World.drug_batches (registration_sent d w) = World.drug_batches w
  ∧ World.users (registration_sent d w) = World.users w.
Proof. by repeat split. Qed.

(** X10: a registration that is refused has written nothing: the stored
    compositions, the batch records and the users are as before; the refusal
    is a 400, a 403 or a 500, and unless it is a 500 the ledger has not been
    called. *)
Theorem failed_registration_writes_nothing d w e :
  World.db_fault w = None →
  fst (Drugs.register_drug d w) = inl e →
  let w' := snd (Drugs.register_drug d w) in
  World.drug_composition_storage w' = World.drug_composition_storage w
  ∧ World.drug_batches w' = World.drug_batches w
  ∧ World.users w' = World.users w
  ∧ ∃ code detail,
      e = HTTPException code detail
      ∧ (code = 400 ∨ code = 403 ∨ code = 500)
      ∧ (code ≠ 500 → ledger_calls w' = ledger_calls w).
Proof.
  intros Hdb. rewrite (register_drug_eval d w Hdb).
  destruct (stored w _) as [s|].
  { cbn [fst snd]. intros [= <-].
    destruct (registration_rejected_facts d w _ (or_introl eq_refl))
      as (? & ? & ? & ?).
    repeat split; try done. eexists _, _. split; [done|]. split; [by left|done]. }
  destruct (negb _).
  { cbn [fst snd]. intros [= <-].
    destruct (registration_rejected_facts d w _ (or_intror (or_introl eq_refl)))
      as (? & ? & ? & ?).
    repeat split; try done. eexists _, _. split; [done|].
    split; [by right; left|done]. }
  destruct (rejection d w) as [message|].
  { cbn [fst snd]. intros [= <-].
    destruct (registration_rejected_facts d w _ (or_intror (or_intror eq_refl)))
      as (? & ? & ? & ?).
    repeat split; try done. eexists _, _. split; [done|]. split; [by left|done]. }
  destruct (Contract.registerDrug _ _ _ _ _ _ _) as [err|tx]; cbn [fst snd]; [|done].
  intros [= <-]. destruct (registration_sent_facts d w) as (? & ? & ?).
  repeat split; try done. eexists _, _. split; [done|].
  split; [by right; right|done].
Qed.

Lemma failed_registration_writes_nothing_witness :
  let w' := snd (Drugs.register_drug Scenario.underdosed_batch Fixture.genuine) in
  World.drug_composition_storage w'
  = World.drug_composition_storage Fixture.genuine
  ∧ World.drug_batches w' = World.drug_batches Fixture.genuine
  ∧ World.users w' = World.users Fixture.genuine
  ∧ ∃ code detail,
      HTTPException 400
        [Lit "Composition validation failed: ";
         Lit "Composition validation failed ("; Fixed1 50%float; Lit "% match)"]
      = HTTPException code detail
      ∧ (code = 400 ∨ code = 403 ∨ code = 500)
      ∧ (code ≠ 500 → ledger_calls w' = ledger_calls Fixture.genuine).
Proof.
  refine (failed_registration_writes_nothing Scenario.underdosed_batch
            Fixture.genuine _ _ _).
  - reflexivity.
  - vm_compute. reflexivity.
Defined.

(** X11: a registration succeeds exactly when the batch id is not stored
    yet, the sender is a registered MANUFACTURER, the composition is valid
    against the drug's dataset entry if there is one, and the ledger builds
    the transaction; it then answers with the hash of the composition and
    has appended one storage document, one batch record and one ledger
    call. *)
Theorem registration_succeeds_exactly_when d w :
  World.db_fault w = None →
  ((∃ r w', Drugs.register_drug d w = (inr r, w'))
   ↔ stored w (DrugRegistrationRequest.batchId d) = None
     ∧ (∃ m, user_of w (DrugRegistrationRequest.manufacturerAddress d) = Some m
             ∧ UserDoc.role m = "MANUFACTURER")
     ∧ (∀ entry, dataset_of w (DrugRegistrationRequest.drugName d) = Some entry →
                 fst (fst (validated d entry)) = true)
     ∧ (∃ tx, Contract.registerDrug (World.contract w)
                (DrugRegistrationRequest.batchId d)
                (DrugRegistrationRequest.drugName d)
                (hash_of (DrugRegistrationRequest.composition d))
                (DrugRegistrationRequest.manufactureDate d)
                (DrugRegistrationRequest.expiryDate d)
                (DrugRegistrationRequest.manufacturerAddress d) = inr tx))
  ∧ (∀ r w', Drugs.register_drug d w = (inr r, w') →
       r = registration_response d
       ∧ World.drug_composition_storage w'
         = World.drug_composition_storage w
           ++ [registered_storage_doc d (World.clock w)]
       ∧ World.drug_batches w'
         = World.drug_batches w ++ [registered_batch_doc d (World.clock w)]
       ∧ ledger_calls w' = ledger_calls w ++ [registration_call d]).
Proof.
  intros Hdb. rewrite (register_drug_eval d w Hdb).
  unfold is_manufacturer, rejection.
  destruct (stored w _) as [s|].
  { split; [|by intros r w' [=]].
    split; [by intros (r & w' & [=])|by intros ([=] & _)]. }
  destruct (user_of w _) as [m|]; cbn [negb];
    [|split; [|by intros r w' [=]];
      split; [by intros (r & w' & [=])|by intros (_ & (m & [=] & _) & _)]].
  destruct (String.eqb_spec (UserDoc.role m) "MANUFACTURER") as [Hrole|Hrole];
    cbn [negb];
    [|split; [|by intros r w' [=]];
      split; [by intros (r & w' & [=])
             |by intros (_ & (m' & [= <-] & ?) & _)]].
  destruct (dataset_of w _) as [entry|].
  - destruct (fst (fst (validated d entry))) eqn:Hvalid.
    + destruct (Contract.registerDrug _ _ _ _ _ _ _) as [err|tx].
      * split; [|by intros r w' [=]].
        split; [by intros (r & w' & [=])|by intros (_ & _ & _ & (tx & [=]))].
      * destruct (registration_stored_facts d w) as (? & ? & _ & _ & ?).
        split; [|by intros r w' [= <- <-]].
        split; [|by eauto].
        intros _. repeat split; eauto. by intros entry' [= <-].
    + split; [|by intros r w' [=]].
      split; [by intros (r & w' & [=])|].
      intros (_ & _ & Hall & _). specialize (Hall entry eq_refl). congruence.
  - destruct (Contract.registerDrug _ _ _ _ _ _ _) as [err|tx].
    + split; [|by intros r w' [=]].
      split; [by intros (r & w' & [=])|by intros (_ & _ & _ & (tx & [=]))].
    + destruct (registration_stored_facts d w) as (? & ? & _ & _ & ?).
      split; [|by intros r w' [= <- <-]].
      split; [|by eauto].
      intros _. repeat split; eauto. by intros entry' [=].
Qed.

Lemma registration_succeeds_exactly_when_witness :
  ((∃ r w', Drugs.register_drug Scenario.paracetamol_batch Fixture.genuine
            = (inr r, w'))
   ↔ stored Fixture.genuine "B3" = None
     ∧ (∃ m, user_of Fixture.genuine "0xaa" = Some m
             ∧ UserDoc.role m = "MANUFACTURER")
     ∧ (∀ entry, dataset_of Fixture.genuine "Paracetamol" = Some entry →
                 fst (fst (validated Scenario.paracetamol_batch entry)) = true)
     ∧ (∃ tx, Contract.registerDrug (World.contract Fixture.genuine)
                "B3" "Paracetamol" (hash_of Fixture.paracetamol) 1400 5000 "0xaa"
              = inr tx))
  ∧ (∀ r w', Drugs.register_drug Scenario.paracetamol_batch Fixture.genuine
             = (inr r, w') →
       r = registration_response Scenario.paracetamol_batch
       ∧ World.drug_composition_storage w'
         = World.drug_composition_storage Fixture.genuine
           ++ [registered_storage_doc Scenario.paracetamol_batch
                 (World.clock Fixture.genuine)]
       ∧ World.drug_batches w'
         = World.drug_batches Fixture.genuine
           ++ [registered_batch_doc Scenario.paracetamol_batch
                 (World.clock Fixture.genuine)]
       ∧ ledger_calls w'
         = ledger_calls Fixture.genuine
           ++ [registration_call Scenario.paracetamol_batch]).
Proof.
  refine (registration_succeeds_exactly_when Scenario.paracetamol_batch
            Fixture.genuine _).
  reflexivity.
Defined.

Lemma find_app {A} (p : A → bool) (l l' : list A) :
  find p (l ++ l') = match find p l with Some x => Some x | None => find p l' end.
Proof. induction l as [|x l IH]; cbn; [done|]. by destruct (p x). Qed.

Lemma get_drug_info_eval batch_id w :
  World.db_fault w = None →
  fst (DrugInfo.get_drug_info batch_id w)
  = match stored w batch_id with
    | Some drug => inr drug
    | None => inl (HTTPException 404 [Lit "Batch ID not found"])
    end.
Proof.
  intros Hdb.
  unfold DrugInfo.get_drug_info, reraise_or_500, try_except, bind, Db.find_storage,
    Db.read, Db.call, stored.
  repeat (cbn; simpl_world; rewrite ?Hdb).
  by destruct (find _ _).
Qed.

(** X12: after a successful registration the batch can be read back: the
    lookup returns the document with the composition as it was submitted
    and the hash that was answered; that hash verifies against the stored
    composition; and any further registration under the same batch id is
    refused with 400. *)
Theorem registration_round_trip d w r w' :
  World.db_fault w = None →
  Drugs.register_drug d w = (inr r, w') →
  fst (DrugInfo.get_drug_info (DrugRegistrationRequest.batchId d) w')
  = inr (registered_storage_doc d (World.clock w))
  ∧ StorageDoc.compositionHash (registered_storage_doc d (World.clock w))
    = DrugRegistrationResponse.compositionHash r
  ∧ (∃ c', Hashing.verify_composition_hash
             (DrugComposition.dict (DrugRegistrationRequest.composition d))
             (DrugRegistrationResponse.compositionHash r)
           = inr (true, c'))
  ∧ ∀ d2, DrugRegistrationRequest.batchId d2 = DrugRegistrationRequest.batchId d →
          fst (Drugs.register_drug d2 w')
          = inl (HTTPException 400 [Lit "Batch ID already exists"]).
Proof.
  intros Hdb. rewrite (register_drug_eval d w Hdb).
  destruct (stored w _) as [s|] eqn:Hfree; [done|].
  destruct (negb _); [done|].
  destruct (rejection d w); [done|].
  destruct (Contract.registerDrug _ _ _ _ _ _ _) as [err|tx]; [done|].
  intros [= <- <-].
  destruct (registration_stored_facts d w) as (Hstorage & _ & _ & Hdb' & _).
  rewrite Hdb in Hdb'.
  assert (Hstored : stored (registration_stored d w) (DrugRegistrationRequest.batchId d)
                    = Some (registered_storage_doc d (World.clock w))).
  { unfold stored in *. rewrite Hstorage, find_app, Hfree. cbn.
    by rewrite String.eqb_refl. }
  split; [by rewrite (get_drug_info_eval _ _ Hdb'), Hstored|].
  split; [done|]. split.
  - destruct (generate_composition_hash_total (DrugRegistrationRequest.composition d))
      as [c' Hhash].
    exists c'. by apply verify_own_hash.
  - intros d2 Hid. rewrite (register_drug_eval d2 _ Hdb'), Hid. by rewrite Hstored.
Qed.

Lemma registration_round_trip_witness :
  fst (DrugInfo.get_drug_info "B3"
         (registration_stored Scenario.paracetamol_batch Fixture.genuine))
  = inr (registered_storage_doc Scenario.paracetamol_batch
           (World.clock Fixture.genuine))
  ∧ StorageDoc.compositionHash
      (registered_storage_doc Scenario.paracetamol_batch
         (World.clock Fixture.genuine))
    = DrugRegistrationResponse.compositionHash
        (registration_response Scenario.paracetamol_batch)
  ∧ (∃ c', Hashing.verify_composition_hash
             (DrugComposition.dict Fixture.paracetamol)
             (DrugRegistrationResponse.compositionHash
                (registration_response Scenario.paracetamol_batch))
           = inr (true, c'))
  ∧ ∀ d2, DrugRegistrationRequest.batchId d2 = "B3" →
          fst (Drugs.register_drug d2
                 (registration_stored Scenario.paracetamol_batch Fixture.genuine))
          = inl (HTTPException 400 [Lit "Batch ID already exists"]).
Proof.
  refine (registration_round_trip Scenario.paracetamol_batch Fixture.genuine
            (registration_response Scenario.paracetamol_batch)
            (registration_stored Scenario.paracetamol_batch Fixture.genuine) _ _).
  - reflexivity.
  - vm_compute. reflexivity.
Defined.

Lemma validate_drug_composition_eval d w entry :
  World.db_fault w = None →
  dataset_of w (DrugRegistrationRequest.drugName d) = Some entry →
  Drugs.validate_drug_composition (validation_request d) w
  = (inr {| CompositionValidationResponse.isValid := fst (fst (validated d entry));
            CompositionValidationResponse.message := snd (fst (validated d entry));
            CompositionValidationResponse.matchPercentage :=
              option_map Validation.matchPercentage (snd (validated d entry));
            CompositionValidationResponse.missingIngredients :=
              from_option Validation.missingIngredients [] (snd (validated d entry));
            CompositionValidationResponse.extraIngredients :=
              from_option Validation.extraIngredients [] (snd (validated d entry)) |},
     World.log (DbFind "drug_composition_dataset" (DrugRegistrationRequest.drugName d))
       w).
Proof.
  intros Hdb Hentry. unfold dataset_of in Hentry.
  unfold Drugs.validate_drug_composition, reraise_or_500, try_except, bind,
    Db.find_dataset, Db.read, Db.call, validated, validation_request.
  repeat (cbn -[Validation.validate_composition]; simpl_world;
          rewrite ?Hdb, ?Hentry).
  by destruct (Validation.validate_composition _ _ _) as [[v msg] det].
Qed.

(** X13: for a new batch id and a registered manufacturer, registration and
    the validation endpoint agree on a drug that has a dataset entry: when
    the endpoint answers [isValid] false, the registration is refused with
    400 and the endpoint's message; when it answers true, the registration
    is not refused with 400. *)
Theorem registration_agrees_with_validation d w m entry :
  World.db_fault w = None →
  stored w (DrugRegistrationRequest.batchId d) = None →
  user_of w (DrugRegistrationRequest.manufacturerAddress d) = Some m →
  UserDoc.role m = "MANUFACTURER" →
  dataset_of w (DrugRegistrationRequest.drugName d) = Some entry →
  ∃ resp w1,
    Drugs.validate_drug_composition (validation_request d) w = (inr resp, w1)
    ∧ (CompositionValidationResponse.isValid resp = false →
       fst (Drugs.register_drug d w)
       = inl (HTTPException 400
                (Lit "Composition validation failed: "
                 :: CompositionValidationResponse.message resp)))
    ∧ (CompositionValidationResponse.isValid resp = true →
       ∀ detail, fst (Drugs.register_drug d w) ≠ inl (HTTPException 400 detail)).
Proof.
  intros Hdb Hfree Hm Hrole Hentry.
  eexists _, _. split; [by apply validate_drug_composition_eval|].
  cbn [CompositionValidationResponse.isValid CompositionValidationResponse.message].
  rewrite (register_drug_eval d w Hdb), Hfree.
  unfold is_manufacturer, rejection. rewrite Hm, Hrole, Hentry. cbn [String.eqb negb].
  change (negb ("MANUFACTURER" =? "MANUFACTURER")%string) with false. cbn match.
  destruct (fst (fst (validated d entry))); split; try done.
  intros _ detail. by destruct (Contract.registerDrug _ _ _ _ _ _ _).
Qed.

Lemma registration_agrees_with_validation_witness :
  ∃ resp w1,
    Drugs.validate_drug_composition (validation_request Scenario.underdosed_batch)
      Fixture.genuine = (inr resp, w1)
    ∧ (CompositionValidationResponse.isValid resp = false →
       fst (Drugs.register_drug Scenario.underdosed_batch Fixture.genuine)
       = inl (HTTPException 400
                (Lit "Composition validation failed: "
                 :: CompositionValidationResponse.message resp)))
    ∧ (CompositionValidationResponse.isValid resp = true →
       ∀ detail,
         fst (Drugs.register_drug Scenario.underdosed_batch Fixture.genuine)
         ≠ inl (HTTPException 400 detail)).
Proof.
  refine (registration_agrees_with_validation Scenario.underdosed_batch
            Fixture.genuine Fixture.manufacturer
            {| DatasetDoc.drugName := "Paracetamol";
               DatasetDoc.standardComposition :=
                 Some (JObj (DrugComposition.dict Fixture.paracetamol)) |}
            _ _ _ _ _);
    reflexivity.
Defined.

Lemma names_of_ingredients (l : list DrugIngredient.t) :
  map_exn (λ ing, let? n := subscript ing "name" in lower_of n)
    (map DrugIngredient.dict l)
  = inr (map (λ i, lower (DrugIngredient.name i)) l).
Proof.
  induction l as [|i l IH]; cbn [map map_exn]; [done|].
  rewrite IH. reflexivity.
Qed.

Lemma ingredient_names_of_schema (c : DrugComposition.t) :
  Validation.ingredient_names (JObj (DrugComposition.dict c))
  = inr (list_to_set (map (λ i, lower (DrugIngredient.name i))
                        (DrugComposition.ingredients c))).
Proof.
  unfold Validation.ingredient_names, DrugComposition.dict, get_default.
  cbn [dict_get String.eqb Ascii.eqb Bool.eqb from_option id bind_exn iterate].
  by rewrite names_of_ingredients.
Qed.

(** X14: a dataset entry that carries no standard composition, or an empty
    one, blocks the drug: every registration under that drug name by a
    registered manufacturer is refused with 400 and a score of 0, whatever
    the composition is. *)
Theorem entry_without_standard_blocks_registration d w m entry :
  World.db_fault w = None →
  stored w (DrugRegistrationRequest.batchId d) = None →
  user_of w (DrugRegistrationRequest.manufacturerAddress d) = Some m →
  UserDoc.role m = "MANUFACTURER" →
  dataset_of w (DrugRegistrationRequest.drugName d) = Some entry →
  DatasetDoc.standardComposition entry = None
  ∨ DatasetDoc.standardComposition entry = Some (JObj []) →
  fst (Drugs.register_drug d w)
  = inl (HTTPException 400
           [Lit "Composition validation failed: ";
            Lit "Composition validation failed ("; Fixed1 0%float;
            Lit "% match)"]).
Proof.
  intros Hdb Hfree Hm Hrole Hentry Hnone.
  rewrite (register_drug_eval d w Hdb), Hfree.
  unfold is_manufacturer, rejection. rewrite Hm, Hrole, Hentry.
  change (negb ("MANUFACTURER" =? "MANUFACTURER")%string) with false. cbn match.
  assert (Hv : validated d entry
               = (false,
                  [Lit "Composition validation failed ("; Fixed1 0%float;
                   Lit "% match)"],
                  snd (validated d entry))).
  { unfold validated.
    assert (Hstd : from_option id (JObj []) (DatasetDoc.standardComposition entry)
                   = JObj []) by (by destruct Hnone as [-> | ->]).
    rewrite Hstd.
    rewrite (validate_composition_scores _ _ (JObj []) _ ∅
               (ingredient_names_of_schema _) eq_refl).
    unfold Validation.score. cbn [fst snd]. by rewrite size_empty. }
  by rewrite Hv.
Qed.

Lemma entry_without_standard_blocks_registration_witness :
  fst (Drugs.register_drug Fixture.ibuprofen_batch Scenario.entry_without_standard)
  = inl (HTTPException 400
           [Lit "Composition validation failed: ";
            Lit "Composition validation failed ("; Fixed1 0%float;
            Lit "% match)"]).
Proof.
  refine (entry_without_standard_blocks_registration Fixture.ibuprofen_batch
            Scenario.entry_without_standard Fixture.manufacturer
            {| DatasetDoc.drugName := "Ibuprofen";
               DatasetDoc.standardComposition := None |}
            _ _ _ _ _ _);
    try reflexivity.
  by left.
Defined.

End RegistrationLaws.

(** ** Users and transfers, in general *)

Section UsersAndTransfers.
Import BlockchainService Drugs.

Lemma register_user_eval inserted_id u w :
  World.db_fault w = None →
  Auth.register_user inserted_id u w
  = match user_of w (UserCreate.walletAddress u) with
    | Some _ =>
        (inl (HTTPException 400
                [Lit "User with this wallet address already registered"]),
         World.log (DbFind "users" (UserCreate.walletAddress u)) w)
    | None =>
        (inr {| Auth.Registered.userId := inserted_id;
                Auth.Registered.walletAddress := UserCreate.walletAddress u;
                Auth.Registered.role := RoleEnum.value (UserCreate.role u) |},
         user_registered u w)
    end.
Proof.
  intros Hdb.
  unfold Auth.register_user, Auth.insert_user, reraise_or_500, try_except, bind,
    Db.find_user, Db.read, Db.call, user_of, user_registered, user_doc_of.
  repeat (cbn; simpl_store; rewrite ?Hdb).
  destruct (find _ (World.users w)); [reflexivity|].
  repeat (cbn; simpl_store; rewrite ?Hdb). reflexivity.
Qed.

Lemma get_user_eval wallet w :
  World.db_fault w = None →
  fst (Auth.get_user wallet w)
  = match user_of w wallet with
    | Some user => inr (Auth.response_of user)
    | None => inl (HTTPException 404 [Lit "User not found"])
    end.
Proof.
  intros Hdb.
  unfold Auth.get_user, reraise_or_500, try_except, bind, Db.find_user, Db.read,
    Db.call, user_of.
  repeat (cbn; simpl_store; rewrite ?Hdb).
  by destruct (find _ (World.users w)).
Qed.

Lemma user_of_registered u w wallet :
  user_of w wallet = None →
  user_of (user_registered u w) wallet
  = if String.eqb (UserCreate.walletAddress u) wallet
    then Some (user_doc_of u) else None.
Proof.
  intros Hnone. unfold user_of, user_registered in *. simpl_store.
  rewrite find_app, Hnone. cbn. by destruct (String.eqb _ _).
Qed.

Lemma user_of_registered_other u w wallet :
  wallet ≠ UserCreate.walletAddress u →
  user_of (user_registered u w) wallet = user_of w wallet.
Proof.
  intros Hne. unfold user_of, user_registered in *. simpl_store.
  rewrite find_app. destruct (find _ (World.users w)); [done|]. cbn.
  destruct (String.eqb_spec (UserCreate.walletAddress u) wallet); [congruence|done].
Qed.

(** X15: a user who signs up under a wallet address that is not taken can
    be read back with the name of the role; signing up again under the same
    address is refused with 400 and changes no user; the users under other
    addresses are found as before. *)
Theorem user_registration_round_trip inserted_id u w :
  World.db_fault w = None →
  user_of w (UserCreate.walletAddress u) = None →
  ∃ w',
    Auth.register_user inserted_id u w
    = (inr {| Auth.Registered.userId := inserted_id;
              Auth.Registered.walletAddress := UserCreate.walletAddress u;
              Auth.Registered.role := RoleEnum.value (UserCreate.role u) |}, w')
    ∧ fst (Auth.get_user (UserCreate.walletAddress u) w')
      = inr {| Auth.UserResponse.walletAddress := UserCreate.walletAddress u;
               Auth.UserResponse.role := RoleEnum.value (UserCreate.role u);
               Auth.UserResponse.name := UserCreate.name u;
               Auth.UserResponse.isRegistered := true;
               Auth.UserResponse.registrationTimestamp := None |}
    ∧ (∀ id2 u2,
         UserCreate.walletAddress u2 = UserCreate.walletAddress u →
         fst (Auth.register_user id2 u2 w')
         = inl (HTTPException 400
                  [Lit "User with this wallet address already registered"])
         ∧ World.users (snd (Auth.register_user id2 u2 w')) = World.users w')
    ∧ ∀ wallet, wallet ≠ UserCreate.walletAddress u →
                user_of w' wallet = user_of w wallet.
Proof.
  intros Hdb Hfree. exists (user_registered u w).
  assert (Hdb' : World.db_fault (user_registered u w) = None) by exact Hdb.
  assert (Hfound : user_of (user_registered u w) (UserCreate.walletAddress u)
                   = Some (user_doc_of u)).
  { by rewrite (user_of_registered _ _ _ Hfree), String.eqb_refl. }
  split; [by rewrite (register_user_eval _ _ _ Hdb), Hfree|].
  split; [by rewrite (get_user_eval _ _ Hdb'), Hfound|].
  split.
  - intros id2 u2 Hsame. rewrite (register_user_eval _ _ _ Hdb'), Hsame, Hfound.
    by split.
  - intros wallet Hne. by apply user_of_registered_other.
Qed.

Lemma user_registration_round_trip_witness :
  ∃ w',
    Auth.register_user "65f0" Scenario.checksummed_pharmacy Fixture.genuine
    = (inr {| Auth.Registered.userId := "65f0";
              Auth.Registered.walletAddress := "0xDd";
              Auth.Registered.role := "PHARMACY" |}, w')
    ∧ fst (Auth.get_user "0xDd" w')
      = inr {| Auth.UserResponse.walletAddress := "0xDd";
               Auth.UserResponse.role := "PHARMACY";
               Auth.UserResponse.name := "High Street Pharmacy";
               Auth.UserResponse.isRegistered := true;
               Auth.UserResponse.registrationTimestamp := None |}
    ∧ (∀ id2 u2,
         UserCreate.walletAddress u2 = "0xDd" →
         fst (Auth.register_user id2 u2 w')
         = inl (HTTPException 400
                  [Lit "User with this wallet address already registered"])
         ∧ World.users (snd (Auth.register_user id2 u2 w')) = World.users w')
    ∧ ∀ wallet, wallet ≠ "0xDd" → user_of w' wallet = user_of Fixture.genuine wallet.
Proof.
  refine (user_registration_round_trip "65f0" Scenario.checksummed_pharmacy
            Fixture.genuine _ _);
    reflexivity.
Defined.

(** X16: a transfer request succeeds exactly when the batch has a record,
    both addresses, lower-cased, belong to users whose roles form one of the
    three legal pairs, and the ledger builds the transaction; it has then
    made one ledger call, with the addresses as they were given, and has
    changed neither the users nor the stored compositions. *)
Theorem transfer_succeeds_exactly_when t w :
  World.db_fault w = None →
  ((∃ r w', Drugs.transfer_ownership t w = (inr r, w'))
   ↔ (∃ b, batch_of w (OwnershipTransferRequest.batchId t) = Some b)
     ∧ (∃ from_user to_user,
          user_of w (lower (OwnershipTransferRequest.fromAddress t)) = Some from_user
          ∧ user_of w (lower (OwnershipTransferRequest.toAddress t)) = Some to_user
          ∧ legal_transfer (UserDoc.role from_user) (UserDoc.role to_user))
     ∧ (∃ tx, Contract.transferOwnership (World.contract w)
                (OwnershipTransferRequest.batchId t)
                (OwnershipTransferRequest.toAddress t)
                (OwnershipTransferRequest.location t)
                (OwnershipTransferRequest.fromAddress t) = inr tx))
  ∧ (∀ r w', Drugs.transfer_ownership t w = (inr r, w') →
       ledger_calls w'
       = ledger_calls w
         ++ [LedgerTransfer (OwnershipTransferRequest.batchId t)
               (OwnershipTransferRequest.toAddress t)
               (OwnershipTransferRequest.location t)
               (OwnershipTransferRequest.fromAddress t)]
       ∧ World.users w' = World.users w
       ∧ World.drug_composition_storage w' = World.drug_composition_storage w).
Proof.
  intros Hdb. rewrite (transfer_ownership_eval t w Hdb).
  destruct (batch_of w _) as [b|].
  2:{ split; [|by intros r w' [=]].
      split; [by intros (r & w' & [=])|by intros ((b & [=]) & _)]. }
  destruct (user_of w (lower (OwnershipTransferRequest.fromAddress t)))
    as [from_user|].
  2:{ split; [|by intros r w' [=]].
      split; [by intros (r & w' & [=])
             |by intros (_ & (f & u & [=] & _) & _)]. }
  destruct (user_of w (lower (OwnershipTransferRequest.toAddress t)))
    as [to_user|].
  2:{ split; [|by intros r w' [=]].
      split; [by intros (r & w' & [=])
             |by intros (_ & (f & u & _ & [=] & _) & _)]. }
  pose proof (in_valid_transfers_iff (UserDoc.role from_user) (UserDoc.role to_user))
    as Hlegal.
  destruct (in_valid_transfers _ _).
  2:{ split; [|by intros r w' [=]].
      split; [by intros (r & w' & [=])|].
      intros (_ & (f & u & [= <-] & [= <-] & Hl) & _).
      apply Hlegal in Hl. discriminate Hl. }
  destruct (Contract.transferOwnership _ _ _ _ _) as [err|tx].
  { split; [|by intros r w' [=]].
    split; [by intros (r & w' & [=])|by intros (_ & _ & (tx & [=]))]. }
  split.
  - split; [|by eauto]. intros _. split; [by eauto|]. split; [|by eauto].
    exists from_user, to_user. repeat split. by apply Hlegal.
  - intros r w' [= <- <-].
    unfold transfer_requested, users_looked_up, owner_updated.
    repeat split; simpl_store; try reflexivity.
    simpl_ledger_calls. reflexivity.
Qed.

Lemma transfer_succeeds_exactly_when_witness :
  ((∃ r w', Drugs.transfer_ownership Fixture.ship_to_distributor Fixture.genuine
            = (inr r, w'))
   ↔ (∃ b, batch_of Fixture.genuine "B1" = Some b)
     ∧ (∃ from_user to_user,
          user_of Fixture.genuine (lower "0xAA") = Some from_user
          ∧ user_of Fixture.genuine (lower "0xBB") = Some to_user
          ∧ legal_transfer (UserDoc.role from_user) (UserDoc.role to_user))
     ∧ (∃ tx, Contract.transferOwnership (World.contract Fixture.genuine)
                "B1" "0xBB" "Pune" "0xAA" = inr tx))
  ∧ (∀ r w', Drugs.transfer_ownership Fixture.ship_to_distributor Fixture.genuine
             = (inr r, w') →
       ledger_calls w'
       = ledger_calls Fixture.genuine ++ [LedgerTransfer "B1" "0xBB" "Pune" "0xAA"]
       ∧ World.users w' = World.users Fixture.genuine
       ∧ World.drug_composition_storage w'
         = World.drug_composition_storage Fixture.genuine).
Proof.
  refine (transfer_succeeds_exactly_when Fixture.ship_to_distributor
            Fixture.genuine _).
  reflexivity.
Defined.

(** X17: a user who signs up under an address with a capital letter is
    stored under that spelling, and transfers look users up under the
    lower-cased spelling: unless the lower-cased address is registered too,
    every transfer of an existing batch from or to that user is refused
    with 404, although the user is found by the user lookup. *)
Theorem mixed_case_wallet_cannot_transfer inserted_id u t w b :
  World.db_fault w = None →
  lower (UserCreate.walletAddress u) ≠ UserCreate.walletAddress u →
  user_of w (UserCreate.walletAddress u) = None →
  user_of w (lower (UserCreate.walletAddress u)) = None →
  batch_of w (OwnershipTransferRequest.batchId t) = Some b →
  OwnershipTransferRequest.fromAddress t = UserCreate.walletAddress u
  ∨ OwnershipTransferRequest.toAddress t = UserCreate.walletAddress u →
  ∃ registered w',
    Auth.register_user inserted_id u w = (inr registered, w')
    ∧ fst (Auth.get_user (UserCreate.walletAddress u) w')
      = inr (Auth.response_of (user_doc_of u))
    ∧ fst (Drugs.transfer_ownership t w')
      = inl (HTTPException 404 [Lit "One or both users not found"]).
Proof.
  intros Hdb Hmixed Hfree Hlower Hb Hparty.
  eexists _, (user_registered u w).
  assert (Hdb' : World.db_fault (user_registered u w) = None) by exact Hdb.
  split; [by rewrite (register_user_eval _ _ _ Hdb), Hfree|].
  split.
  { by rewrite (get_user_eval _ _ Hdb'), (user_of_registered _ _ _ Hfree),
      String.eqb_refl. }
  assert (Hnot : user_of (user_registered u w) (lower (UserCreate.walletAddress u))
                 = None).
  { rewrite (user_of_registered _ _ _ Hlower).
    destruct (String.eqb_spec (UserCreate.walletAddress u)
                (lower (UserCreate.walletAddress u))); [congruence|done]. }
  rewrite (transfer_ownership_eval t _ Hdb').
  change (batch_of (user_registered u w) (OwnershipTransferRequest.batchId t))
    with (batch_of w (OwnershipTransferRequest.batchId t)).
  rewrite Hb. destruct Hparty as [-> | ->]; rewrite Hnot; [done|].
  by destruct (user_of (user_registered u w)
                 (lower (OwnershipTransferRequest.fromAddress t))).
Qed.

Lemma mixed_case_wallet_cannot_transfer_witness :
  ∃ registered w',
    Auth.register_user "65f0" Scenario.checksummed_pharmacy Fixture.genuine
    = (inr registered, w')
    ∧ fst (Auth.get_user "0xDd" w')
      = inr (Auth.response_of (user_doc_of Scenario.checksummed_pharmacy))
    ∧ fst (Drugs.transfer_ownership Scenario.to_checksummed_pharmacy w')
      = inl (HTTPException 404 [Lit "One or both users not found"]).
Proof.
  refine (mixed_case_wallet_cannot_transfer "65f0" Scenario.checksummed_pharmacy
            Scenario.to_checksummed_pharmacy Fixture.genuine _ _ _ _ _ _ _).
  - reflexivity.
  - vm_compute. discriminate.
  - reflexivity.
  - reflexivity.
  - reflexivity.
  - by right.
Defined.

Lemma transfer_overwrites_owner_witness :
  ∃ b, batch_of Fixture.genuine "B1" = Some b
       ∧ BatchDoc.currentOwner b = "0xcc"
       ∧ batch_of (snd (Drugs.transfer_ownership Fixture.return_to_distributor
                          Fixture.genuine)) "B1"
         = Some (BatchDoc.set_owner "0xbb" (World.clock Fixture.genuine) b).
Proof.
  eexists. split; [reflexivity|]. split; [reflexivity|].
  refine (transfer_overwrites_owner Fixture.return_to_distributor Fixture.genuine
            _ _ _);
    reflexivity.
Defined.

End UsersAndTransfers.

(** ** What the writing routes keep *)

Section StoreInvariant.
Import BlockchainService Drugs.

Lemma find_none_not_in {A} (key : A → string) (k : string) (l : list A) :
  find (λ x, String.eqb (key x) k) l = None → k ∉ map key l.
Proof.
  induction l as [|x l IH]; cbn; [intros _; apply not_elem_of_nil|].
  destruct (String.eqb_spec (key x) k) as [|Hne]; [done|].
  intros Hl. apply not_elem_of_cons. split; [congruence|by apply IH].
Qed.

Lemma NoDup_snoc_keys {A} (key : A → string) (l : list A) (x : A) :
  NoDup (map key l) → key x ∉ map key l → NoDup (map key (l ++ [x])).
Proof.
  intros Hl Hx. rewrite map_app. apply NoDup_app. split; [done|]. split.
  - intros k Hk [->|[]%elem_of_nil]%elem_of_cons. done.
  - apply NoDup_singleton.
Qed.

Lemma update_first_keys {A} (key : A → string) (p : A → bool) (f : A → A) l :
  (∀ x, key (f x) = key x) → map key (Db.update_first p f l) = map key l.
Proof.
  intros Hf. induction l as [|x l IH]; cbn; [done|].
  destruct (p x); cbn; [by rewrite Hf|by rewrite IH].
Qed.

Lemma transfer_frame t w :
  World.db_fault w = None →
  World.users (snd (Drugs.transfer_ownership t w)) = World.users w
  ∧ World.drug_composition_storage (snd (Drugs.transfer_ownership t w))
    = World.drug_composition_storage w
  ∧ World.drug_composition_dataset (snd (Drugs.transfer_ownership t w))
    = World.drug_composition_dataset w.
Proof.
  intros Hdb. rewrite (transfer_ownership_eval t w Hdb).
  destruct (batch_of w _); [|done].
  destruct (user_of w (lower (OwnershipTransferRequest.fromAddress t)));
    destruct (user_of w (lower (OwnershipTransferRequest.toAddress t)));
    try done.
  destruct (in_valid_transfers _ _); [|done].
  by destruct (Contract.transferOwnership _ _ _ _ _).
Qed.

Lemma register_drug_frame d w :
  World.db_fault w = None →
  (World.drug_composition_storage (snd (Drugs.register_drug d w))
   = World.drug_composition_storage w
   ∧ World.drug_batches (snd (Drugs.register_drug d w)) = World.drug_batches w
   ∨ stored w (DrugRegistrationRequest.batchId d) = None
     ∧ World.drug_composition_storage (snd (Drugs.register_drug d w))
       = World.drug_composition_storage w
         ++ [registered_storage_doc d (World.clock w)]
     ∧ World.drug_batches (snd (Drugs.register_drug d w))
       = World.drug_batches w ++ [registered_batch_doc d (World.clock w)])
  ∧ World.users (snd (Drugs.register_drug d w)) = World.users w.
Proof.
  intros Hdb. rewrite (register_drug_eval d w Hdb).
  destruct (stored w _) as [s|]; [by split; [left|]|].
  destruct (negb _); [by split; [left|]|].
  destruct (rejection d w); [by split; [left|]|].
  destruct (Contract.registerDrug _ _ _ _ _ _ _); [by split; [left|]|].
  destruct (registration_stored_facts d w) as (? & ? & ? & _).
  split; [by right|done].
Qed.

(** X19: with the database reachable, the three routes that write keep the
    keys in order: if no wallet address and no batch id is stored twice and
    the batch records list the batch ids of the stored compositions, then
    the same holds after a user registration, a drug registration and a
    transfer request, whatever their outcome. *)
Theorem keys_stay_in_order w :
  World.db_fault w = None →
  keys_in_order w →
  (∀ inserted_id u, keys_in_order (snd (Auth.register_user inserted_id u w)))
  ∧ (∀ d, keys_in_order (snd (Drugs.register_drug d w)))
  ∧ (∀ t, keys_in_order (snd (Drugs.transfer_ownership t w))).
Proof.
  intros Hdb (Husers & Hstorage & Hbatches). repeat split.
  - rewrite (register_user_eval _ _ _ Hdb).
    destruct (user_of w _) eqn:Hfree; [done|].
    unfold user_registered. simpl_store.
    apply NoDup_snoc_keys; [done|].
    by apply (find_none_not_in UserDoc.walletAddress).
  - by rewrite (register_user_eval _ _ _ Hdb); destruct (user_of w _).
  - by rewrite (register_user_eval _ _ _ Hdb); destruct (user_of w _).
  - by rewrite (proj2 (register_drug_frame d w Hdb)).
  - destruct (proj1 (register_drug_frame d w Hdb)) as [[-> _]|(Hfree & -> & _)];
      [done|].
    apply NoDup_snoc_keys; [done|].
    by apply (find_none_not_in StorageDoc.batchId).
  - destruct (proj1 (register_drug_frame d w Hdb)) as [[-> ->]|(_ & -> & ->)];
      [done|].
    by rewrite !map_app, Hbatches.
  - by rewrite (proj1 (transfer_frame t w Hdb)).
  - destruct (transfer_frame t w Hdb) as (_ & -> & _). done.
  - destruct (transfer_frame t w Hdb) as (_ & -> & _).
    rewrite (batches_after_transfer t w Hdb). unfold owner_updated. simpl_store.
    by rewrite (update_first_keys BatchDoc.batchId).
Qed.

Lemma keys_stay_in_order_witness :
  (∀ inserted_id u,
     keys_in_order (snd (Auth.register_user inserted_id u Fixture.genuine)))
  ∧ (∀ d, keys_in_order (snd (Drugs.register_drug d Fixture.genuine)))
  ∧ (∀ t, keys_in_order (snd (Drugs.transfer_ownership t Fixture.genuine))).
Proof.
  refine (keys_stay_in_order Fixture.genuine _ _).
  - reflexivity.
  - split; [|split].
    + apply (bool_decide_unpack _). vm_compute. reflexivity.
    + apply (bool_decide_unpack _). vm_compute. reflexivity.
    + reflexivity.
Defined.

End StoreInvariant.

(** ** The verdict, in general *)

Section VerdictLaws.
Import BlockchainService Verification.

Lemma role_sequence_from_closed i records a :
  role_sequence_from i records a
  = {| anomalies := anomalies a ++ role_anomalies i records;
       status_text := status_text a |}.
Proof.
  revert i a. induction records as [|r rest IH]; intros i a; cbn.
  - rewrite app_nil_r. by destruct a.
  - rewrite IH. unfold same_role. destruct (String.eqb _ _); cbn; [|done].
    by rewrite <- app_assoc.
Qed.

Lemma check_zero_address_closed history a :
  check_zero_address history a
  = {| anomalies := anomalies a ++ zero_anomalies history;
       status_text := if existsb to_zero_address history then "FAKE"
                      else status_text a |}.
Proof.
  revert a. induction history as [|r rest IH]; intros a; cbn.
  - rewrite app_nil_r. by destruct a.
  - rewrite IH. unfold zero_anomalies. cbn [flat_map].
    destruct (to_zero_address r) eqn:Hr; unfold to_zero_address in Hr;
      rewrite Hr; cbn.
    + rewrite <- app_assoc. by destruct (existsb _ _).
    + done.
Qed.

Lemma role_anomalies_nil i records :
  existsb same_role records = false → role_anomalies i records = [].
Proof.
  revert i. induction records as [|r rest IH]; intros i; cbn; [done|].
  destruct (same_role r); cbn; [done|]. apply IH.
Qed.

Lemma role_anomalies_cons i records :
  existsb same_role records = true → role_anomalies i records ≠ [].
Proof.
  revert i. induction records as [|r rest IH]; intros i; cbn; [done|].
  destruct (same_role r); cbn; [done|]. apply IH.
Qed.

Lemma zero_anomalies_nil history :
  existsb to_zero_address history = false → zero_anomalies history = [].
Proof.
  unfold zero_anomalies.
  induction history as [|r rest IH]; cbn; [done|].
  destruct (to_zero_address r); cbn; [done|]. apply IH.
Qed.

(** The sequence of checks, in closed form. *)
Lemma analyse_closed bc history doc now :
  analyse bc history doc now
  = {| anomalies := expected_anomalies bc history doc now;
       status_text := expected_status bc history doc now |}.
Proof.
  unfold analyse, check_role_sequence.
  rewrite check_zero_address_closed, role_sequence_from_closed.
  unfold check_composition_hash, check_chain_completeness, check_expired,
    expected_anomalies, expected_status, hash_mismatch, expired_on_ledger,
    short_chain, final_status, initial, set_status, append_anomaly.
  cbn [anomalies status_text].
  assert (Hzeros : existsb to_zero_address history = false →
                   zero_anomalies history = []) by apply zero_anomalies_nil.
  assert (Hroles : existsb same_role (tail history) = false →
                   role_anomalies 1 (tail history) = [])
    by apply role_anomalies_nil.
  pose proof (role_anomalies_cons 1 (tail history)) as Hsome.
  destruct (existsb to_zero_address history);
    [|rewrite (Hzeros eq_refl); clear Hzeros];
    (destruct (existsb same_role (tail history));
     [specialize (Hsome eq_refl);
      destruct (role_anomalies 1 (tail history)) as [|x l]; [done|]
     |rewrite (Hroles eq_refl)]);
    destruct (ChainDrug.expiryDate bc <? now), (ChainDrug.transferCount bc <? 2);
    (destruct doc as [d|];
     [destruct (String.eqb (lower (StorageDoc.compositionHash d))
                  (lower (ChainDrug.compositionHash bc)))|]);
    cbn [anomalies status_text app length Nat.ltb Nat.leb andb orb negb
         String.eqb Ascii.eqb Bool.eqb];
    rewrite ?andb_false_r, ?app_nil_r; reflexivity.
Qed.

(** X20: the verdict for a batch the ledger knows, in closed form.  The
    status is FAKE if the stored hash differs from the ledger's or some
    record goes to the zero address; otherwise EXPIRED if the expiry date is
    past; otherwise INCOMPLETE_CHAIN if there are fewer than two transfers
    or a record after the first has equal roles; otherwise GENUINE.  The
    anomalies come in the order of the checks, and a history the ledger did
    not deliver counts as empty. *)
Theorem verdict_in_closed_form batch_id w bc :
  Contract.verifyDrug (World.contract w) batch_id = inr bc →
  World.db_fault w = None →
  ∃ v w',
    Verification.verify_drug batch_id w = (inr (DictOf v), w')
    ∧ Verdict.status v
      = expected_status bc (ledger_history w batch_id) (stored w batch_id)
          (World.clock w)
    ∧ Verdict.anomalies v
      = expected_anomalies bc (ledger_history w batch_id) (stored w batch_id)
          (World.clock w)
    ∧ Verdict.isGenuine v = String.eqb (Verdict.status v) "GENUINE"
    ∧ Verdict.ownershipHistory v = ledger_history w batch_id.
Proof.
  intros Hbc Hdb. eexists _, _. split; [by apply verify_drug_found|].
  unfold found. cbn [Verdict.status Verdict.anomalies Verdict.isGenuine
                     Verdict.ownershipHistory].
  by rewrite analyse_closed.
Qed.

Lemma verdict_in_closed_form_witness :
  ∃ v w',
    Verification.verify_drug "B1" Fixture.expired = (inr (DictOf v), w')
    ∧ Verdict.status v
      = expected_status (Fixture.on_chain 2 Fixture.paracetamol_hash)
          (ledger_history Fixture.expired "B1") (stored Fixture.expired "B1")
          (World.clock Fixture.expired)
    ∧ Verdict.anomalies v
      = expected_anomalies (Fixture.on_chain 2 Fixture.paracetamol_hash)
          (ledger_history Fixture.expired "B1") (stored Fixture.expired "B1")
          (World.clock Fixture.expired)
    ∧ Verdict.isGenuine v = String.eqb (Verdict.status v) "GENUINE"
    ∧ Verdict.ownershipHistory v = ledger_history Fixture.expired "B1".
Proof.
  refine (verdict_in_closed_form "B1" Fixture.expired
            (Fixture.on_chain 2 Fixture.paracetamol_hash) _ _);
    reflexivity.
Defined.

Lemma verify_drug_cases batch_id w v w' :
  Verification.verify_drug batch_id w = (inr (DictOf v), w') →
  v = not_found batch_id
  ∨ ∃ bc history doc now,
      v = found batch_id bc history doc (analyse bc history doc now).
Proof.
  unfold Verification.verify_drug, try_except, bind, BlockchainService.verify_drug,
    BlockchainService.get_drug_history, guarded, Db.find_storage, Db.read,
    Db.call, time_time, ret, raise.
  cbn.
  destruct (Contract.verifyDrug (World.contract w) batch_id) as [e|bc]; cbn.
  - intros [= <- _]. by left.
  - destruct (Contract.getDrugHistory (World.contract w) batch_id) as [e|h]; cbn;
      destruct (World.db_fault w); cbn; intros [= <- _] || intros [=];
      right; by eexists _, _, _, _.
Qed.

Lemma zero_anomalies_cons history :
  existsb to_zero_address history = true → zero_anomalies history ≠ [].
Proof.
  unfold zero_anomalies.
  induction history as [|r rest IH]; cbn; [done|].
  destruct (to_zero_address r); cbn; [done|]. apply IH.
Qed.

Lemma expected_status_values bc history doc now :
  expected_status bc history doc now = "GENUINE"
  ∨ expected_status bc history doc now = "EXPIRED"
  ∨ expected_status bc history doc now = "FAKE"
  ∨ expected_status bc history doc now = "INCOMPLETE_CHAIN".
Proof.
  unfold expected_status.
  destruct (_ || _); [by right; right; left|].
  destruct (expired_on_ledger _ _); [by right; left|].
  destruct (_ || _); [by right; right; right|by left].
Qed.

Lemma expected_genuine_iff bc history doc now :
  expected_status bc history doc now = "GENUINE"
  ↔ expected_anomalies bc history doc now = [].
Proof.
  unfold expected_status, expected_anomalies.
  pose proof (role_anomalies_nil 1 (tail history)) as Hr0.
  pose proof (role_anomalies_cons 1 (tail history)) as Hr1.
  pose proof (zero_anomalies_nil history) as Hz0.
  pose proof (zero_anomalies_cons history) as Hz1.
  destruct (hash_mismatch doc bc), (existsb to_zero_address history),
    (expired_on_ledger bc now), (short_chain bc),
    (existsb same_role (tail history));
    cbn [orb app]; split; try done;
    rewrite ?(Hr0 eq_refl), ?(Hz0 eq_refl); try done;
    intros Hnil; repeat (apply app_eq_nil in Hnil as [? Hnil]);
    try done; try (by destruct (Hr1 eq_refl)); try (by destruct (Hz1 eq_refl)).
Qed.

(** X21: in every verdict [verify_drug] returns, [isGenuine] is true
    exactly when the status is GENUINE, and the status is GENUINE exactly
    when no anomaly is listed; the status is one of GENUINE, EXPIRED, FAKE
    and INCOMPLETE_CHAIN. *)
Theorem genuine_iff_no_anomaly batch_id w v w' :
  Verification.verify_drug batch_id w = (inr (DictOf v), w') →
  (Verdict.isGenuine v = true ↔ Verdict.status v = "GENUINE")
  ∧ (Verdict.status v = "GENUINE" ↔ Verdict.anomalies v = [])
  ∧ (Verdict.status v = "GENUINE" ∨ Verdict.status v = "EXPIRED"
     ∨ Verdict.status v = "FAKE" ∨ Verdict.status v = "INCOMPLETE_CHAIN").
Proof.
  intros [->|(bc & history & doc & now & ->)]%verify_drug_cases.
  - cbn. repeat split; try done. by right; right; left.
  - unfold found. cbn [Verdict.status Verdict.anomalies Verdict.isGenuine].
    rewrite analyse_closed. cbn [status_text anomalies].
    split; [apply String.eqb_eq|]. split; [apply expected_genuine_iff|].
    apply expected_status_values.
Qed.

Lemma genuine_iff_no_anomaly_witness :
  let v := found "B1" (Fixture.on_chain 2 Fixture.paracetamol_hash)
             (ledger_history Fixture.genuine "B1") (stored Fixture.genuine "B1")
             {| anomalies := []; status_text := "GENUINE" |} in
  (Verdict.isGenuine v = true ↔ Verdict.status v = "GENUINE")
  ∧ (Verdict.status v = "GENUINE" ↔ Verdict.anomalies v = [])
  ∧ (Verdict.status v = "GENUINE" ∨ Verdict.status v = "EXPIRED"
     ∨ Verdict.status v = "FAKE" ∨ Verdict.status v = "INCOMPLETE_CHAIN").
Proof.
  refine (genuine_iff_no_anomaly "B1" Fixture.genuine _
            (after_verify "B1" Fixture.genuine) _).
  vm_compute. reflexivity.
Defined.

(** X22: a batch with at least two transfers that is not expired, has no
    hash mismatch (or no stored composition at all), no record to the zero
    address and no equal roles in a record after the first is GENUINE with
    an empty anomaly list: the roles of the first record are not looked
    at. *)
Theorem genuine_verdict_ignores_first_roles batch_id w bc :
  Contract.verifyDrug (World.contract w) batch_id = inr bc →
  World.db_fault w = None →
  2 ≤ ChainDrug.transferCount bc →
  World.clock w ≤ ChainDrug.expiryDate bc →
  hash_mismatch (stored w batch_id) bc = false →
  existsb to_zero_address (ledger_history w batch_id) = false →
  existsb same_role (tail (ledger_history w batch_id)) = false →
  ∃ v w',
    Verification.verify_drug batch_id w = (inr (DictOf v), w')
    ∧ Verdict.status v = "GENUINE"
    ∧ Verdict.isGenuine v = true
    ∧ Verdict.anomalies v = [].
Proof.
  intros Hbc Hdb Hcount Hfresh Hhash Hzero Hroles.
  eexists _, _. split; [by apply verify_drug_found|].
  unfold found. cbn [Verdict.status Verdict.anomalies Verdict.isGenuine].
  rewrite analyse_closed. cbn [status_text anomalies].
  unfold expected_status, expected_anomalies, expired_on_ledger, short_chain.
  rewrite Hhash, Hzero, Hroles, (role_anomalies_nil _ _ Hroles),
    (zero_anomalies_nil _ Hzero).
  replace (ChainDrug.expiryDate bc <? World.clock w) with false
    by (symmetry; apply Z.ltb_ge; lia).
  replace (ChainDrug.transferCount bc <? 2) with false
    by (symmetry; apply Z.ltb_ge; lia).
  done.
Qed.

Lemma genuine_verdict_ignores_first_roles_witness :
  ∃ v w',
    Verification.verify_drug "B1" Scenario.relabelled = (inr (DictOf v), w')
    ∧ Verdict.status v = "GENUINE"
    ∧ Verdict.isGenuine v = true
    ∧ Verdict.anomalies v = [].
Proof.
  refine (genuine_verdict_ignores_first_roles "B1" Scenario.relabelled
            (Fixture.on_chain 2 Fixture.paracetamol_hash) _ _ _ _ _ _ _).
  - reflexivity.
  - reflexivity.
  - vm_compute. discriminate.
  - vm_compute. discriminate.
  - vm_compute. reflexivity.
  - vm_compute. reflexivity.
  - vm_compute. reflexivity.
Defined.

(** X23: registration and verification fit together: for a batch just
    registered, if the ledger reports the hash the registration sent, in
    whatever letter case, the verdict returns the composition as it was
    submitted and is FAKE only if the history holds a record to the zero
    address. *)
Theorem registered_hash_is_never_a_mismatch d w r w' bc :
  World.db_fault w = None →
  Drugs.register_drug d w = (inr r, w') →
  Contract.verifyDrug (World.contract w') (DrugRegistrationRequest.batchId d)
  = inr bc →
  lower (ChainDrug.compositionHash bc)
  = lower (Drugs.DrugRegistrationResponse.compositionHash r) →
  ∃ v w'',
    Verification.verify_drug (DrugRegistrationRequest.batchId d) w'
    = (inr (DictOf v), w'')
    ∧ Verdict.composition v
      = Some (JObj (DrugComposition.dict (DrugRegistrationRequest.composition d)))
    ∧ (Verdict.status v = "FAKE"
       ↔ existsb to_zero_address
           (ledger_history w' (DrugRegistrationRequest.batchId d)) = true).
Proof.
  intros Hdb Hreg Hbc Hecho.
  rewrite (register_drug_eval d w Hdb) in Hreg.
  destruct (stored w _) as [s|] eqn:Hfree; [done|].
  destruct (negb _); [done|].
  destruct (rejection d w); [done|].
  destruct (Contract.registerDrug _ _ _ _ _ _ _) as [err|tx]; [done|].
  injection Hreg as <- <-.
  destruct (registration_stored_facts d w) as (Hstorage & _ & _ & Hdb' & _).
  rewrite Hdb in Hdb'.
  assert (Hstored : stored (registration_stored d w) (DrugRegistrationRequest.batchId d)
                    = Some (registered_storage_doc d (World.clock w))).
  { unfold stored in *. rewrite Hstorage, find_app, Hfree. cbn.
    by rewrite String.eqb_refl. }
  eexists _, _. split; [by apply verify_drug_found|].
  unfold found. cbn [Verdict.status Verdict.composition].
  rewrite analyse_closed, Hstored. cbn [status_text option_map]. split; [done|].
  unfold expected_status, hash_mismatch.
  cbn [StorageDoc.compositionHash registered_storage_doc].
  cbn [Drugs.DrugRegistrationResponse.compositionHash registration_response] in Hecho.
  rewrite Hecho, String.eqb_refl. cbn [negb orb].
  destruct (existsb to_zero_address _); [done|].
  split; [|done].
  destruct (expired_on_ledger _ _); [done|]. by destruct (_ || _).
Qed.

Lemma registered_hash_is_never_a_mismatch_witness :
  ∃ v w'',
    Verification.verify_drug "B3"
      (registration_stored Scenario.paracetamol_batch Scenario.ledger_with_B3)
    = (inr (DictOf v), w'')
    ∧ Verdict.composition v = Some (JObj (DrugComposition.dict Fixture.paracetamol))
    ∧ (Verdict.status v = "FAKE"
       ↔ existsb to_zero_address
           (ledger_history
              (registration_stored Scenario.paracetamol_batch
                 Scenario.ledger_with_B3) "B3") = true).
Proof.
  refine (registered_hash_is_never_a_mismatch Scenario.paracetamol_batch
            Scenario.ledger_with_B3
            (registration_response Scenario.paracetamol_batch)
            (registration_stored Scenario.paracetamol_batch Scenario.ledger_with_B3)
            (Fixture.on_chain 0 Fixture.paracetamol_hash) _ _ _ _).
  - reflexivity.
  - vm_compute. reflexivity.
  - reflexivity.
  - vm_compute. reflexivity.
Defined.

End VerdictLaws.

(** ** The ownership history *)

Section HistoryLaws.
Import BlockchainService.

Lemma role_name_unknown n :
  _role_enum_to_string n = "UNKNOWN" ↔ ¬ (0 ≤ n ≤ 5).
Proof.
  destruct n as [|p|p]; cbn; [split; [done|lia]| |split; [lia|done]].
  destruct p as [[[p|p|]|[p|p|]|]|[[p|p|]|[p|p|]|]|]; cbn;
    split; (done || lia).
Qed.

Lemma role_name_injective n m :
  0 ≤ n ≤ 5 → _role_enum_to_string n = _role_enum_to_string m → n = m.
Proof.
  intros Hn Heq.
  destruct (decide (0 ≤ m ≤ 5)) as [Hm|Hm].
  - assert (Hcases : ∀ k, 0 ≤ k ≤ 5 →
                          k = 0 ∨ k = 1 ∨ k = 2 ∨ k = 3 ∨ k = 4 ∨ k = 5)
      by (intros; lia).
    destruct (Hcases n Hn) as [->|[->|[->|[->|[->| ->]]]]];
      destruct (Hcases m Hm) as [->|[->|[->|[->|[->| ->]]]]];
      done.
  - apply role_name_unknown in Hm. rewrite Hm in Heq.
    apply role_name_unknown in Heq. lia.
Qed.

(** X30: the history as the service formats it.  The history request
    answers 404 exactly when the ledger's call fails and otherwise returns
    the ledger's records in order, the role numbers replaced by names; a
    role number outside 0..5 becomes UNKNOWN, so a formatted record has
    equal roles exactly when its role numbers are equal or both are
    outside 0..5. *)
Theorem formatted_history batch_id w (record : ChainTransfer.t) :
  fst (History.get_ownership_history batch_id w)
  = match Contract.getDrugHistory (World.contract w) batch_id with
    | inr history =>
        inr {| History.Response.success := true;
               History.Response.batchId := batch_id;
               History.Response.history := map format_record history |}
    | inl _ =>
        inl (HTTPException 404 [Lit "Batch ID not found or history unavailable"])
    end
  ∧ (_role_enum_to_string (ChainTransfer.fromRole record) = "UNKNOWN"
     ↔ ¬ (0 ≤ ChainTransfer.fromRole record ≤ 5))
  ∧ (same_role (format_record record) = true
     ↔ ChainTransfer.fromRole record = ChainTransfer.toRole record
       ∨ (¬ (0 ≤ ChainTransfer.fromRole record ≤ 5)
          ∧ ¬ (0 ≤ ChainTransfer.toRole record ≤ 5))).
Proof.
  split; [|split; [apply role_name_unknown|]].
  - unfold History.get_ownership_history, reraise_or_500, try_except, bind,
      get_drug_history, guarded.
    cbn. by destruct (Contract.getDrugHistory _ _).
  - unfold same_role, format_record. cbn [OwnershipRecord.fromRole OwnershipRecord.toRole].
    rewrite String.eqb_eq. split.
    + intros Heq.
      destruct (decide (0 ≤ ChainTransfer.fromRole record ≤ 5)) as [Hn|Hn].
      * left. by apply role_name_injective.
      * right. split; [done|]. apply role_name_unknown.
        apply role_name_unknown in Hn. congruence.
    + intros [->|[Hn Hm]]; [done|].
      apply role_name_unknown in Hn, Hm. congruence.
Qed.

End HistoryLaws.

(** ** Requests that only read *)

Section ReadOnly.
Import BlockchainService.

Lemma logged_app evs1 evs2 w : logged (evs1 ++ evs2) w = logged evs2 (logged evs1 w).
Proof. apply fold_left_app. Qed.

Lemma reads_only_ret {A} (a : A) : reads_only (ret a).
Proof. intros w. by exists []. Qed.

Lemma reads_only_raise {A} e : reads_only (raise (A := A) e).
Proof. intros w. by exists []. Qed.

Lemma reads_only_lift {A} (r : exn + A) : reads_only (lift r).
Proof. intros w. by exists []. Qed.

Lemma reads_only_time_time : reads_only time_time.
Proof. intros w. by exists []. Qed.

Lemma reads_only_bind {A B} (m : M A) (k : A → M B) :
  reads_only m → (∀ a, reads_only (k a)) → reads_only (bind m k).
Proof.
  intros Hm Hk w. unfold bind. destruct (Hm w) as [evs1 H1].
  destruct (m w) as [[e|a] w1]; cbn [snd] in *; subst w1; [by exists evs1|].
  destruct (Hk a (logged evs1 w)) as [evs2 H2].
  exists (evs1 ++ evs2). by rewrite logged_app.
Qed.

Lemma reads_only_try_except {A} (m : M A) (handler : exn → M A) :
  reads_only m → (∀ e, reads_only (handler e)) → reads_only (try_except m handler).
Proof.
  intros Hm Hh w. unfold try_except. destruct (Hm w) as [evs1 H1].
  destruct (m w) as [[e|a] w1]; cbn [snd] in *; subst w1; [|by exists evs1].
  destruct (Hh e (logged evs1 w)) as [evs2 H2].
  exists (evs1 ++ evs2). by rewrite logged_app.
Qed.

Lemma reads_only_reraise_or_500 {A} prefix (m : M A) :
  reads_only m → reads_only (reraise_or_500 prefix m).
Proof.
  intros Hm. apply reads_only_try_except; [done|].
  intros e. destruct (is_HTTPException e); apply reads_only_raise.
Qed.

Lemma reads_only_read {A} ev (f : World.t → A) : reads_only (Db.read ev f).
Proof.
  intros w. exists [ev]. unfold Db.read, Db.call. cbn.
  by destruct (World.db_fault _).
Qed.

Lemma reads_only_guarded {A} ev (call : Contract.t → exn + A) :
  reads_only (guarded ev call).
Proof. intros w. exists [ev]. unfold guarded. cbn. by destruct (call _). Qed.

Lemma reads_only_for_each {A S} (xs : list A) (body : A → S → M S) acc :
  (∀ x acc, reads_only (body x acc)) → reads_only (for_each xs body acc).
Proof.
  intros Hbody. revert acc. induction xs as [|x xs IH]; intros acc; cbn [for_each].
  - apply reads_only_ret.
  - apply reads_only_bind; [apply Hbody|]. intros acc'. apply IH.
Qed.

Ltac reads_only_step :=
  lazymatch goal with
  | |- reads_only (bind _ _) => apply reads_only_bind; [|intros ?]
  | |- reads_only (try_except _ _) => apply reads_only_try_except; [|intros ?]
  | |- reads_only (reraise_or_500 _ _) => apply reads_only_reraise_or_500
  | |- reads_only (ret _) => apply reads_only_ret
  | |- reads_only (raise _) => apply reads_only_raise
  | |- reads_only (lift _) => apply reads_only_lift
  | |- reads_only time_time => apply reads_only_time_time
  | |- reads_only (Db.read _ _) => apply reads_only_read
  | |- reads_only (guarded _ _) => apply reads_only_guarded
  | |- reads_only (for_each _ _ _) => apply reads_only_for_each; intros ? ?
  | |- reads_only (match ?x with _ => _ end) => destruct x
  | |- reads_only (if ?x then _ else _) => destruct x
  | |- reads_only (let '(_, _) := ?x in _) => destruct x
  end.

Lemma reads_only_verify_drug batch_id : reads_only (Verification.verify_drug batch_id).
Proof.
  unfold Verification.verify_drug, BlockchainService.verify_drug,
    get_drug_history, Db.find_storage.
  repeat reads_only_step.
Qed.

(** X25: the requests that report, look up, verify or validate change
    nothing: after each of them the world is the world before with the
    calls it made added to the log, whatever the collaborators answered. *)
Theorem reading_routes_write_nothing :
  (∀ batch_id, reads_only (Verification.verify_drug batch_id))
  ∧ (∀ batch_ids, reads_only (Verification.batch_verify_drugs batch_ids))
  ∧ (∀ batch_id, reads_only (History.get_ownership_history batch_id))
  ∧ reads_only Audit.get_audit_statistics
  ∧ reads_only AuditReports.get_drugs_with_anomalies
  ∧ reads_only AuditReports.get_expired_drugs
  ∧ (∀ wallet, reads_only (AuditReports.get_user_activity wallet))
  ∧ (∀ wallet, reads_only (Auth.get_user wallet))
  ∧ reads_only Auth.get_all_users
  ∧ (∀ batch_id, reads_only (DrugInfo.get_drug_info batch_id))
  ∧ (∀ request, reads_only (Drugs.validate_drug_composition request)).
Proof.
  repeat split; intros.
  - apply reads_only_verify_drug.
  - unfold Verification.batch_verify_drugs, Verification.batch_verify_one.
    repeat first [apply reads_only_verify_drug | reads_only_step].
  - unfold History.get_ownership_history, get_drug_history.
    repeat reads_only_step.
  - unfold Audit.get_audit_statistics, Audit.audit_one, Db.count_storage,
      Db.count_users, Db.scan_storage, BlockchainService.verify_drug.
    repeat reads_only_step.
  - unfold AuditReports.get_drugs_with_anomalies, AuditReports.report_one,
      Db.scan_storage, BlockchainService.verify_drug.
    repeat reads_only_step.
  - unfold AuditReports.get_expired_drugs, AuditReports.scan_expired.
    repeat reads_only_step.
  - unfold AuditReports.get_user_activity, AuditReports.scan_by_manufacturer,
      Db.find_user.
    repeat reads_only_step.
  - unfold Auth.get_user, Db.find_user. repeat reads_only_step.
  - unfold Auth.get_all_users. repeat reads_only_step.
  - unfold DrugInfo.get_drug_info, Db.find_storage. repeat reads_only_step.
  - unfold Drugs.validate_drug_composition, Db.find_dataset.
    repeat reads_only_step.
Qed.

End ReadOnly.

(** ** The database out of reach *)

Section DatabaseDown.
Import BlockchainService.

(** X26: when every database call raises an exception [e], each route that
    starts with a database call answers 500 with its own prefix and [str(e)],
    has written nothing and has not called the ledger.  Verification asks
    the ledger first: a batch the ledger knows gets 500, a batch it does not
    know still gets the FAKE verdict. *)
Theorem database_down_is_500 w e :
  World.db_fault w = Some e →
  is_HTTPException e = false →
  (∀ d, Drugs.register_drug d w
        = (inl (HTTPException 500 [Lit "Drug registration failed: "; StrOf e]),
           batch_looked_up d w))
  ∧ (∀ t, Drugs.transfer_ownership t w
          = (inl (HTTPException 500 [Lit "Ownership transfer failed: "; StrOf e]),
             World.log (DbFind "drug_batches" (OwnershipTransferRequest.batchId t))
               w))
  ∧ (∀ inserted_id u,
       Auth.register_user inserted_id u w
       = (inl (HTTPException 500 [Lit "User registration failed: "; StrOf e]),
          World.log (DbFind "users" (UserCreate.walletAddress u)) w))
  ∧ (∀ request,
       fst (Drugs.validate_drug_composition request w)
       = inl (HTTPException 500 [Lit "Composition validation failed: "; StrOf e]))
  ∧ fst (Audit.get_audit_statistics w)
    = inl (HTTPException 500
             [Lit "Failed to retrieve audit statistics: "; StrOf e])
  ∧ (∀ batch_id bc,
       Contract.verifyDrug (World.contract w) batch_id = inr bc →
       fst (Verification.verify_drug batch_id w)
       = inl (HTTPException 500 [Lit "Verification failed: "; StrOf e]))
  ∧ (∀ batch_id err,
       Contract.verifyDrug (World.contract w) batch_id = inl err →
       fst (Verification.verify_drug batch_id w)
       = inr (DictOf (Verification.not_found batch_id))).
Proof.
  intros Hdb Hexn. repeat split.
  - intros d.
    unfold Drugs.register_drug, reraise_or_500, try_except, bind, Db.find_storage,
      Db.read, Db.call, batch_looked_up.
    repeat (cbn; simpl_store; rewrite ?Hdb, ?Hexn). reflexivity.
  - intros t.
    unfold Drugs.transfer_ownership, reraise_or_500, try_except, bind,
      Db.find_batch, Db.read, Db.call.
    repeat (cbn; simpl_store; rewrite ?Hdb, ?Hexn). reflexivity.
  - intros inserted_id u.
    unfold Auth.register_user, reraise_or_500, try_except, bind, Db.find_user,
      Db.read, Db.call.
    repeat (cbn; simpl_store; rewrite ?Hdb, ?Hexn). reflexivity.
  - intros request.
    unfold Drugs.validate_drug_composition, reraise_or_500, try_except, bind,
      Db.find_dataset, Db.read, Db.call.
    repeat (cbn; simpl_store; rewrite ?Hdb, ?Hexn). reflexivity.
  - unfold Audit.get_audit_statistics, try_except, bind, Db.count_storage,
      Db.read, Db.call.
    repeat (cbn; simpl_store; rewrite ?Hdb, ?Hexn). reflexivity.
  - intros batch_id bc Hbc.
    unfold Verification.verify_drug, try_except, bind,
      BlockchainService.verify_drug, get_drug_history, guarded, Db.find_storage,
      Db.read, Db.call.
    cbn. rewrite Hbc. cbn.
    destruct (Contract.getDrugHistory _ _);
      repeat (cbn; simpl_store; rewrite ?Hdb); reflexivity.
  - intros batch_id err Hbc. by rewrite (verify_drug_missing _ _ _ Hbc).
Qed.

Lemma database_down_is_500_witness :
  let e := PyError "ServerSelectionTimeoutError" "connection refused" in
  (∀ d, Drugs.register_drug d Scenario.database_down
        = (inl (HTTPException 500 [Lit "Drug registration failed: "; StrOf e]),
           batch_looked_up d Scenario.database_down))
  ∧ (∀ t, Drugs.transfer_ownership t Scenario.database_down
          = (inl (HTTPException 500 [Lit "Ownership transfer failed: "; StrOf e]),
             World.log (DbFind "drug_batches" (OwnershipTransferRequest.batchId t))
               Scenario.database_down))
  ∧ (∀ inserted_id u,
       Auth.register_user inserted_id u Scenario.database_down
       = (inl (HTTPException 500 [Lit "User registration failed: "; StrOf e]),
          World.log (DbFind "users" (UserCreate.walletAddress u))
            Scenario.database_down))
  ∧ (∀ request,
       fst (Drugs.validate_drug_composition request Scenario.database_down)
       = inl (HTTPException 500 [Lit "Composition validation failed: "; StrOf e]))
  ∧ fst (Audit.get_audit_statistics Scenario.database_down)
    = inl (HTTPException 500
             [Lit "Failed to retrieve audit statistics: "; StrOf e])
  ∧ (∀ batch_id bc,
       Contract.verifyDrug (World.contract Scenario.database_down) batch_id
       = inr bc →
       fst (Verification.verify_drug batch_id Scenario.database_down)
       = inl (HTTPException 500 [Lit "Verification failed: "; StrOf e]))
  ∧ (∀ batch_id err,
       Contract.verifyDrug (World.contract Scenario.database_down) batch_id
       = inl err →
       fst (Verification.verify_drug batch_id Scenario.database_down)
       = inr (DictOf (Verification.not_found batch_id))).
Proof.
  refine (database_down_is_500 Scenario.database_down
            (PyError "ServerSelectionTimeoutError" "connection refused") _ _);
    reflexivity.
Defined.

End DatabaseDown.

(** ** The audit reports, in general *)

Section ReportLaws.
Import BlockchainService Audit AuditReports.

Lemma report_one_closed now drug acc w :
  report_one now drug acc w
  = (inr (acc ++ from_option (λ x, [x]) [] (report_entry (World.contract w) now drug)),
     World.log (LedgerVerify (StorageDoc.batchId drug)) w).
Proof.
  unfold report_one, try_except, bind, BlockchainService.verify_drug, guarded,
    report_entry, expired_in_store.
  cbn.
  destruct (Contract.verifyDrug (World.contract w) (StorageDoc.batchId drug))
    as [e|v]; cbn; [done|].
  destruct (StorageDoc.expiryDate drug <? now), (ChainDrug.transferCount v <? 2);
    cbn; by rewrite ?app_nil_r.
Qed.

Lemma for_each_report now drugs acc w :
  ∃ w', for_each drugs (report_one now) acc w
        = (inr (acc ++ omap (report_entry (World.contract w) now) drugs), w').
Proof.
  revert acc w. induction drugs as [|d drugs IH]; intros acc w; cbn [for_each].
  - exists w. cbn. by rewrite app_nil_r.
  - unfold bind. rewrite report_one_closed.
    edestruct IH as (w' & ->). exists w'. cbn [World.contract World.log].
    rewrite <- app_assoc. cbn [omap list_omap].
    by destruct (report_entry (World.contract w) now d).
Qed.

Lemma length_omap_count {A B} (f : A → option B) (l : list A) :
  length (omap f l) = count_if (λ x, if f x is Some _ then true else false) l.
Proof.
  unfold count_if. induction l as [|x l IH]; cbn; [done|].
  destruct (f x) as [y|]; cbn; by rewrite IH.
Qed.

Lemma count_if_ext {A} (p q : A → bool) (l : list A) :
  (∀ x, p x = q x) → count_if p l = count_if q l.
Proof.
  intros Hpq. unfold count_if. induction l as [|x l IH]; cbn; [done|].
  rewrite Hpq. destruct (q x); cbn; by rewrite IH.
Qed.

Lemma count_if_or {A} (p q : A → bool) (l : list A) :
  (count_if p l ≤ count_if (λ x, p x || q x) l
   ∧ count_if (λ x, p x || q x) l ≤ count_if p l + count_if q l)%nat.
Proof.
  unfold count_if. induction l as [|x l IH]; cbn; [lia|].
  destruct (p x), (q x); cbn; lia.
Qed.

Lemma reported_iff c now drug :
  (if report_entry c now drug is Some _ then true else false)
  = anomalous_on_ledger c (StorageDoc.batchId drug) || expired_in_store now drug.
Proof.
  unfold report_entry, anomalous_on_ledger.
  destruct (Contract.verifyDrug c (StorageDoc.batchId drug)) as [e|v]; [done|].
  rewrite orb_comm. by destruct (_ || _).
Qed.

Lemma get_audit_statistics_eval w :
  World.db_fault w = None →
  ∃ w',
    get_audit_statistics w
    = (inr {| AuditStatistics.totalDrugs := length (World.drug_composition_storage w);
              AuditStatistics.totalUsers := length (World.users w);
              AuditStatistics.totalTransfers := 0;
              AuditStatistics.drugsWithAnomalies :=
                count_if (λ d, anomalous_on_ledger (World.contract w)
                                 (StorageDoc.batchId d))
                  (take 1000 (World.drug_composition_storage w));
              AuditStatistics.expiredDrugs :=
                count_if (expired_in_store (World.clock w))
                  (take 1000 (World.drug_composition_storage w)) |}, w').
Proof.
  intros Hdb.
  unfold get_audit_statistics, try_except, bind, Db.count_storage, Db.count_users,
    Db.scan_storage, Db.read, Db.call, time_time.
  repeat (cbn; simpl_world; rewrite ?Hdb).
  edestruct for_each_audit as (w' & ->). by exists w'.
Qed.

(** X27: the anomaly report, in closed form.  It lists, in stored order and
    among the first 1000 stored batches, those for which the ledger call
    failed, those past their expiry date, and those with fewer than two
    transfers; a failed call is reported as such whatever the expiry date
    is, and an expired batch as Expired whatever its transfer count is.  So
    the report has at least as many entries as the statistics count
    anomalous batches, and at most as many as they count anomalous and
    expired batches together. *)
Theorem anomaly_report_in_closed_form w :
  World.db_fault w = None →
  ∃ report stats w1 w2,
    get_drugs_with_anomalies w = (inr report, w1)
    ∧ get_audit_statistics w = (inr stats, w2)
    ∧ report = omap (report_entry (World.contract w) (World.clock w))
                 (take 1000 (World.drug_composition_storage w))
    ∧ length report
      = count_if (λ d, anomalous_on_ledger (World.contract w) (StorageDoc.batchId d)
                       || expired_in_store (World.clock w) d)
          (take 1000 (World.drug_composition_storage w))
    ∧ (AuditStatistics.drugsWithAnomalies stats ≤ length report)%nat
    ∧ (length report
       ≤ AuditStatistics.drugsWithAnomalies stats
         + AuditStatistics.expiredDrugs stats)%nat.
Proof.
  intros Hdb.
  destruct (get_audit_statistics_eval w Hdb) as (w2 & Hstats).
  unfold get_drugs_with_anomalies, try_except, bind, Db.scan_storage, Db.read,
    Db.call, time_time.
  repeat (cbn; simpl_world; rewrite ?Hdb).
  edestruct for_each_report as (w1 & ->).
  eexists _, _, w1, w2. split; [reflexivity|]. split; [exact Hstats|].
  cbn [app AuditStatistics.drugsWithAnomalies AuditStatistics.expiredDrugs].
  simpl_world.
  assert (Hlen : length (omap (report_entry (World.contract w) (World.clock w))
                           (take 1000 (World.drug_composition_storage w)))
                 = count_if (λ d, anomalous_on_ledger (World.contract w)
                                    (StorageDoc.batchId d)
                                  || expired_in_store (World.clock w) d)
                     (take 1000 (World.drug_composition_storage w))).
  { rewrite length_omap_count. apply count_if_ext. intros d. apply reported_iff. }
  split; [done|]. split; [done|]. rewrite Hlen. apply count_if_or.
Qed.

Lemma anomaly_report_in_closed_form_witness :
  ∃ report stats w1 w2,
    get_drugs_with_anomalies Fixture.expired = (inr report, w1)
    ∧ get_audit_statistics Fixture.expired = (inr stats, w2)
    ∧ report = omap (report_entry (World.contract Fixture.expired)
                       (World.clock Fixture.expired))
                 (take 1000 (World.drug_composition_storage Fixture.expired))
    ∧ length report
      = count_if (λ d, anomalous_on_ledger (World.contract Fixture.expired)
                         (StorageDoc.batchId d)
                       || expired_in_store (World.clock Fixture.expired) d)
          (take 1000 (World.drug_composition_storage Fixture.expired))
    ∧ (AuditStatistics.drugsWithAnomalies stats ≤ length report)%nat
    ∧ (length report
       ≤ AuditStatistics.drugsWithAnomalies stats
         + AuditStatistics.expiredDrugs stats)%nat.
Proof.
  refine (anomaly_report_in_closed_form Fixture.expired _). reflexivity.
Defined.

Lemma filter_take_length {A} (p : A → bool) (n : nat) (l : list A) :
  (length (List.filter p (take n l)) ≤ length (take n (List.filter p l)))%nat.
Proof.
  revert n. induction l as [|x l IH]; intros [|n]; cbn; try lia.
  destruct (p x); cbn.
  - specialize (IH n). lia.
  - specialize (IH n). rewrite !length_take in *. lia.
Qed.

(** X28: the expired-drugs report.  Its count is the length of its list;
    every entry is past its expiry date, by the number of whole days it
    states; the entries are the first 1000 expired batches in stored order.
    The statistics count the expired among the first 1000 stored batches:
    never more than the report lists, and as many when at most 1000 batches
    are stored. *)
Theorem expired_report_and_statistics w :
  World.db_fault w = None →
  ∃ resp stats w1 w2,
    get_expired_drugs w = (inr resp, w1)
    ∧ get_audit_statistics w = (inr stats, w2)
    ∧ ExpiredResponse.count resp = length (ExpiredResponse.expiredDrugs resp)
    ∧ Forall (λ x, ExpiredDrug.expiryDate x < World.clock w
                   ∧ 0 ≤ ExpiredDrug.daysExpired x
                   ∧ 86400 * ExpiredDrug.daysExpired x
                     ≤ World.clock w - ExpiredDrug.expiryDate x
                     < 86400 * (ExpiredDrug.daysExpired x + 1))
        (ExpiredResponse.expiredDrugs resp)
    ∧ map ExpiredDrug.batchId (ExpiredResponse.expiredDrugs resp)
      = map StorageDoc.batchId
          (take 1000 (List.filter (expired_in_store (World.clock w))
                        (World.drug_composition_storage w)))
    ∧ (AuditStatistics.expiredDrugs stats ≤ ExpiredResponse.count resp)%nat
    ∧ ((length (World.drug_composition_storage w) ≤ 1000)%nat →
       AuditStatistics.expiredDrugs stats = ExpiredResponse.count resp).
Proof.
  intros Hdb.
  destruct (get_audit_statistics_eval w Hdb) as (w2 & Hstats).
  unfold get_expired_drugs, scan_expired, try_except, bind, Db.read, Db.call,
    time_time.
  repeat (cbn; simpl_world; rewrite ?Hdb).
  eexists _, _, _, w2. split; [reflexivity|]. split; [exact Hstats|].
  cbn [ExpiredResponse.count ExpiredResponse.expiredDrugs
       AuditStatistics.expiredDrugs].
  fold (expired_in_store (World.clock w)).
  set (expired := take 1000 (List.filter (expired_in_store (World.clock w))
                               (World.drug_composition_storage w))).
  repeat split.
  - apply Forall_map, Forall_forall. intros d Hd. cbn.
    assert (Hexp : StorageDoc.expiryDate d < World.clock w).
    { apply (subseteq_take 1000), list_elem_of_In, filter_In in Hd as [_ Hd].
      by apply Z.ltb_lt in Hd. }
    pose proof (Z.div_mod (World.clock w - StorageDoc.expiryDate d) 86400).
    pose proof (Z.mod_pos_bound (World.clock w - StorageDoc.expiryDate d) 86400).
    split; [done|]. split; [apply Z.div_pos; lia|]. lia.
  - by rewrite map_map.
  - rewrite length_map. apply filter_take_length.
  - intros Hsmall. rewrite length_map. unfold expired, count_if.
    pose proof (List.filter_length_le (expired_in_store (World.clock w))
                  (World.drug_composition_storage w)) as Hle.
    rewrite (firstn_all2 (World.drug_composition_storage w)) by lia.
    by rewrite firstn_all2 by lia.
Qed.

Lemma expired_report_and_statistics_witness :
  ∃ resp stats w1 w2,
    get_expired_drugs Fixture.expired = (inr resp, w1)
    ∧ get_audit_statistics Fixture.expired = (inr stats, w2)
    ∧ ExpiredResponse.count resp = length (ExpiredResponse.expiredDrugs resp)
    ∧ Forall (λ x, ExpiredDrug.expiryDate x < World.clock Fixture.expired
                   ∧ 0 ≤ ExpiredDrug.daysExpired x
                   ∧ 86400 * ExpiredDrug.daysExpired x
                     ≤ World.clock Fixture.expired - ExpiredDrug.expiryDate x
                     < 86400 * (ExpiredDrug.daysExpired x + 1))
        (ExpiredResponse.expiredDrugs resp)
    ∧ map ExpiredDrug.batchId (ExpiredResponse.expiredDrugs resp)
      = map StorageDoc.batchId
          (take 1000 (List.filter (expired_in_store (World.clock Fixture.expired))
                        (World.drug_composition_storage Fixture.expired)))
    ∧ (AuditStatistics.expiredDrugs stats ≤ ExpiredResponse.count resp)%nat
    ∧ ((length (World.drug_composition_storage Fixture.expired) ≤ 1000)%nat →
       AuditStatistics.expiredDrugs stats = ExpiredResponse.count resp).
Proof.
  refine (expired_report_and_statistics Fixture.expired _). reflexivity.
Defined.

Lemma get_user_activity_eval wallet w :
  World.db_fault w = None →
  fst (get_user_activity wallet w)
  = match user_of w wallet with
    | None => inl (HTTPException 404 [Lit "User not found"])
    | Some user =>
        if String.eqb (UserDoc.role user) "MANUFACTURER"
        then inr (ManufacturerActivity wallet (UserDoc.role user)
                    (length (take 1000 (registered_by wallet w)))
                    (map activity_entry (take 1000 (registered_by wallet w))))
        else inr (OtherActivity wallet (UserDoc.role user)
                    "Activity tracking for this role not yet implemented")
    end.
Proof.
  intros Hdb.
  unfold get_user_activity, scan_by_manufacturer, reraise_or_500, try_except, bind,
    Db.find_user, Db.read, Db.call, user_of, registered_by.
  repeat (cbn; simpl_world; rewrite ?Hdb).
  destruct (find _ (World.users w)) as [u|]; [|reflexivity].
  repeat (cbn; simpl_world; rewrite ?Hdb).
  destruct (String.eqb (UserDoc.role u) "MANUFACTURER"); [|reflexivity].
  repeat (cbn; simpl_world; rewrite ?Hdb). reflexivity.
Qed.

(** X29: registration and the activity report fit together: after a
    successful registration the activity of the manufacturer's address, as
    it was spelled in the request, is the activity before with the new batch
    appended, as long as fewer than 1000 batches were listed; from 1000 on
    the report does not change. *)
Theorem activity_after_registration d w r w' :
  World.db_fault w = None →
  Drugs.register_drug d w = (inr r, w') →
  let wallet := DrugRegistrationRequest.manufacturerAddress d in
  let before := map activity_entry (take 1000 (registered_by wallet w)) in
  fst (get_user_activity wallet w)
  = inr (ManufacturerActivity wallet "MANUFACTURER" (length before) before)
  ∧ ((length (registered_by wallet w) < 1000)%nat →
     fst (get_user_activity wallet w')
     = inr (ManufacturerActivity wallet "MANUFACTURER" (S (length before))
              (before
               ++ [ {| RegisteredDrug.batchId := DrugRegistrationRequest.batchId d;
                       RegisteredDrug.drugName := DrugRegistrationRequest.drugName d;
                       RegisteredDrug.registrationTimestamp := World.clock w |} ])))
  ∧ ((1000 ≤ length (registered_by wallet w))%nat →
     fst (get_user_activity wallet w') = fst (get_user_activity wallet w)).
Proof.
  intros Hdb Hreg wallet before.
  rewrite (register_drug_eval d w Hdb) in Hreg.
  destruct (stored w _) as [s|]; [done|].
  unfold is_manufacturer in Hreg. fold wallet in Hreg.
  destruct (user_of w wallet) as [m|] eqn:Hm; [|done].
  destruct (String.eqb_spec (UserDoc.role m) "MANUFACTURER") as [Hrole|]; [|done].
  cbn [negb] in Hreg.
  destruct (rejection d w); [done|].
  destruct (Contract.registerDrug _ _ _ _ _ _ _) as [err|tx]; [done|].
  injection Hreg as <- <-.
  destruct (registration_stored_facts d w) as (Hstorage & _ & Husers & Hdb' & _).
  rewrite Hdb in Hdb'.
  assert (Hm' : user_of (registration_stored d w) wallet = Some m)
    by (unfold user_of in *; by rewrite Husers).
  assert (Hby : registered_by wallet (registration_stored d w)
                = registered_by wallet w ++ [registered_storage_doc d (World.clock w)]).
  { unfold registered_by. rewrite Hstorage, List.filter_app. cbn.
    fold wallet. by rewrite String.eqb_refl. }
  rewrite (get_user_activity_eval _ _ Hdb), (get_user_activity_eval _ _ Hdb'),
    Hm, Hm', Hrole, Hby.
  change ("MANUFACTURER" =? "MANUFACTURER")%string with true. cbn match.
  unfold before. rewrite !length_map.
  split; [done|]. split.
  - intros Hfew. rewrite !firstn_all2 by (rewrite ?length_app; cbn; lia).
    rewrite map_app, !length_app. cbn [map length activity_entry].
    f_equal. f_equal. lia.
  - intros Hfull. by rewrite take_app_le by lia.
Qed.

Lemma activity_after_registration_witness :
  let wallet := "0xaa" in
  let before := map activity_entry (take 1000 (registered_by wallet Fixture.genuine)) in
  fst (get_user_activity wallet Fixture.genuine)
  = inr (ManufacturerActivity wallet "MANUFACTURER" (length before) before)
  ∧ ((length (registered_by wallet Fixture.genuine) < 1000)%nat →
     fst (get_user_activity wallet
            (registration_stored Scenario.paracetamol_batch Fixture.genuine))
     = inr (ManufacturerActivity wallet "MANUFACTURER" (S (length before))
              (before
               ++ [ {| RegisteredDrug.batchId := "B3";
                       RegisteredDrug.drugName := "Paracetamol";
                       RegisteredDrug.registrationTimestamp :=
                         World.clock Fixture.genuine |} ])))
  ∧ ((1000 ≤ length (registered_by wallet Fixture.genuine))%nat →
     fst (get_user_activity wallet
            (registration_stored Scenario.paracetamol_batch Fixture.genuine))
     = fst (get_user_activity wallet Fixture.genuine)).
Proof.
  refine (activity_after_registration Scenario.paracetamol_batch Fixture.genuine
            (registration_response Scenario.paracetamol_batch)
            (registration_stored Scenario.paracetamol_batch Fixture.genuine) _ _).
  - reflexivity.
  - vm_compute. reflexivity.
Defined.

End ReportLaws.
